(** * grayskull: the training driver [train.py]

    A shallow embedding of [main] from [train.py] (Python 2) and the
    properties of its episode loop, step loop, exception handling and
    finalization.

    The driver talks to collaborators that live outside the script: the
    [gym] environment, the agent taken from the [AGENTS] registry, the
    operating system and the operator at the console.  They are modelled
    as functions on an abstract [World]; each call either returns a value
    or raises a Python exception.  Every call the driver makes is recorded,
    with its reply, in a trace, so that properties such as "how many
    episodes ran" or "which flag was handed to the learning hook" are
    statements about that trace.  An exception that Python delivers
    asynchronously, such as [KeyboardInterrupt], is modelled as raised by
    the call during which it arrives. *)

From Stdlib Require Import ZArith List String Ascii Bool Lia.
From Equations Require Import Equations.
From Equations.Prop Require Import Logic.
Import ListNotations.

Local Open Scope string_scope.
Local Open Scope Z_scope.
Local Open Scope list_scope.

(** ** Python values used by the driver *)

(** The exceptions the driver distinguishes.  [OtherError] stands for any
    exception of a collaborator that [main] has no handler for. *)
Inductive exn : Type :=
| KeyboardInterrupt
| SolvedGame
| IncompatibleGameError
| NameError (name : string)
| OtherError (what : string).

(** The value bound to the parameter [save]: [None] (ask at the end), a
    Python [bool], or the integer that [distutils.util.strtobool] returns
    when the value comes from the command line. *)
Inductive save_val : Type :=
| SaveNone
| SaveBool (b : bool)
| SaveInt (n : Z).

(** [save is True] *)
Definition is_True (v : save_val) : bool :=
  match v with SaveBool true => true | _ => false end.

(** [save is None] *)
Definition is_None (v : save_val) : bool :=
  match v with SaveNone => true | _ => false end.

(** [if save:] *)
Definition truthy (v : save_val) : bool :=
  match v with
  | SaveNone => false
  | SaveBool b => b
  | SaveInt n => negb (n =? 0)
  end.

(** The variable [agent] first holds the agent's name, then (line 83) the
    agent object itself; the object's state belongs to the world. *)
Inductive agent_var : Type :=
| AgentName (name : string)
| AgentObject.

(** What [main] returns: [None] (line 91) or the agent (line 152). *)
Inductive returned : Type :=
| RetNone
| RetAgent (a : agent_var).

(** A path is kept as the list of the components given to [os.path.join]. *)
Definition path : Type := list string.

Definition path_join (p : path) (leaf : string) : path := p ++ [leaf].

(** [str.lower] on ASCII letters. *)
Definition lower_ascii (c : ascii) : ascii :=
  let n := nat_of_ascii c in
  if (Nat.leb 65 n && Nat.leb n 90)%bool then ascii_of_nat (n + 32) else c.

Fixpoint lower (s : string) : string :=
  match s with
  | EmptyString => EmptyString
  | String c rest => String (lower_ascii c) (lower rest)
  end.

(** [step < max_steps] and [step == max_steps], where [max_steps] is what
    [tags.get(...)] gave: an integer, or [None] when the tag is absent.
    In Python 2 [None] orders below every number and equals none. *)
Definition py_lt (step : Z) (max_steps : option Z) : bool :=
  match max_steps with
  | Some m => step <? m
  | None => false
  end.

Definition py_eq (step : Z) (max_steps : option Z) : bool :=
  match max_steps with
  | Some m => step =? m
  | None => false
  end.

(** ** Name resolution *)

(** The names bound at module level: the imports of lines 2-13, [log],
    [GAMES], [main] and [parse_args]. *)
Definition module_globals : list string :=
  [ "argparse"; "distutils"; "json"; "logging"; "os"; "time"; "gym";
    "AGENTS"; "grayskull"; "log"; "GAMES"; "main"; "parse_args" ].

(** The Python 2 builtins that the script refers to. *)
Definition builtins_used : list string :=
  [ "raw_input"; "KeyboardInterrupt"; "True"; "False"; "None"; "sorted" ].

Definition bound (name : string) : bool :=
  existsb (String.eqb name) (module_globals ++ builtins_used).

(** The non-local names that the body of [main] reads outside the seeding
    branch of lines 74-77. *)
Definition names_read_by_main : list string :=
  [ "time"; "os"; "gym"; "AGENTS"; "grayskull"; "log"; "raw_input";
    "KeyboardInterrupt"; "True"; "None"; "False" ].

(** ** Log records *)

Inductive level : Type := DEBUG | INFO | ERROR.

(** The reply of a collaborator to a call. *)
Inductive reply (A : Type) : Type :=
| Ok (a : A)
| Err (e : exn).
Arguments Ok {A} a.
Arguments Err {A} e.

(** How a piece of the driver ends: with a value, with a pending
    exception, or still running when the fuel of the model is spent. *)
Inductive outcome (A : Type) : Type :=
| Return (a : A)
| Raise (e : exn)
| OutOfFuel.
Arguments Return {A} a.
Arguments Raise {A} e.
Arguments OutOfFuel {A}.

Section Driver.

(** Observations, actions and rewards are whatever the environment
    deals in; rewards come with the addition used by [+=] and with the
    value of the literal [0.0]. *)
Context {Obs Act Reward AgentArgs World : Type}.
Variable radd : Reward -> Reward -> Reward.
Variable rzero : Reward.

(** A format argument of [str.format]. *)
Inductive fmt_arg : Type :=
| ArgInt (n : Z)
| ArgReward (r : Reward).

(** A log message: an exception object, a literal, or a template with
    the arguments given to [format]. *)
Inductive message : Type :=
| MsgExn (e : exn)
| MsgText (text : string)
| MsgFormat (template : string) (args : list fmt_arg).

(** The collaborators.  [time_strftime] is
    [time.strftime('%y-%m-%d-%H-%M-%S', time.localtime())];
    [agent_new] is [AGENTS[agent_name](action_space=..., ...)], the
    registry lookup included; [env_max_episode_steps] is
    [env.spec.tags.get('wrapper_config.TimeLimit.max_episode_steps')]. *)
Record collaborators : Type := {
  time_strftime : World -> string;
  os_makedirs : path -> World -> reply unit * World;
  gym_make : string -> World -> reply unit * World;
  env_seed : Z -> World -> reply unit * World;
  agent_new : string -> path -> AgentArgs -> World -> reply unit * World;
  env_max_episode_steps : World -> option Z;
  env_reset : World -> reply Obs * World;
  env_render : World -> reply unit * World;
  agent_act : Obs -> World -> reply Act * World;
  env_step : Act -> World -> reply (Obs * Reward * bool) * World;
  agent_react :
    Obs -> Act -> Reward -> bool -> Obs -> bool -> World -> reply unit * World;
  raw_input : string -> World -> reply string * World;
  agent_save : path -> World -> reply unit * World
}.

Variable C : collaborators.

(** One entry of the trace: a call of the driver with its reply, or a
    record handed to the logger. *)
Inductive event : Type :=
| EvMakedirs (p : path) (r : reply unit)
| EvMake (game : string) (r : reply unit)
| EvSeed (seed : Z) (r : reply unit)
| EvNew (agent_name : string) (results_path : path) (r : reply unit)
| EvReset (r : reply Obs)
| EvRender (r : reply unit)
| EvAct (o : Obs) (r : reply Act)
| EvStep (a : Act) (r : reply (Obs * Reward * bool))
| EvReact (o : Obs) (a : Act) (rew : Reward) (done : bool) (o' : Obs)
          (truncated : bool) (r : reply unit)
| EvPrompt (question : string) (r : reply string)
| EvSave (p : path) (r : reply unit)
| EvLog (l : level) (m : message).

(** The variables of [main] that are parameters, together with
    [episode], which the [except] clause of line 142 reads. *)
Record frame : Type := {
  game : string;
  agent : agent_var;
  agent_args : AgentArgs;
  episodes : Z;
  render : bool;
  monitor : bool;
  seed : option Z;
  save : save_val;
  episode : Z
}.

(** Two frames agree on the run configuration, the save flag and the
    variable [agent] left aside. *)
Definition same_settings (f f' : frame) : Prop :=
  game f' = game f /\ agent_args f' = agent_args f /\
  episodes f' = episodes f /\ render f' = render f /\
  monitor f' = monitor f /\ seed f' = seed f.

(** Nothing of the run configuration differs between two frames. *)
Definition configuration_untouched (f f' : frame) : Prop :=
  same_settings f f' /\ save f' = save f.

(** The save flag is left as it was, or went from [None] to [True]. *)
Definition save_resolved (before after : save_val) : Prop :=
  after = before \/ (before = SaveNone /\ after = SaveBool true).

Record state : Type := {
  world : World;
  trace : list event;
  vars : frame
}.

(** ** The driver monad: state, exceptions and fuel *)

Definition M (A : Type) : Type := state -> outcome A * state.

Definition ret {A} (a : A) : M A := fun s => (Return a, s).

Definition raise {A} (e : exn) : M A := fun s => (Raise e, s).

Definition out_of_fuel {A} : M A := fun s => (OutOfFuel, s).

Definition bind {A B} (m : M A) (k : A -> M B) : M B :=
  fun s =>
    match m s with
    | (Return a, s') => k a s'
    | (Raise e, s') => (Raise e, s')
    | (OutOfFuel, s') => (OutOfFuel, s')
    end.

Notation "x <- m ;; k" := (bind m (fun x => k))
  (at level 61, m at next level, right associativity).
Notation "m ;;; k" := (bind m (fun _ => k))
  (at level 61, right associativity).

Definition emit (e : event) : M unit :=
  fun s => (Return tt, {| world := world s; trace := trace s ++ [e];
                          vars := vars s |}).

(** A call to a collaborator: the world moves on, the call and its
    reply are recorded, and an [Err] reply is raised. *)
Definition raised {A} (r : reply A) : outcome A :=
  match r with
  | Ok a => Return a
  | Err e => Raise e
  end.

Definition call {A} (record : reply A -> event)
           (f : World -> reply A * World) : M A :=
  fun s =>
    let (r, w) := f (world s) in
    (raised r, {| world := w; trace := trace s ++ [record r];
                  vars := vars s |}).

Definition read {A} (field : frame -> A) : M A :=
  fun s => (Return (field (vars s)), s).

Definition peek {A} (f : World -> A) : M A :=
  fun s => (Return (f (world s)), s).

Definition assign (update : frame -> frame) : M unit :=
  fun s => (Return tt, {| world := world s; trace := trace s;
                          vars := update (vars s) |}).

Definition set_agent (a : agent_var) (f : frame) : frame :=
  {| game := game f; agent := a; agent_args := agent_args f;
     episodes := episodes f; render := render f; monitor := monitor f;
     seed := seed f; save := save f; episode := episode f |}.

Definition set_save (v : save_val) (f : frame) : frame :=
  {| game := game f; agent := agent f; agent_args := agent_args f;
     episodes := episodes f; render := render f; monitor := monitor f;
     seed := seed f; save := v; episode := episode f |}.

Definition set_episode (n : Z) (f : frame) : frame :=
  {| game := game f; agent := agent f; agent_args := agent_args f;
     episodes := episodes f; render := render f; monitor := monitor f;
     seed := seed f; save := save f; episode := n |}.

Definition log (l : level) (m : message) : M unit := emit (EvLog l m).

(** Reading a global name. *)
Definition load_name (name : string) : M unit :=
  if bound name then ret tt else raise (NameError name).

(** How a [try] statement ends once its [finally] block has run: as
    the block ended if that was with an exception, else as was pending
    before it. *)
Definition after_final {A} (pending : outcome A) (fo : outcome unit)
  : outcome A :=
  match fo with
  | Return _ => pending
  | Raise e => Raise e
  | OutOfFuel => OutOfFuel
  end.

(** [try: body  except <handlers>  finally: final].  A handler is
    chosen by [handlers]; [final] runs whether the body returned,
    raised a handled exception or raised another one. *)
Definition try_except_finally {A} (body : M A)
           (handlers : exn -> option (M A)) (final : M unit) : M A :=
  fun s =>
    let (o, s1) := body s in
    let (o', s2) :=
      match o with
      | Raise e =>
          match handlers e with
          | Some h => h s1
          | None => (Raise e, s1)
          end
      | _ => (o, s1)
      end in
    match o' with
    | OutOfFuel => (OutOfFuel, s2)
    | _ => let (fo, s3) := final s2 in (after_final o' fo, s3)
    end.

(** [runs m s Q]: run from [s], the computation [m] appends some
    events [evs] to the trace and ends with an outcome [o] in a state
    [s'] such that [Q o evs s']. *)
Definition runs {A} (m : M A) (s : state)
           (Q : outcome A -> list event -> state -> Prop) : Prop :=
  exists evs,
    trace (snd (m s)) = trace s ++ evs /\ Q (fst (m s)) evs (snd (m s)).

(** ** The step loop, lines 112-136 *)

(** The number of iterations the loop test can still allow. *)
Definition steps_left (max_steps : option Z) (step : Z) : nat :=
  match max_steps with
  | Some m => Z.to_nat (m - step)
  | None => 0%nat
  end.

(** The body of the loop, lines 113-136, entered with [step] already
    incremented.  It yields the new values of [observation],
    [total_reward] and [done]. *)
Definition step_body (max_steps : option Z) (step : Z) (observation : Obs)
           (total_reward : Reward) : M (Obs * Reward * bool) :=
  rd <- read render ;;
  (if rd : bool then call EvRender (env_render C) else ret tt) ;;;
  action <- call (EvAct observation) (agent_act C observation) ;;
  res <- call (EvStep action) (env_step C action) ;;
  let '(new_observation, reward, done) := res in
  let total_reward := radd total_reward reward in
  call (EvReact observation action reward done new_observation
                (py_eq step max_steps))
       (agent_react C observation action reward done new_observation
                    (py_eq step max_steps)) ;;;
  let observation := new_observation in
  ret (observation, total_reward, done).

(** [while step < max_steps and not done: ...]; the result is the
    value of [total_reward] when the loop is left.  The loop ends by
    itself: [max_steps - step] shrinks with every iteration. *)
Equations? step_loop (max_steps : option Z) (step : Z) (done : bool)
           (observation : Obs) (total_reward : Reward) (s : state)
  : outcome Reward * state
  by wf (steps_left max_steps step) lt :=
  step_loop max_steps step done observation total_reward s
    with inspect (py_lt step max_steps && negb done)%bool := {
    | exist _ true Hcond =>
        let step := step + 1 in
        (r <- step_body max_steps step observation total_reward ;;
         let '(observation, total_reward, done) := r in
         fun s' =>
           step_loop max_steps step done observation total_reward s') s
    | exist _ false _ => ret total_reward s
    }.
Proof.
  apply andb_prop in Hcond. destruct Hcond as [Hlt _].
  unfold steps_left. destruct max_steps as [m|]; simpl in Hlt; [|discriminate].
  apply Z.ltb_lt in Hlt. lia.
Qed.

(** ** The episode loop, lines 100-138 *)

(** The body of the loop: one episode. *)
Definition run_episode (max_steps : option Z) : M unit :=
  ep <- read episode ;;
  assign (set_episode (ep + 1)) ;;;
  observation <- call EvReset (env_reset C) ;;
  total_reward <- step_loop max_steps 0 false observation rzero ;;
  ep <- read episode ;;
  log DEBUG (MsgFormat "Episode {}: {}" [ArgInt ep; ArgReward total_reward]).

(** [while episodes == -1 or episode < episodes: ...].  The loop need
    not end, so the model takes fuel: one unit for each episode
    entered, the test coming first. *)
Fixpoint episode_loop (fuel : nat) (max_steps : option Z) : M unit :=
  eps <- read episodes ;;
  ep <- read episode ;;
  if ((eps =? -1) || (ep <? eps))%bool then
    match fuel with
    | O => out_of_fuel
    | S fuel' => run_episode max_steps ;;; episode_loop fuel' max_steps
    end
  else ret tt.

(** The [except] clauses of lines 139-142. *)
Definition loop_handlers (e : exn) : option (M unit) :=
  match e with
  | KeyboardInterrupt => Some (log ERROR (MsgText "Canceled by user!"))
  | SolvedGame =>
      Some (ep <- read episode ;;
            log INFO (MsgFormat "Solved after {} episodes!" [ArgInt ep]))
  | _ => None
  end.

(** The [finally] block of lines 143-150. *)
Definition finalize (results_path : path) : M unit :=
  sv <- read save ;;
  (if is_None sv then
     yn <- call (EvPrompt "Save agent? ") (raw_input C "Save agent? ") ;;
     if String.eqb (lower yn) "y"
     then assign (set_save (SaveBool true))
     else ret tt
   else ret tt) ;;;
  sv <- read save ;;
  if truthy sv then
    call (EvSave (path_join results_path "final.pkl"))
         (agent_save C (path_join results_path "final.pkl"))
  else ret tt.

(** The [try] statement of lines 98-150. *)
Definition try_block (fuel : nat) (max_steps : option Z)
           (results_path : path) : M unit :=
  try_except_finally (episode_loop fuel max_steps) loop_handlers
                     (finalize results_path).

(** The [except] clause of lines 89-91; [false] stands for the
    [return] of line 91. *)
Definition new_handlers (e : exn) : option (M bool) :=
  match e with
  | IncompatibleGameError => Some (log ERROR (MsgExn e) ;;; ret false)
  | _ => None
  end.

(** ** [main], lines 64-152 *)

Definition results_dir (agent_name game date : string) : path :=
  ["results"; agent_name; game; date].

(** Lines 64-94, everything before the [try] statement: the results
    directory, the environment, the seeding and the agent.  It yields
    [results_path] and [max_steps], or nothing when line 91 returns.
    In the seeding branch [random.seed] and [np.random.seed] start by
    reading the global names [random] and [np]; [env._seed] is a call of
    the environment. *)
Definition setup : M (option (path * option Z)) :=
  date <- peek (time_strftime C) ;;
  a <- read agent ;;
  match a with
  | AgentObject => raise (OtherError "AttributeError")
  | AgentName name =>
      g <- read game ;;
      let results_path := results_dir name g date in
      sv <- read save ;;
      (if is_True sv
       then call (EvMakedirs results_path) (os_makedirs C results_path)
       else ret tt) ;;;
      call (EvMake g) (gym_make C g) ;;;
      sd <- read seed ;;
      match sd with
      | Some n =>
          load_name "random" ;;;
          load_name "np" ;;;
          call (EvSeed n) (env_seed C n)
      | None => ret tt
      end ;;;
      let agent_name := name in
      args <- read agent_args ;;
      constructed <-
        try_except_finally
          (call (EvNew agent_name results_path)
                (agent_new C agent_name results_path args) ;;;
           assign (set_agent AgentObject) ;;;
           ret true)
          new_handlers (ret tt) ;;
      if constructed : bool then
        max_steps <- peek (env_max_episode_steps C) ;;
        ret (Some (results_path, max_steps))
      else ret None
  end.

(** Lines 96-152: the episode counter, the [try] statement and the
    [return] of the agent. *)
Definition main_body (fuel : nat) : M returned :=
  prepared <- setup ;;
  match prepared with
  | None => ret RetNone
  | Some (results_path, max_steps) =>
      assign (set_episode 0) ;;;
      try_block fuel max_steps results_path ;;;
      a <- read agent ;;
      ret (RetAgent a)
  end.

(** The frame at the call: the parameters hold the arguments;
    [episode] is not read before line 96 assigns it. *)
Definition initial_frame (game agent : string) (agent_args : AgentArgs)
           (episodes : Z) (render monitor : bool) (seed : option Z)
           (save : save_val) : frame :=
  {| game := game; agent := AgentName agent; agent_args := agent_args;
     episodes := episodes; render := render; monitor := monitor;
     seed := seed; save := save; episode := 0 |}.

Definition start (f : frame) (w : World) : state :=
  {| world := w; trace := []; vars := f |}.

(** [main] called with its arguments in the world [w]; [fuel] bounds the
    number of episodes the model follows. *)
Definition main (fuel : nat) (game agent : string) (agent_args : AgentArgs)
           (episodes : Z) (render monitor : bool) (seed : option Z)
           (save : save_val) (w : World) : outcome returned * state :=
  main_body fuel
    (start (initial_frame game agent agent_args episodes render monitor
                          seed save) w).

End Driver.

(** ** Reading a trace *)

Section Observers.

Context {Obs Act Reward : Type}.

Definition is_reset (e : @event Obs Act Reward) : bool :=
  match e with EvReset _ => true | _ => false end.

Definition is_step (e : @event Obs Act Reward) : bool :=
  match e with EvStep _ _ => true | _ => false end.

Definition is_makedirs (e : @event Obs Act Reward) : bool :=
  match e with EvMakedirs _ _ => true | _ => false end.

Definition is_new (e : @event Obs Act Reward) : bool :=
  match e with EvNew _ _ _ => true | _ => false end.

Definition is_prompt (e : @event Obs Act Reward) : bool :=
  match e with EvPrompt _ _ => true | _ => false end.

Definition is_save (e : @event Obs Act Reward) : bool :=
  match e with EvSave _ _ => true | _ => false end.

(** The events the step loop can produce. *)
Definition step_event (e : @event Obs Act Reward) : bool :=
  match e with
  | EvRender _ | EvAct _ _ | EvStep _ _ | EvReact _ _ _ _ _ _ _ => true
  | _ => false
  end.

(** The events the episode loop can produce. *)
Definition loop_event (e : @event Obs Act Reward) : bool :=
  match e with
  | EvReset _ | EvRender _ | EvAct _ _ | EvStep _ _
  | EvReact _ _ _ _ _ _ _ | EvLog _ _ => true
  | _ => false
  end.

(** The events of lines 64-94. *)
Definition setup_event (e : @event Obs Act Reward) : bool :=
  match e with
  | EvMakedirs _ _ | EvMake _ _ | EvSeed _ _ | EvNew _ _ _ | EvLog _ _ => true
  | _ => false
  end.

(** The events of the [finally] block. *)
Definition final_event (e : @event Obs Act Reward) : bool :=
  match e with
  | EvPrompt _ _ | EvSave _ _ => true
  | _ => false
  end.

(** The call recorded by the event returned; a log record counts as
    returned. *)
Definition replied_ok (e : @event Obs Act Reward) : bool :=
  match e with
  | EvMakedirs _ (Ok _) | EvMake _ (Ok _) | EvSeed _ (Ok _)
  | EvNew _ _ (Ok _) | EvReset (Ok _) | EvRender (Ok _) | EvAct _ (Ok _)
  | EvStep _ (Ok _) | EvReact _ _ _ _ _ _ (Ok _) | EvPrompt _ (Ok _)
  | EvSave _ (Ok _) | EvLog _ _ => true
  | _ => false
  end.

(** How many events of a kind a trace holds. *)
Definition count (kind : @event Obs Act Reward -> bool) (evs : list (@event Obs Act Reward)) : nat :=
  List.length (filter kind evs).

(** The [(done, truncated)] pairs handed to [agent.react], in order. *)
Definition react_flags (evs : list (@event Obs Act Reward)) : list (bool * bool) :=
  flat_map (fun e => match e with
                     | EvReact _ _ _ done _ truncated _ => [(done, truncated)]
                     | _ => []
                     end) evs.

(** The rewards that [env.step] returned, in order. *)
Definition step_rewards (evs : list (@event Obs Act Reward)) : list Reward :=
  flat_map (fun e => match e with
                     | EvStep _ (Ok (_, reward, _)) => [reward]
                     | _ => []
                     end) evs.

(** The [(episode, total_reward)] pairs of the records of line 138. *)
Definition episode_totals (evs : list (@event Obs Act Reward)) : list (Z * Reward) :=
  flat_map (fun e => match e with
                     | EvLog DEBUG (MsgFormat _ [ArgInt n; ArgReward r]) =>
                         [(n, r)]
                     | _ => []
                     end) evs.

(** No transition on which the environment reports [done] carries the
    truncation flag. *)
Definition truncated_only_without_done (flags : list (bool * bool)) : Prop :=
  forall done truncated,
    In (done, truncated) flags -> done = true -> truncated = false.

(** The run made no directory and saved no file. *)
Definition nothing_written (evs : list (@event Obs Act Reward)) : Prop :=
  count is_makedirs evs = 0%nat /\ count is_save evs = 0%nat.

(** The sum that [total_reward += reward] builds from [0.0]. *)
Definition reward_sum (radd : Reward -> Reward -> Reward) (rzero : Reward)
           (rewards : list Reward) : Reward :=
  fold_left radd rewards rzero.

End Observers.

(** ** What the [try] statement guarantees *)

Section Summaries.

Context {Obs Act Reward AgentArgs World : Type}.

(** Run from [s], the [try] statement of lines 98-150 ends in [s'] with
    outcome [o] after the events [evs]: no variable but [episode] and
    [save] has changed; [episode] has grown by the number of calls of
    [env.reset]; the events are those of the loop and its handlers,
    followed by those of the [finally] block, which asks once when
    [save] was [None] and saves at most once, under
    [results_path/final.pkl]. *)
Definition try_post (results_path : path)
           (s : @state Obs Act Reward AgentArgs World)
           (o : outcome unit) (evs : list (@event Obs Act Reward))
           (s' : @state Obs Act Reward AgentArgs World) : Prop :=
  vars s' = set_save (save (vars s'))
                     (set_episode (episode (vars s')) (vars s)) /\
  save_resolved (save (vars s)) (save (vars s')) /\
  episode (vars s') = episode (vars s) + Z.of_nat (count is_reset evs) /\
  (episodes (vars s) <> -1 ->
   episode (vars s') <= Z.max (episode (vars s)) (episodes (vars s))) /\
  (o = OutOfFuel ->
   ((episodes (vars s) =? -1)
    || (episode (vars s') <? episodes (vars s)))%bool = true) /\
  exists loop_evs final_evs,
    evs = loop_evs ++ final_evs /\
    forallb loop_event loop_evs = true /\
    forallb final_event final_evs = true /\
    (o <> OutOfFuel ->
     count is_prompt final_evs
     = (if is_None (save (vars s)) then 1 else 0)%nat) /\
    (count is_save final_evs <= 1)%nat /\
    (forall q yn, In (EvPrompt q (Ok yn)) final_evs -> lower yn = "y" ->
                  exists r,
                    In (EvSave (path_join results_path "final.pkl") r)
                       final_evs) /\
    (forall p r, In (EvSave p r) final_evs ->
                 p = path_join results_path "final.pkl" /\
                 truthy (save (vars s')) = true).

(** Run from [s], where [agent] holds the name [a], lines 64-94 end
    in [s'] with outcome [o] after the events [evs]: only the variable
    [agent] may have changed; the results directory is made exactly
    when [save is True]; the [try] statement is reached only without a
    seed and with the agent built; line 91 returns exactly when the
    constructor raised the incompatibility error; with a seed the
    constructor is never called. *)
Definition setup_post (a : string) (results_path : path)
           (s : @state Obs Act Reward AgentArgs World)
           (o : outcome (option (path * option Z)))
           (evs : list (@event Obs Act Reward))
           (s' : @state Obs Act Reward AgentArgs World) : Prop :=
  same_settings (vars s) (vars s') /\
  save (vars s') = save (vars s) /\
  episode (vars s') = episode (vars s) /\
  forallb setup_event evs = true /\
  count is_makedirs evs = (if is_True (save (vars s)) then 1 else 0)%nat /\
  match o with
  | Return (Some (results_path', _)) =>
      results_path' = results_path /\
      seed (vars s) = None /\
      agent (vars s') = AgentObject /\
      filter is_new evs = [EvNew a results_path (Ok tt)]
  | Return None =>
      seed (vars s) = None /\
      agent (vars s') = AgentName a /\
      filter is_new evs = [EvNew a results_path (Err IncompatibleGameError)] /\
      filter is_makedirs evs
      = (if is_True (save (vars s))
         then [EvMakedirs results_path (Ok tt)] else []) /\
      In (EvLog ERROR (MsgExn IncompatibleGameError)) evs
  | Raise e =>
      agent (vars s') = AgentName a /\
      (forall n p, ~ In (EvNew n p (Err IncompatibleGameError)) evs) /\
      (seed (vars s) <> None ->
       filter is_new evs = [] /\
       (forallb replied_ok evs = true -> e = NameError "random"))
  | OutOfFuel => False
  end.

(** How [main] ends, given how lines 64-94 ended ([so], after the
    events [sevs], in [s1]). *)
Definition main_post (a : string) (results_path : path)
           (s : @state Obs Act Reward AgentArgs World)
           (o : outcome returned) (evs : list (@event Obs Act Reward))
           (s' : @state Obs Act Reward AgentArgs World) : Prop :=
  exists so sevs s1,
    setup_post a results_path s so sevs s1 /\
    match so with
    | Return (Some _) =>
        exists s1' tevs tout,
          vars s1' = set_episode 0 (vars s1) /\
          try_post results_path s1' tout tevs s' /\
          evs = sevs ++ tevs /\
          o = match tout with
              | Return _ => Return (RetAgent (agent (vars s')))
              | Raise e => Raise e
              | OutOfFuel => OutOfFuel
              end
    | Return None => o = Return RetNone /\ evs = sevs /\ s' = s1
    | Raise e => o = Raise e /\ evs = sevs /\ s' = s1
    | OutOfFuel => False
    end.

(** ** Episodes that end by themselves *)

(** In the loop the collaborators never raise, and [env.step] reports
    [done] exactly on the [n]-th step after a reset; [clock] reads the
    number of steps taken since the reset off the world. *)
Definition done_at_step (n : Z)
           (C : @collaborators Obs Act Reward AgentArgs World)
           (clock : World -> Z) : Prop :=
  (forall w, exists o w', env_reset C w = (Ok o, w') /\ clock w' = 0) /\
  (forall w, exists w', env_render C w = (Ok tt, w') /\ clock w' = clock w) /\
  (forall o w, exists a w',
      agent_act C o w = (Ok a, w') /\ clock w' = clock w) /\
  (forall a w, exists o r w',
      env_step C a w = (Ok (o, r, clock w + 1 =? n), w') /\
      clock w' = clock w + 1) /\
  (forall o a r d o' t w, exists w',
      agent_react C o a r d o' t w = (Ok tt, w') /\ clock w' = clock w).

(** [evs] is [n] pieces in a row, each a [piece]. *)
Fixpoint made_of (n : nat) (piece : list (@event Obs Act Reward) -> Prop)
         (evs : list (@event Obs Act Reward)) : Prop :=
  match n with
  | O => evs = []
  | S n' =>
      exists first rest,
        evs = first ++ rest /\ piece first /\ made_of n' piece rest
  end.

(** The events of an episode that ends by itself on its fifth step: a
    reset, five steps of which the last reports [done], no transition
    flagged as truncated, and the record of line 138. *)
Definition five_step_episode (evs : list (@event Obs Act Reward)) : Prop :=
  exists obs steps number total,
    evs = EvReset (Ok obs)
          :: steps
          ++ [EvLog DEBUG (MsgFormat "Episode {}: {}"
                                     [ArgInt number; ArgReward total])] /\
    forallb step_event steps = true /\
    count is_step steps = 5%nat /\
    react_flags steps
    = [(false, false); (false, false); (false, false); (false, false);
       (true, false)].

End Summaries.

(** ** Transitions and the events of a step *)

Section Transitions.

Context {Obs Act Reward : Type}.

Definition is_render (e : @event Obs Act Reward) : bool :=
  match e with EvRender _ => true | _ => false end.

Definition is_act (e : @event Obs Act Reward) : bool :=
  match e with EvAct _ _ => true | _ => false end.

Definition is_seed (e : @event Obs Act Reward) : bool :=
  match e with EvSeed _ _ => true | _ => false end.

Definition is_make (e : @event Obs Act Reward) : bool :=
  match e with EvMake _ _ => true | _ => false end.

(** The exception with which the call recorded by an event ended. *)
Definition raised_by (e : @event Obs Act Reward) : option exn :=
  match e with
  | EvMakedirs _ (Err x) | EvMake _ (Err x) | EvSeed _ (Err x)
  | EvNew _ _ (Err x) | EvReset (Err x) | EvRender (Err x) | EvAct _ (Err x)
  | EvStep _ (Err x) | EvReact _ _ _ _ _ _ (Err x) | EvPrompt _ (Err x)
  | EvSave _ (Err x) => Some x
  | _ => None
  end.

(** A loop event that a run with the render flag [rd] can hold:
    [env.render] only when the flag is set. *)
Definition loop_event_under (rd : bool) (e : @event Obs Act Reward) : bool :=
  (loop_event e && (negb (is_render e) || rd))%bool.

(** One pass through lines 113-136 that ran to its end. *)
Record transition : Type := {
  t_observation : Obs;
  t_action : Act;
  t_reward : Reward;
  t_done : bool;
  t_new_observation : Obs
}.

(** The events of the pass that made [step] the value of the counter. *)
Definition iteration (rd : bool) (max_steps : option Z) (step : Z)
           (t : transition) : list (@event Obs Act Reward) :=
  (if rd then [EvRender (Ok tt)] else [])
  ++ [EvAct (t_observation t) (Ok (t_action t));
      EvStep (t_action t) (Ok (t_new_observation t, t_reward t, t_done t));
      EvReact (t_observation t) (t_action t) (t_reward t) (t_done t)
              (t_new_observation t) (py_eq step max_steps) (Ok tt)].

(** The events of the passes [ts], made one after the other from the
    counter value [step] on. *)
Fixpoint iterations (rd : bool) (max_steps : option Z) (step : Z)
         (ts : list transition) : list (@event Obs Act Reward) :=
  match ts with
  | [] => []
  | t :: rest =>
      iteration rd max_steps (step + 1) t
      ++ iterations rd max_steps (step + 1) rest
  end.

(** Each pass starts from the observation the one before ended with,
    the first from [o]. *)
Fixpoint linked (o : Obs) (ts : list transition) : Prop :=
  match ts with
  | [] => True
  | t :: rest => t_observation t = o /\ linked (t_new_observation t) rest
  end.

(** The events [fevs] of the [finally] block for the save flag [before]:
    how the flag ends ([after]) and how the block ends ([fo]). *)
Definition final_shape (results_path : path) (before : save_val)
           (fevs : list (@event Obs Act Reward)) (after : save_val)
           (fo : outcome unit) : Prop :=
  match before with
  | SaveNone =>
      exists r,
        match r with
        | Ok yn =>
            if String.eqb (lower yn) "y"
            then exists saved,
                fevs = [EvPrompt "Save agent? " (Ok yn);
                        EvSave (path_join results_path "final.pkl") saved] /\
                after = SaveBool true /\ fo = raised saved
            else fevs = [EvPrompt "Save agent? " (Ok yn)] /\
                 after = SaveNone /\ fo = Return tt
        | Err e =>
            fevs = [EvPrompt "Save agent? " (Err e)] /\
            after = SaveNone /\ fo = Raise e
        end
  | _ =>
      after = before /\
      if truthy before
      then exists saved,
          fevs = [EvSave (path_join results_path "final.pkl") saved] /\
          fo = raised saved
      else fevs = [] /\ fo = Return tt
  end.

(** The episode numbers [first], [first + 1], ..., [n] of them. *)
Definition numbers_from (first : Z) (n : nat) : list Z :=
  map (fun i => first + Z.of_nat i) (seq 0 n).

End Transitions.

(** ** More on what lines 64-94 and the [try] statement guarantee *)

Section MoreSummaries.

Context {Obs Act Reward AgentArgs World : Type}.

(** Lines 64-94 never call [env._seed]; a call of theirs that raised
    ended them with its exception, unless it was the constructor raising
    the incompatibility error, which ends them with the return of line
    91. *)
Definition setup_more (so : outcome (option (path * option Z)))
           (sevs : list (@event Obs Act Reward)) : Prop :=
  count is_seed sevs = 0%nat /\
  forall ev e,
    In ev sevs -> raised_by ev = Some e ->
    so = Raise e \/
    (so = Return None /\ e = IncompatibleGameError /\ is_new ev = true).

(** The [try] statement run from [s] with [fuel]: its events are loop
    events, with [env.render] among them only under the render flag,
    and events of the [finally] block; when the fuel is spent, every
    unit of it went into an episode and the block has not run; else the
    events of the block are as [final_shape] says, and an exception of
    the block is the one the statement ends with. *)
Definition try_more (results_path : path) (fuel : nat)
           (s : @state Obs Act Reward AgentArgs World)
           (o : outcome unit) (evs : list (@event Obs Act Reward))
           (s' : @state Obs Act Reward AgentArgs World) : Prop :=
  forallb (fun e => loop_event_under (render (vars s)) e || final_event e)%bool
          evs = true /\
  match o with
  | OutOfFuel =>
      count is_reset evs = fuel /\ forallb loop_event evs = true /\
      save (vars s') = save (vars s)
  | _ =>
      exists fo,
        final_shape results_path (save (vars s)) (filter final_event evs)
                    (save (vars s')) fo /\
        (forall e, fo = Raise e -> o = Raise e)
  end.

(** How [main] ends, as [main_post] has it, with what [setup_more] and
    [try_more] add. *)
Definition main_more (a : string) (results_path : path) (fuel : nat)
           (s : @state Obs Act Reward AgentArgs World)
           (o : outcome returned) (evs : list (@event Obs Act Reward))
           (s' : @state Obs Act Reward AgentArgs World) : Prop :=
  exists so sevs s1,
    setup_post a results_path s so sevs s1 /\
    setup_more so sevs /\
    match so with
    | Return (Some _) =>
        exists s1' tevs tout,
          vars s1' = set_episode 0 (vars s1) /\
          try_post results_path s1' tout tevs s' /\
          try_more results_path fuel s1' tout tevs s' /\
          evs = sevs ++ tevs /\
          o = match tout with
              | Return _ => Return (RetAgent (agent (vars s')))
              | Raise e => Raise e
              | OutOfFuel => OutOfFuel
              end
    | Return None => o = Return RetNone /\ evs = sevs /\ s' = s1
    | Raise e => o = Raise e /\ evs = sevs /\ s' = s1
    | OutOfFuel => False
    end.

End MoreSummaries.

(** ** The script run from the command line, lines 155-264 *)

Section Script.

Context {Obs Act Reward AgentArgs World : Type}.
Variable radd : Reward -> Reward -> Reward.
Variable rzero : Reward.
Variable C : @collaborators Obs Act Reward AgentArgs World.

(** The attributes of the namespace that [parse_args] returns, each of
    the type its [add_argument] gives it: [episodes] and [seed] are made
    by [int], [render] and [monitor] by [store_true], [agent_args] by
    [json.loads] and [save] by [distutils.util.strtobool], whose values
    are the integers [1] and [0]; [seed] and [save] default to [None]. *)
Record namespace : Type := {
  ns_game : string;
  ns_agent : string;
  ns_agent_args : AgentArgs;
  ns_episodes : Z;
  ns_render : bool;
  ns_monitor : bool;
  ns_seed : option Z;
  ns_save : option Z;
  ns_verbosity : string
}.

(** The value bound to the parameter [save] by a namespace. *)
Definition save_of (ns : namespace) : save_val :=
  match ns_save ns with
  | None => SaveNone
  | Some n => SaveInt n
  end.

(** Line 264: [main] is called with the attributes of the namespace as
    keyword arguments.  Every attribute but [verbosity] names a parameter
    of [main]; [verbosity] lands in [kwargs], which [main] ignores. *)
Definition script (fuel : nat) (ns : namespace) (w : World)
  : outcome returned * @state Obs Act Reward AgentArgs World :=
  main radd rzero C fuel (ns_game ns) (ns_agent ns) (ns_agent_args ns)
       (ns_episodes ns) (ns_render ns) (ns_monitor ns) (ns_seed ns)
       (save_of ns) w.

End Script.

(** ** A small environment and agent to run the driver on *)

Module Toy.

(** What the collaborators do: the episode is done after [done_at]
    steps, the operator presses Ctrl-C during step [interrupt_at],
    [limit] is the step limit of the environment, [answer] is typed at
    the prompt, [construction] is the reply of the agent's constructor.
    The world is the number of steps taken since the last reset;
    observations are that number, rewards are [reward] each. *)
Record script : Type := {
  done_at : Z;
  interrupt_at : option Z;
  limit : option Z;
  answer : string;
  construction : reply unit;
  reward : Z
}.

Definition toy (sc : script) : @collaborators Z unit Z unit Z := {|
  time_strftime := fun _ => "17-03-01-12-00-00";
  os_makedirs := fun _ w => (Ok tt, w);
  gym_make := fun _ w => (Ok tt, w);
  env_seed := fun _ w => (Ok tt, w);
  agent_new := fun _ _ _ w => (construction sc, w);
  env_max_episode_steps := fun _ => limit sc;
  env_reset := fun _ => (Ok 0, 0);
  env_render := fun w => (Ok tt, w);
  agent_act := fun _ w => (Ok tt, w);
  env_step := fun _ w =>
    match interrupt_at sc with
    | Some k =>
        if w + 1 =? k then (Err KeyboardInterrupt, w)
        else (Ok (w + 1, reward sc, w + 1 =? done_at sc), w + 1)
    | None => (Ok (w + 1, reward sc, w + 1 =? done_at sc), w + 1)
    end;
  agent_react := fun _ _ _ _ _ _ w => (Ok tt, w);
  raw_input := fun _ w => (Ok (answer sc), w);
  agent_save := fun _ w => (Ok tt, w)
|}.

(** Episodes that end by themselves after five steps, limit ten. *)
Definition five_of_ten : script :=
  {| done_at := 5; interrupt_at := None; limit := Some 10;
     answer := "n"; construction := Ok tt; reward := 1 |}.

(** The environment reports [done] on the very step the limit allows
    last. *)
Definition done_on_limit : script :=
  {| done_at := 2; interrupt_at := None; limit := Some 2;
     answer := "n"; construction := Ok tt; reward := 1 |}.

(** Ctrl-C during the third step of the first episode. *)
Definition interrupted : script :=
  {| done_at := 5; interrupt_at := Some 3; limit := Some 10;
     answer := "Y"; construction := Ok tt; reward := 1 |}.

(** The agent does not fit the game. *)
Definition misfit : script :=
  {| done_at := 5; interrupt_at := None; limit := Some 10;
     answer := "n"; construction := Err IncompatibleGameError;
     reward := 1 |}.

(** The operator answers yes. *)
Definition says_yes : script :=
  {| done_at := 5; interrupt_at := None; limit := Some 10;
     answer := "Y"; construction := Ok tt; reward := 2 |}.

Definition run (sc : script) (fuel : nat) (episodes : Z)
           (seed : option Z) (save : save_val) :=
  main Z.add 0 (toy sc) fuel "CartPole-v0" "random" tt episodes false false
       seed save 0.

(** The frame [run] starts from. *)
Definition given (episodes : Z) (seed : option Z) (save : save_val)
  : @frame unit :=
  initial_frame "CartPole-v0" "random" tt episodes false false seed save.

(** A state in which the episode loop is entered: the agent is built
    and [episode] is [0]. *)
Definition at_loop (episodes : Z) (save : save_val)
  : @state Z unit Z unit Z :=
  {| world := 0; trace := [];
     vars := set_agent AgentObject (given episodes None save) |}.

(** The toy world is its own step counter. *)
Definition clock (w : Z) : Z := w.

Definition results_path : path :=
  results_dir "random" "CartPole-v0" "17-03-01-12-00-00".

(** The toy collaborators of [sc], except that [env.step] raises [e] on
    the step [at_step] of an episode. *)
Definition raising (e : exn) (at_step : Z) (sc : script)
  : @collaborators Z unit Z unit Z := {|
  time_strftime := time_strftime (toy sc);
  os_makedirs := os_makedirs (toy sc);
  gym_make := gym_make (toy sc);
  env_seed := env_seed (toy sc);
  agent_new := agent_new (toy sc);
  env_max_episode_steps := env_max_episode_steps (toy sc);
  env_reset := env_reset (toy sc);
  env_render := env_render (toy sc);
  agent_act := agent_act (toy sc);
  env_step := fun a w =>
    if w + 1 =? at_step then (Err e, w) else env_step (toy sc) a w;
  agent_react := agent_react (toy sc);
  raw_input := raw_input (toy sc);
  agent_save := agent_save (toy sc)
|}.

(** The toy collaborators of [sc], except that [gym.make] raises [e]. *)
Definition unmade (e : exn) (sc : script)
  : @collaborators Z unit Z unit Z := {|
  time_strftime := time_strftime (toy sc);
  os_makedirs := os_makedirs (toy sc);
  gym_make := fun _ w => (Err e, w);
  env_seed := env_seed (toy sc);
  agent_new := agent_new (toy sc);
  env_max_episode_steps := env_max_episode_steps (toy sc);
  env_reset := env_reset (toy sc);
  env_render := env_render (toy sc);
  agent_act := agent_act (toy sc);
  env_step := env_step (toy sc);
  agent_react := agent_react (toy sc);
  raw_input := raw_input (toy sc);
  agent_save := agent_save (toy sc)
|}.

(** An environment without the step-limit tag. *)
Definition untagged : script :=
  {| done_at := 5; interrupt_at := None; limit := None;
     answer := "n"; construction := Ok tt; reward := 1 |}.

(** The operator answers with the whole word. *)
Definition says_yes_in_full : script :=
  {| done_at := 5; interrupt_at := None; limit := Some 10;
     answer := "yes"; construction := Ok tt; reward := 1 |}.

(** The state [at_loop] with the render flag as given. *)
Definition at_loop_rendering (rd : bool) (episodes : Z) (save : save_val)
  : @state Z unit Z unit Z :=
  {| world := 0; trace := [];
     vars := set_agent AgentObject
               (initial_frame "CartPole-v0" "random" tt episodes rd false
                              None save) |}.

(** A namespace as [parse_args] returns it for [--save] given or not. *)
Definition parsed (episodes : Z) (save : option Z) : @namespace unit :=
  {| ns_game := "CartPole-v0"; ns_agent := "random"; ns_agent_args := tt;
     ns_episodes := episodes; ns_render := false; ns_monitor := false;
     ns_seed := None; ns_save := save; ns_verbosity := "INFO" |}.

End Toy.

(** * Properties *)

Section Properties.

Context {Obs Act Reward AgentArgs World : Type}.
Variable radd : Reward -> Reward -> Reward.
Variable rzero : Reward.
Variable C : @collaborators Obs Act Reward AgentArgs World.

Local Notation "'St'" := (@state Obs Act Reward AgentArgs World).
Local Notation "'Ev'" := (@event Obs Act Reward).

(** ** Names *)

(** Every non-local name that [main] reads outside the seeding branch is
    bound; [random] and [np] are not. *)
Lemma names_of_main_bound :
  forallb bound names_read_by_main = true /\
  bound "random" = false /\ bound "np" = false.
Proof.
  repeat split; reflexivity.
Qed.

(** ** A calculus for runs *)

Arguments runs : simpl never.

Lemma runs_weaken {A} (m : M A) s (Q Q' : outcome A -> list Ev -> St -> Prop) :
  runs m s Q -> (forall o evs s', Q o evs s' -> Q' o evs s') -> runs m s Q'.
Proof.
  intros [evs [Ht HQ]] Himp. exists evs. auto.
Qed.

Lemma runs_ret {A} (a : A) s (Q : outcome A -> list Ev -> St -> Prop) :
  Q (Return a) [] s -> runs (ret a) s Q.
Proof.
  intros HQ. exists []. simpl. rewrite app_nil_r. auto.
Qed.

Lemma runs_raise {A} e s (Q : outcome A -> list Ev -> St -> Prop) :
  Q (Raise e) [] s -> runs (raise e) s Q.
Proof.
  intros HQ. exists []. simpl. rewrite app_nil_r. auto.
Qed.

Lemma runs_read {A} (field : frame -> A) s
      (Q : outcome A -> list Ev -> St -> Prop) :
  Q (Return (field (vars s))) [] s -> runs (read field) s Q.
Proof.
  intros HQ. exists []. simpl. rewrite app_nil_r. auto.
Qed.

Lemma runs_peek {A} (f : World -> A) s
      (Q : outcome A -> list Ev -> St -> Prop) :
  Q (Return (f (world s))) [] s -> runs (peek f) s Q.
Proof.
  intros HQ. exists []. simpl. rewrite app_nil_r. auto.
Qed.

Lemma runs_assign update s (Q : outcome unit -> list Ev -> St -> Prop) :
  Q (Return tt) []
    {| world := world s; trace := trace s; vars := update (vars s) |} ->
  runs (assign update) s Q.
Proof.
  intros HQ. exists []. simpl. rewrite app_nil_r. auto.
Qed.

Lemma runs_log l m s (Q : outcome unit -> list Ev -> St -> Prop) :
  Q (Return tt) [EvLog l m]
    {| world := world s; trace := trace s ++ [EvLog l m]; vars := vars s |} ->
  runs (log l m) s Q.
Proof.
  intros HQ. exists [EvLog l m]. simpl. auto.
Qed.

Lemma runs_call {A} (record : reply A -> Ev) (f : World -> reply A * World) s
      (Q : outcome A -> list Ev -> St -> Prop) :
  (forall r w, f (world s) = (r, w) ->
     Q (raised r) [record r]
       {| world := w; trace := trace s ++ [record r]; vars := vars s |}) ->
  runs (call record f) s Q.
Proof.
  intros HQ. unfold runs, call.
  destruct (f (world s)) as [r w] eqn:Hf.
  exists [record r]. specialize (HQ r w eq_refl). simpl. auto.
Qed.

Lemma runs_bind {A B} (m : M A) (k : A -> M B) s
      (Q : outcome B -> list Ev -> St -> Prop) :
  runs m s (fun o evs s1 =>
              match o with
              | Return a => runs (k a) s1 (fun o' evs' s2 => Q o' (evs ++ evs') s2)
              | Raise e => Q (Raise e) evs s1
              | OutOfFuel => Q OutOfFuel evs s1
              end) ->
  runs (bind m k) s Q.
Proof.
  intros [evs [Ht HQ]]. unfold runs, bind.
  destruct (m s) as [[a|e|] s1]; simpl in *.
  - destruct HQ as [evs' [Ht' HQ']]. exists (evs ++ evs').
    rewrite Ht', Ht, app_assoc. auto.
  - exists evs. auto.
  - exists evs. auto.
Qed.

(** ** Counting in a trace *)

Lemma count_app (kind : Ev -> bool) (l1 l2 : list Ev) :
  count kind (l1 ++ l2) = (count kind l1 + count kind l2)%nat.
Proof.
  unfold count. rewrite filter_app, length_app. reflexivity.
Qed.

Lemma react_flags_app (l1 l2 : list Ev) :
  react_flags (l1 ++ l2) = react_flags l1 ++ react_flags l2.
Proof.
  unfold react_flags. apply flat_map_app.
Qed.

Lemma step_rewards_app (l1 l2 : list Ev) :
  step_rewards (l1 ++ l2) = step_rewards l1 ++ step_rewards l2.
Proof.
  unfold step_rewards. apply flat_map_app.
Qed.

Lemma episode_totals_app (l1 l2 : list Ev) :
  episode_totals (l1 ++ l2) = episode_totals l1 ++ episode_totals l2.
Proof.
  unfold episode_totals. apply flat_map_app.
Qed.

Lemma count_none (kind other : Ev -> bool) (l : list Ev) :
  (forall e, other e = true -> kind e = false) ->
  forallb other l = true -> count kind l = 0%nat.
Proof.
  intros Hex. unfold count. induction l as [|e l IH]; simpl; intros H.
  - reflexivity.
  - apply andb_prop in H. destruct H as [He Hl].
    rewrite (Hex e He). auto.
Qed.

Lemma step_event_loop_event (l : list Ev) :
  forallb step_event l = true -> forallb loop_event l = true.
Proof.
  induction l as [|e l IH]; simpl; intros H; [reflexivity|].
  apply andb_prop in H. destruct H as [He Hl].
  rewrite (IH Hl). destruct e; simpl in *; congruence.
Qed.

(** ** One iteration of the step loop *)

Ltac run_call :=
  apply runs_call; intros [?|?] ? _; simpl raised.

Ltac run :=
  repeat (cbv beta match;
          match goal with
          | |- runs (bind _ _) _ _ => apply runs_bind
          | |- runs (read _) _ _ => apply runs_read
          | |- runs (peek _) _ _ => apply runs_peek
          | |- runs (assign _) _ _ => apply runs_assign
          | |- runs (log _ _) _ _ => apply runs_log
          | |- runs (ret _) _ _ => apply runs_ret
          | |- runs (raise _) _ _ => apply runs_raise
          end).

(** One iteration leaves the frame alone and makes at most one call of
    each of [render], [act], [step] and [react]; when it completes,
    [step] has returned one reward, which is added to the total, and
    [react] was given the flag [step == max_steps]. *)
Lemma step_body_runs (max_steps : option Z) (step : Z) (obs : Obs)
      (total : Reward) (s : St) :
  runs (step_body radd C max_steps step obs total) s
    (fun o evs s' =>
       vars s' = vars s /\
       forallb step_event evs = true /\
       (count is_step evs <= 1)%nat /\
       (List.length (react_flags evs) <= 1)%nat /\
       (forall d t, In (d, t) (react_flags evs) -> t = py_eq step max_steps) /\
       match o with
       | Return (_, total', done') =>
           exists rew,
             step_rewards evs = [rew] /\ total' = radd total rew /\
             react_flags evs = [(done', py_eq step max_steps)] /\
             count is_step evs = 1%nat
       | Raise _ => True
       | OutOfFuel => False
       end).
Proof.
  unfold step_body. run.
  assert (Hrender :
    runs (if render (vars s) then call EvRender (env_render C) else ret tt) s
         (fun o evs s' =>
            vars s' = vars s /\ forallb step_event evs = true /\
            count is_step evs = 0%nat /\ react_flags evs = [] /\
            step_rewards evs = [] /\ o <> OutOfFuel)).
  { destruct (render (vars s)).
    - run_call; simpl; repeat split; auto; discriminate.
    - run; simpl; repeat split; auto; discriminate. }
  eapply runs_weaken; [exact Hrender|]. clear Hrender.
  intros o evs0 s0 (Hv0 & Hs0 & Hc0 & Hf0 & Hr0 & Ho0).
  assert (Hpre1 : forall l : list Ev,
            forallb step_event (evs0 ++ l) = forallb step_event l)
    by (intros; rewrite forallb_app, Hs0; reflexivity).
  assert (Hpre2 : forall l : list Ev,
            count is_step (evs0 ++ l) = count is_step l)
    by (intros; rewrite count_app, Hc0; reflexivity).
  assert (Hpre3 : forall l : list Ev,
            react_flags (evs0 ++ l) = react_flags l)
    by (intros; rewrite react_flags_app, Hf0; reflexivity).
  assert (Hpre4 : forall l : list Ev,
            step_rewards (evs0 ++ l) = step_rewards l)
    by (intros; rewrite step_rewards_app, Hr0; reflexivity).
  destruct o as [[]|e|]; [| |congruence].
  2:{ simpl. rewrite Hs0, Hc0, Hf0. simpl. repeat split; auto.
      intros ? ? []. }
  run. run_call.
  2:{ simpl. rewrite Hpre1, Hpre2, Hpre3. simpl. repeat split; auto.
      intros ? ? []. }
  run. run_call.
  2:{ simpl. rewrite Hpre1, Hpre2, Hpre3. simpl. repeat split; auto.
      intros ? ? []. }
  destruct a0 as [[new_obs rew] done']. run. run_call.
  - run. simpl. rewrite Hpre1, Hpre2, Hpre3, Hpre4. simpl.
    repeat split; auto.
    + intros d t [Heq|[]]. congruence.
    + exists rew. auto.
  - simpl. rewrite Hpre1, Hpre2, Hpre3. simpl. repeat split; auto.
    intros d t [Heq|[]]. congruence.
Qed.

(** ** The step loop *)

Lemma step_loop_step (max_steps : option Z) (step : Z) (done : bool)
      (obs : Obs) (total : Reward) (s : St) :
  step_loop radd C max_steps step done obs total s =
  if (py_lt step max_steps && negb done)%bool then
    bind (step_body radd C max_steps (step + 1) obs total)
         (fun r => let '(obs', total', done') := r in
                   step_loop radd C max_steps (step + 1) done' obs' total') s
  else (Return total, s).
Proof.
  rewrite step_loop_equation_1.
  remember (if (py_lt step max_steps && negb done)%bool then _ else _)
    as rhs eqn:Hrhs.
  destruct (inspect (py_lt step max_steps && negb done)%bool) as [b Hb].
  rewrite Hb in Hrhs. subst rhs. destruct b; reflexivity.
Qed.


Lemma runs_ext {A} (m m' : M A) (s : St)
      (Q : outcome A -> list Ev -> St -> Prop) :
  m s = m' s -> runs m' s Q -> runs m s Q.
Proof.
  unfold runs. intros ->. auto.
Qed.

Lemma step_loop_enter (max_steps : option Z) (step : Z) (done : bool)
      (obs : Obs) (total : Reward) (s : St) :
  (py_lt step max_steps && negb done)%bool = true ->
  step_loop radd C max_steps step done obs total s =
  bind (step_body radd C max_steps (step + 1) obs total)
       (fun r => let '(obs', total', done') := r in
                 step_loop radd C max_steps (step + 1) done' obs' total') s.
Proof.
  intros H. rewrite step_loop_step, H. reflexivity.
Qed.

Lemma step_loop_leave (max_steps : option Z) (step : Z) (done : bool)
      (obs : Obs) (total : Reward) (s : St) :
  (py_lt step max_steps && negb done)%bool = false ->
  step_loop radd C max_steps step done obs total s = ret total s.
Proof.
  intros H. rewrite step_loop_step, H. reflexivity.
Qed.

Lemma steps_left_next (max_steps : option Z) (step : Z) :
  py_lt step max_steps = true ->
  steps_left max_steps step = S (steps_left max_steps (step + 1)).
Proof.
  destruct max_steps as [m|]; simpl; [|discriminate].
  intros H. apply Z.ltb_lt in H. lia.
Qed.

(** The step loop always ends.  It leaves the frame alone, calls
    [env.step] and [agent.react] at most [max_steps - step] times, hands
    to the [k]-th call of [react] the flag [step' == max_steps] for the
    value [step'] of the counter at that iteration, and, when it ends
    without an exception, returns the rewards of [env.step] added up in
    order onto the initial total. *)
Lemma step_loop_runs (max_steps : option Z) (step : Z) (done : bool)
      (obs : Obs) (total : Reward) (s : St) :
  runs (step_loop radd C max_steps step done obs total) s
    (fun o evs s' =>
       vars s' = vars s /\
       forallb step_event evs = true /\
       (count is_step evs <= steps_left max_steps step)%nat /\
       (List.length (react_flags evs) <= steps_left max_steps step)%nat /\
       (forall k d t, nth_error (react_flags evs) k = Some (d, t) ->
                      t = py_eq (step + 1 + Z.of_nat k) max_steps) /\
       match o with
       | Return total' =>
           total' = fold_left radd (step_rewards evs) total /\
           List.length (react_flags evs) = count is_step evs
       | Raise _ => True
       | OutOfFuel => False
       end).
Proof.
  remember (steps_left max_steps step) as n eqn:Hn.
  revert step done obs total s Hn.
  induction n as [|n IH]; intros step done obs total s Hn.
  - eapply runs_ext.
    + apply step_loop_leave.
      destruct (py_lt step max_steps) eqn:Hlt; [|reflexivity].
      rewrite (steps_left_next _ _ Hlt) in Hn. discriminate.
    + apply runs_ret. simpl. repeat split; auto.
      intros [|k] d t; discriminate.
  - destruct (py_lt step max_steps && negb done)%bool eqn:Hc.
    2:{ eapply runs_ext; [apply step_loop_leave; exact Hc|].
        apply runs_ret. unfold count. simpl. repeat split; auto; try lia.
        intros [|k] d t; discriminate. }
    apply andb_prop in Hc as Hc'. destruct Hc' as [Hlt _].
    rewrite (steps_left_next _ _ Hlt) in Hn. injection Hn as Hn.
    eapply runs_ext; [apply step_loop_enter; exact Hc|].
    apply runs_bind.
    eapply runs_weaken; [apply step_body_runs|].
    intros o evs s1 (Hv & Hse & Hcs & Hlen & Hfl & Ho).
    destruct o as [[[obs' total'] done']|e|]; [| |contradiction].
    + destruct Ho as (rew & Hrew & Htot & Hflags & Hone).
      eapply runs_weaken; [apply (IH (step + 1) done' obs' total' s1 Hn)|].
      cbv beta.
      intros o2 evs2 s2 (Hv2 & Hse2 & Hcs2 & Hlen2 & Hfl2 & Ho2).
      rewrite forallb_app, count_app, react_flags_app, step_rewards_app.
      rewrite Hse, Hse2, Hone, Hflags, Hrew. simpl.
      repeat split; auto; try lia; try congruence.
      * intros [|k] d t Hk; simpl in Hk.
        -- injection Hk as _ <-. f_equal. lia.
        -- rewrite (Hfl2 k d t Hk). f_equal. lia.
      * destruct o2 as [total2|e2|]; auto.
        destruct Ho2 as [-> ->]. subst total'. auto.
    + repeat split; auto; try lia.
      intros k d t Hk. assert (Hin := nth_error_In _ _ Hk).
      destruct k as [|k].
      * rewrite (Hfl d t Hin). f_equal. lia.
      * assert (S k < List.length (react_flags evs))%nat
          by (apply nth_error_Some; congruence).
        lia.
Qed.


(** ** One episode *)

Lemma runs_out_of_fuel {A} (s : St) (Q : outcome A -> list Ev -> St -> Prop) :
  Q OutOfFuel [] s -> runs out_of_fuel s Q.
Proof.
  intros HQ. exists []. simpl. rewrite app_nil_r. auto.
Qed.

Lemma step_events_hold_no (kind : Ev -> bool) (l : list Ev) :
  (forall e, step_event e = true -> kind e = false) ->
  forallb step_event l = true -> count kind l = 0%nat.
Proof.
  apply count_none.
Qed.

Lemma step_events_no_totals (l : list Ev) :
  forallb step_event l = true -> episode_totals l = [].
Proof.
  induction l as [|e l IH]; simpl; intros H; [reflexivity|].
  apply andb_prop in H. destruct H as [He Hl].
  rewrite (IH Hl). destruct e; simpl in *; try discriminate; reflexivity.
Qed.

(** An episode adds one to [episode], resets the environment, runs the
    step loop and, unless an exception cuts it short, logs the episode
    number with the rewards of its steps added up from [rzero]. *)
Lemma run_episode_runs (max_steps : option Z) (s : St) :
  runs (run_episode radd rzero C max_steps) s
    (fun o evs s' =>
       vars s' = set_episode (episode (vars s) + 1) (vars s) /\
       exists r steps rest,
         evs = EvReset r :: steps ++ rest /\
         forallb step_event steps = true /\
         (count is_step steps <= steps_left max_steps 0)%nat /\
         (List.length (react_flags steps) <= steps_left max_steps 0)%nat /\
         (forall k d t, nth_error (react_flags steps) k = Some (d, t) ->
                        t = py_eq (Z.of_nat k + 1) max_steps) /\
         match o with
         | Return _ =>
             exists obs,
               r = Ok obs /\
               rest = [EvLog DEBUG
                         (MsgFormat "Episode {}: {}"
                            [ArgInt (episode (vars s) + 1);
                             ArgReward (reward_sum radd rzero
                                                   (step_rewards steps))])]
         | Raise _ => rest = []
         | OutOfFuel => False
         end).
Proof.
  unfold run_episode. run.
  apply runs_call. intros [obs|e] w _; simpl raised.
  2:{ split; [reflexivity|]. exists (Err e), [], []. unfold count. simpl.
      repeat split; auto; try lia. intros [|k] d t; discriminate. }
  run. eapply runs_weaken; [apply step_loop_runs|]. cbv beta.
  intros o evs s1 (Hv & Hse & Hcs & Hlen & Hfl & Ho).
  assert (Hfl' : forall k d t, nth_error (react_flags evs) k = Some (d, t) ->
                               t = py_eq (Z.of_nat k + 1) max_steps).
  { intros k d t Hk. rewrite (Hfl k d t Hk). f_equal. lia. }
  destruct o as [total|e|]; [| |contradiction].
  - destruct Ho as [-> _]. run. rewrite Hv. simpl. split; [reflexivity|].
    exists (Ok obs), evs, [EvLog DEBUG
       (MsgFormat "Episode {}: {}"
          [ArgInt (episode (vars s) + 1);
           ArgReward (fold_left radd (step_rewards evs) rzero)])].
    repeat split; auto.
    exists obs. auto.
  - rewrite Hv. simpl. split; [reflexivity|].
    exists (Ok obs), evs, []. rewrite app_nil_r. repeat split; auto.
Qed.


(** ** The episode loop *)

Lemma count_cons (kind : Ev -> bool) (e : Ev) (l : list Ev) :
  count kind (e :: l) = ((if kind e then 1 else 0) + count kind l)%nat.
Proof.
  unfold count. simpl. destruct (kind e); reflexivity.
Qed.

Lemma forallb_loop_episode (r : reply Obs) (steps rest : list Ev) :
  forallb step_event steps = true -> forallb loop_event rest = true ->
  forallb loop_event (EvReset r :: steps ++ rest) = true.
Proof.
  intros Hs Hr. simpl. rewrite forallb_app, (step_event_loop_event _ Hs), Hr.
  reflexivity.
Qed.

(** What one episode leaves in the trace, as counts. *)
Lemma run_episode_counts (max_steps : option Z) (s : St) :
  runs (run_episode radd rzero C max_steps) s
    (fun o evs s' =>
       vars s' = set_episode (episode (vars s) + 1) (vars s) /\
       forallb loop_event evs = true /\
       count is_reset evs = 1%nat /\
       match o with
       | Return _ => List.length (episode_totals evs) = 1%nat
       | Raise _ => episode_totals evs = []
       | OutOfFuel => False
       end).
Proof.
  eapply runs_weaken; [apply run_episode_runs|]. cbv beta.
  intros o evs s' (Hv & r & steps & rest & -> & Hse & _ & _ & _ & Ho).
  split; [exact Hv|].
  assert (Hnr : count is_reset steps = 0%nat).
  { apply (step_events_hold_no is_reset); auto.
    intros e; destruct e; simpl; congruence. }
  rewrite count_cons, count_app, Hnr.
  change (episode_totals (EvReset r :: steps ++ rest))
    with (episode_totals (steps ++ rest)).
  rewrite episode_totals_app, (step_events_no_totals _ Hse).
  destruct o as [u|e|]; [| |contradiction].
  - destruct Ho as (obs & -> & ->). repeat split.
    apply forallb_loop_episode; auto.
  - subst rest. repeat split. apply forallb_loop_episode; auto.
Qed.

(** The episode loop changes no variable but [episode], which counts
    the calls of [env.reset]; it stops when its test fails, and the
    model runs out of fuel only while the test still holds. *)
Lemma episode_loop_runs (fuel : nat) (max_steps : option Z) (s : St) :
  runs (episode_loop radd rzero C fuel max_steps) s
    (fun o evs s' =>
       vars s' = set_episode (episode (vars s')) (vars s) /\
       forallb loop_event evs = true /\
       episode (vars s') = episode (vars s) + Z.of_nat (count is_reset evs) /\
       (count is_reset evs <= fuel)%nat /\
       (episodes (vars s) <> -1 ->
        episode (vars s') <= Z.max (episode (vars s)) (episodes (vars s))) /\
       match o with
       | Return _ =>
           ((episodes (vars s') =? -1)
            || (episode (vars s') <? episodes (vars s')))%bool = false /\
           List.length (episode_totals evs) = count is_reset evs
       | Raise _ =>
           S (List.length (episode_totals evs)) = count is_reset evs
       | OutOfFuel =>
           ((episodes (vars s') =? -1)
            || (episode (vars s') <? episodes (vars s')))%bool = true /\
           count is_reset evs = fuel /\
           List.length (episode_totals evs) = fuel
       end).
Proof.
  revert s. induction fuel as [|fuel IH]; intros s; simpl; run;
    destruct ((episodes (vars s) =? -1) || (episode (vars s) <? episodes (vars s)))%bool
      eqn:Htest.
  - apply runs_out_of_fuel. unfold count. simpl.
    destruct (vars s); repeat split; auto; simpl in *; lia.
  - run. unfold count. simpl.
    destruct (vars s); repeat split; auto; simpl in *; lia.
  - apply runs_bind.
    eapply runs_weaken; [apply run_episode_counts|]. cbv beta.
    intros o evs s1 (Hv & Hle & Hone & Ho).
    assert (Hbound : episodes (vars s) <> -1 ->
                     episode (vars s) + 1 <= episodes (vars s)).
    { intros Hne. apply orb_prop in Htest. destruct Htest as [H|H].
      - apply Z.eqb_eq in H. contradiction.
      - apply Z.ltb_lt in H. lia. }
    destruct o as [u|e|]; [| |contradiction].
    + eapply runs_weaken; [apply IH|]. cbv beta.
      intros o2 evs2 s2 (Hv2 & Hle2 & Hep2 & Hfuel2 & Hmax2 & Ho2).
      cbn [app].
      rewrite forallb_app, count_app, episode_totals_app, length_app.
      rewrite Hle, Hle2, Hone, Ho.
      rewrite Hv in Hv2, Hep2, Hmax2. simpl in Hv2, Hep2, Hmax2.
      repeat split; auto; try lia.
      destruct o2 as [u2|e2|]; simpl; intuition lia.
    + cbn [app]. rewrite Hle, Hone, Ho, Hv. simpl.
      repeat split; auto; try lia.
  - run. unfold count. simpl.
    destruct (vars s); repeat split; auto; simpl in *; lia.
Qed.


(** ** [try], [except], [finally] *)

Lemma runs_try {A} (body : M A) (handlers : exn -> option (M A))
      (final : M unit) (s : St) (Q : outcome A -> list Ev -> St -> Prop) :
  runs body s
    (fun o evs s1 =>
       match o with
       | OutOfFuel => Q OutOfFuel evs s1
       | Return a =>
           runs final s1
             (fun fo fevs s3 => Q (after_final (Return a) fo) (evs ++ fevs) s3)
       | Raise e =>
           match handlers e with
           | Some h =>
               runs h s1
                 (fun ho hevs s2 =>
                    match ho with
                    | OutOfFuel => Q OutOfFuel (evs ++ hevs) s2
                    | _ =>
                        runs final s2
                          (fun fo fevs s3 =>
                             Q (after_final ho fo) (evs ++ hevs ++ fevs) s3)
                    end)
           | None =>
               runs final s1
                 (fun fo fevs s3 =>
                    Q (after_final (Raise e) fo) (evs ++ fevs) s3)
           end
       end) ->
  runs (try_except_finally body handlers final) s Q.
Proof.
  intros [evs [Ht HQ]]. unfold runs, try_except_finally.
  destruct (body s) as [[a|e|] s1]; simpl in *.
  - destruct HQ as [fevs [Hft HfQ]]. exists (evs ++ fevs).
    destruct (final s1) as [fo s3]; simpl in *.
    rewrite Hft, Ht, app_assoc. auto.
  - destruct (handlers e) as [h|].
    + destruct HQ as [hevs [Hht HhQ]].
      destruct (h s1) as [[a|e'|] s2]; simpl in *.
      * destruct HhQ as [fevs [Hft HfQ]]. exists (evs ++ hevs ++ fevs).
        destruct (final s2) as [fo s3]; simpl in *.
        rewrite Hft, Hht, Ht, !app_assoc. rewrite !app_assoc in HfQ. auto.
      * destruct HhQ as [fevs [Hft HfQ]]. exists (evs ++ hevs ++ fevs).
        destruct (final s2) as [fo s3]; simpl in *.
        rewrite Hft, Hht, Ht, !app_assoc. rewrite !app_assoc in HfQ. auto.
      * exists (evs ++ hevs). rewrite Hht, Ht, app_assoc. auto.
    + destruct HQ as [fevs [Hft HfQ]]. exists (evs ++ fevs).
      destruct (final s1) as [fo s3]; simpl in *.
      rewrite Hft, Ht, app_assoc. auto.
  - exists evs. auto.
Qed.


(** ** Finalization *)

(** The [finally] block changes no variable but [save], asks at most
    once, and that only when [save] is [None]; a yes sets [save] to
    [True]; the agent is saved at most once, under
    [results_path/final.pkl], and only when [save] ends up true. *)
Lemma finalize_runs (results_path : path) (s : St) :
  runs (finalize C results_path) s
    (fun o evs s' =>
       vars s' = set_save (save (vars s')) (vars s) /\
       save_resolved (save (vars s)) (save (vars s')) /\
       o <> OutOfFuel /\
       forallb final_event evs = true /\
       count is_prompt evs = (if is_None (save (vars s)) then 1 else 0)%nat /\
       (count is_save evs <= 1)%nat /\
       (forall q yn, In (EvPrompt q (Ok yn)) evs -> lower yn = "y" ->
                     exists r, In (EvSave (path_join results_path "final.pkl") r)
                                  evs) /\
       (forall p r, In (EvSave p r) evs ->
                    p = path_join results_path "final.pkl" /\
                    truthy (save (vars s')) = true)).
Proof.
  unfold finalize, save_resolved. run.
  destruct (save (vars s)) as [|b|n] eqn:Hsv; simpl.
  - (* save is None: ask *)
    run. apply runs_call. intros [yn|e] w _; simpl.
    + destruct (String.eqb (lower yn) "y") eqn:Hyn.
      * run. simpl. apply runs_call. intros r w' _. unfold count. simpl.
        repeat split; auto; try discriminate.
        -- destruct r; discriminate.
        -- intros q yn' _ _. exists r. auto.
        -- destruct H as [H|[H|[]]]; congruence.
      * run. simpl. rewrite Hsv. simpl. run. unfold count. simpl.
        rewrite Hsv.
        repeat split; auto; try discriminate.
        -- destruct (vars s); unfold set_save; simpl in *; subst; reflexivity.
        -- intros q yn' [H|[]]. injection H as _ <-.
           intros Hy. apply String.eqb_neq in Hyn. contradiction.
        -- destruct H as [H|[]]; discriminate.
        -- destruct H as [H|[]]; discriminate.
    + unfold count. simpl. rewrite Hsv.
      repeat split; auto; try discriminate.
      * destruct (vars s); unfold set_save; simpl in *; subst; reflexivity.
      * intros q yn' [H|[]]; discriminate.
      * destruct H as [H|[]]; discriminate.
      * destruct H as [H|[]]; discriminate.
  - (* save is a bool *)
    run. rewrite Hsv. simpl. destruct b.
    + apply runs_call. intros r w' _. unfold count. simpl.
      rewrite Hsv. simpl. repeat split; auto; try discriminate.
      * destruct (vars s); unfold set_save; simpl in *; subst; reflexivity.
      * destruct r; discriminate.
      * intros q yn' [H|[]]; discriminate.
      * destruct H as [H|[]]; congruence.
    + run. rewrite Hsv. unfold count. simpl.
      repeat split; auto; try discriminate; try (intros; contradiction).
      destruct (vars s); unfold set_save; simpl in *; subst; reflexivity.
  - (* save is an integer *)
    run. rewrite Hsv. simpl. destruct (n =? 0) eqn:Hn; simpl.
    + run. rewrite Hsv. unfold count. simpl.
      repeat split; auto; try discriminate; try (intros; contradiction).
      destruct (vars s); unfold set_save; simpl in *; subst; reflexivity.
    + apply runs_call. intros r w' _. unfold count. simpl.
      rewrite Hsv. simpl. rewrite Hn. repeat split; auto; try discriminate.
      * destruct (vars s); unfold set_save; simpl in *; subst; reflexivity.
      * destruct r; discriminate.
      * intros q yn' [H|[]]; discriminate.
      * destruct H as [H|[]]; congruence.
Qed.


(** ** The [try] statement *)

Lemma final_events_hold_no (kind : Ev -> bool) (l : list Ev) :
  (forall e, final_event e = true -> kind e = false) ->
  forallb final_event l = true -> count kind l = 0%nat.
Proof.
  apply count_none.
Qed.

Lemma loop_events_hold_no (kind : Ev -> bool) (l : list Ev) :
  (forall e, loop_event e = true -> kind e = false) ->
  forallb loop_event l = true -> count kind l = 0%nat.
Proof.
  apply count_none.
Qed.

(** Finalization after the loop and its handler have produced [evs1]. *)
Lemma finalize_after_loop (results_path : path) (s : St)
      (pending : outcome unit) (evs1 : list Ev) (s1 : St) :
  vars s1 = set_episode (episode (vars s1)) (vars s) ->
  forallb loop_event evs1 = true ->
  episode (vars s1) = episode (vars s) + Z.of_nat (count is_reset evs1) ->
  (episodes (vars s) <> -1 ->
   episode (vars s1) <= Z.max (episode (vars s)) (episodes (vars s))) ->
  pending <> OutOfFuel ->
  runs (finalize C results_path) s1
    (fun fo fevs s3 =>
       try_post results_path s (after_final pending fo) (evs1 ++ fevs) s3).
Proof.
  intros Hv1 Hle1 Hep1 Hmax1 Hpend.
  eapply runs_weaken; [apply finalize_runs|]. cbv beta.
  intros fo fevs s3 (Hv3 & Hres & Hfo & Hfe & Hprompt & Hsave & Hyes & Hpath).
  assert (Hnr : count is_reset fevs = 0%nat).
  { apply (final_events_hold_no is_reset); auto.
    intros e; destruct e; simpl; congruence. }
  assert (Hsame : save (vars s1) = save (vars s))
    by (rewrite Hv1; reflexivity).
  assert (Hep3 : episode (vars s3) = episode (vars s1))
    by (rewrite Hv3; reflexivity).
  unfold try_post.
  rewrite count_app, Hnr, Nat.add_0_r, Hep3, <- Hsame.
  repeat split; auto.
  - rewrite Hv3, Hv1. reflexivity.
  - intros Hout. destruct fo; simpl in Hout; congruence.
  - exists evs1, fevs.
    repeat split; auto; apply Hpath with (p := p) (r := r); auto.
Qed.

Lemma try_block_runs (fuel : nat) (max_steps : option Z)
      (results_path : path) (s : St) :
  runs (try_block radd rzero C fuel max_steps results_path) s
       (try_post results_path s).
Proof.
  unfold try_block. apply runs_try.
  eapply runs_weaken; [apply episode_loop_runs|]. cbv beta.
  intros o evs s1 (Hv1 & Hle1 & Hep1 & Hfuel1 & Hmax1 & Ho).
  assert (Heps : episodes (vars s1) = episodes (vars s))
    by (rewrite Hv1; reflexivity).
  destruct o as [u|e|].
  - apply finalize_after_loop; auto. discriminate.
  - assert (Hother :
      runs (finalize C results_path) s1
        (fun fo fevs s3 =>
           try_post results_path s (after_final (Raise e) fo)
                    (evs ++ fevs) s3))
      by (apply finalize_after_loop; auto; discriminate).
    destruct e; simpl; try exact Hother.
    + (* KeyboardInterrupt *)
      apply runs_log. eapply runs_weaken.
      * apply (finalize_after_loop results_path s (Return tt)
                 (evs ++ [EvLog ERROR (MsgText "Canceled by user!")]));
          simpl; auto.
        -- rewrite forallb_app, Hle1. reflexivity.
        -- rewrite count_app. unfold count at 2. simpl. lia.
        -- discriminate.
      * cbv beta. intros fo fevs s3 H. rewrite <- app_assoc in H. exact H.
    + (* SolvedGame *)
      run. eapply runs_weaken.
      * apply (finalize_after_loop results_path s (Return tt)
                 (evs ++ [EvLog INFO
                            (MsgFormat "Solved after {} episodes!"
                                       [ArgInt (episode (vars s1))])]));
          simpl; auto.
        -- rewrite forallb_app, Hle1. reflexivity.
        -- rewrite count_app. unfold count at 2. simpl. lia.
        -- discriminate.
      * cbv beta. intros fo fevs s3 H. rewrite <- app_assoc in H. exact H.
  - destruct Ho as (Htest & _). rewrite Heps in Htest. unfold try_post.
    repeat split; auto.
    + rewrite Hv1. reflexivity.
    + left. rewrite Hv1. reflexivity.
    + exists evs, []. rewrite app_nil_r. unfold count. simpl.
      repeat split; auto; try contradiction; try lia.
Qed.


(** ** Before the [try] statement *)

Ltac setup_leaf :=
  repeat (run; progress simpl after_final); run;
  unfold setup_post, count, same_settings; simpl;
  repeat match goal with
         | H : _ = _ |- _ => rewrite H
         end;
  simpl; repeat split; auto; try discriminate; try congruence;
  try (intros n' p' Hin; simpl in Hin; intuition discriminate).

Lemma setup_runs (a : string) (s : St) :
  agent (vars s) = AgentName a ->
  runs (setup C) s
    (setup_post a (results_dir a (game (vars s)) (time_strftime C (world s)))
                s).
Proof.
  intros Ha. unfold setup. run. rewrite Ha. run.
  set (rp := results_dir a (game (vars s)) (time_strftime C (world s))).
  destruct (is_True (save (vars s))) eqn:Hsv.
  - apply runs_call. intros [[]|e] w _; simpl raised; [|setup_leaf].
    run. apply runs_call. intros [u1|e] w1 _; simpl raised; [|setup_leaf].
    run. cbn [vars]. destruct (seed (vars s)) as [n|] eqn:Hsd.
    + unfold load_name. simpl. run. setup_leaf.
    + run. apply runs_try. run. apply runs_call.
      intros [u2|e] w2 _; simpl raised.
      * run. destruct u2. setup_leaf.
      * destruct e; simpl; run; setup_leaf.
  - run. apply runs_call. intros [u1|e] w1 _; simpl raised; [|setup_leaf].
    run. cbn [vars]. destruct (seed (vars s)) as [n|] eqn:Hsd.
    + unfold load_name. simpl. run. setup_leaf.
    + run. apply runs_try. run. apply runs_call.
      intros [u2|e] w2 _; simpl raised.
      * run. destruct u2. setup_leaf.
      * destruct e; simpl; run; setup_leaf.
Qed.


(** ** [main] as a whole *)

Lemma main_body_runs (fuel : nat) (a : string) (s : St) :
  agent (vars s) = AgentName a ->
  runs (main_body radd rzero C fuel) s
    (main_post a (results_dir a (game (vars s)) (time_strftime C (world s)))
               s).
Proof.
  intros Ha. unfold main_body. apply runs_bind.
  eapply runs_weaken; [apply (setup_runs a s Ha)|]. cbv beta.
  intros so sevs s1 Hsetup.
  destruct so as [[[rp ms]|]|e|].
  - assert (Hrp : rp = results_dir a (game (vars s))
                                   (time_strftime C (world s))).
    { destruct Hsetup as (_ & _ & _ & _ & _ & H & _). exact H. }
    subst rp. run.
    eapply runs_weaken; [apply try_block_runs|]. cbv beta.
    intros tout tevs s2 Htry.
    destruct tout as [u|e|]; run; cbn [app]; rewrite ?app_nil_r;
      exists (Return (Some (results_dir a (game (vars s))
                              (time_strftime C (world s)), ms))),
             sevs, s1;
      (split; [exact Hsetup|]); cbv beta match;
      [ eexists _, tevs, (Return u)
      | eexists _, tevs, (Raise e)
      | eexists _, tevs, OutOfFuel ];
      (split; [|split; [exact Htry|]]); auto.
  - run. exists (Return None), sevs, s1. rewrite app_nil_r. auto.
  - exists (Raise e), sevs, s1. auto.
  - destruct Hsetup as (_ & _ & _ & _ & _ & []).
Qed.

Lemma runs_from_start {A} (m : M A) (f : @frame AgentArgs) (w : World)
      (Q : outcome A -> list Ev -> St -> Prop) :
  runs m (start f w) Q ->
  Q (fst (m (start f w))) (trace (snd (m (start f w)))) (snd (m (start f w))).
Proof.
  intros [evs [Ht HQ]]. simpl in Ht. rewrite Ht. exact HQ.
Qed.

(** [main] started on given arguments ends as [main_post] says. *)
Lemma main_runs (fuel : nat) (g a : string) (args : AgentArgs) (eps : Z)
      (rd mon : bool) (sd : option Z) (sv : save_val) (w : World) :
  main_post a (results_dir a g (time_strftime C w))
            (start (initial_frame g a args eps rd mon sd sv) w)
            (fst (main radd rzero C fuel g a args eps rd mon sd sv w))
            (trace (snd (main radd rzero C fuel g a args eps rd mon sd sv w)))
            (snd (main radd rzero C fuel g a args eps rd mon sd sv w)).
Proof.
  unfold main.
  apply (runs_from_start (main_body radd rzero C fuel)
           (initial_frame g a args eps rd mon sd sv) w
           (main_post a (results_dir a g (time_strftime C w))
                      (start (initial_frame g a args eps rd mon sd sv) w))).
  apply (main_body_runs fuel a
           (start (initial_frame g a args eps rd mon sd sv) w)).
  reflexivity.
Qed.


(** * The claims *)

(** C1 (as the code has it).  For every step limit [L] and every
    episode, the step loop ends, calls [env.step] and [agent.react] at
    most [L] times, and hands to [agent.react] at step [k] the truncation
    flag [k == L]: false before step [L], true at step [L], whatever the
    environment reports as [done] on that step. *)
Theorem c1_step_limit_and_truncation_flag (L : Z) (obs : Obs)
        (total : Reward) (s : St) :
  exists evs,
    trace (snd (step_loop radd C (Some L) 0 false obs total s))
    = trace s ++ evs /\
    fst (step_loop radd C (Some L) 0 false obs total s) <> OutOfFuel /\
    Z.of_nat (count is_step evs) <= Z.max 0 L /\
    Z.of_nat (List.length (react_flags evs)) <= Z.max 0 L /\
    forall k done truncated,
      nth_error (react_flags evs) k = Some (done, truncated) ->
      truncated = (Z.of_nat k + 1 =? L).
Proof.
  destruct (step_loop_runs (Some L) 0 false obs total s)
    as (evs & Ht & _ & _ & Hsteps & Hreacts & Hflags & Ho).
  exists evs. unfold steps_left in Hsteps, Hreacts.
  repeat split; try lia; auto.
  - intros Hout. rewrite Hout in Ho. exact Ho.
  - intros k d t Hk. rewrite (Hflags k d t Hk). unfold py_eq.
    f_equal. lia.
Qed.

(** C5.  An episode that runs to its end logs, with its number, the
    rewards that [env.step] returned during that episode, added up in
    order from [rzero]; nothing of an earlier episode enters the sum. *)
Theorem c5_logged_total_is_sum_of_step_rewards (max_steps : option Z)
        (s : St) :
  fst (run_episode radd rzero C max_steps s) = Return tt ->
  exists obs steps,
    trace (snd (run_episode radd rzero C max_steps s))
    = trace s
      ++ EvReset (Ok obs)
      :: steps
      ++ [EvLog DEBUG
            (MsgFormat "Episode {}: {}"
               [ArgInt (episode (vars s) + 1);
                ArgReward (reward_sum radd rzero (step_rewards steps))])] /\
    forallb step_event steps = true.
Proof.
  intros Hret.
  destruct (run_episode_runs max_steps s)
    as (evs & Ht & _ & r & steps & rest & Hevs & Hse & _ & _ & _ & Ho).
  rewrite Hret in Ho. destruct Ho as (obs & -> & ->).
  exists obs, steps. rewrite Ht, Hevs. auto.
Qed.

(** C2.  Started with [episode = 0] and run without an exception, the
    episode loop with a budget [N >= 0] (and fuel for [N] episodes) ends
    after exactly [N] calls of [env.reset] and [N] end-of-episode
    records, with [episode = N]; with the budget [-1] it is still
    running after any number of episodes. *)
Theorem c2_episode_budget (fuel : nat) (max_steps : option Z) (s : St) :
  episode (vars s) = 0 ->
  (forall e, fst (episode_loop radd rzero C fuel max_steps s) <> Raise e) ->
  exists evs,
    trace (snd (episode_loop radd rzero C fuel max_steps s)) = trace s ++ evs /\
    (0 <= episodes (vars s) <= Z.of_nat fuel ->
     fst (episode_loop radd rzero C fuel max_steps s) = Return tt /\
     count is_reset evs = Z.to_nat (episodes (vars s)) /\
     List.length (episode_totals evs) = Z.to_nat (episodes (vars s)) /\
     episode (vars (snd (episode_loop radd rzero C fuel max_steps s)))
     = episodes (vars s)) /\
    (episodes (vars s) = -1 ->
     fst (episode_loop radd rzero C fuel max_steps s) = OutOfFuel /\
     count is_reset evs = fuel /\
     List.length (episode_totals evs) = fuel).
Proof.
  intros Hzero Hnoraise.
  destruct (episode_loop_runs fuel max_steps s)
    as (evs & Ht & Hv & _ & Hep & Hfuel & Hmax & Ho).
  exists evs. split; [exact Ht|].
  destruct (episode_loop radd rzero C fuel max_steps s) as [o s'].
  simpl in *.
  assert (Heps : episodes (vars s') = episodes (vars s))
    by (rewrite Hv; reflexivity).
  rewrite Heps in Ho.
  split.
  - intros [Hlo Hhi].
    assert (Hne : episodes (vars s) <> -1) by lia.
    specialize (Hmax Hne).
    destruct o as [[]|e|].
    + destruct Ho as [Htest Hlen].
      apply orb_false_elim in Htest. destruct Htest as [_ Hlt].
      apply Z.ltb_ge in Hlt. repeat split; try lia.
    + exfalso. apply (Hnoraise e). reflexivity.
    + destruct Ho as (Htest & Hcount & _).
      apply orb_prop in Htest. destruct Htest as [H|H].
      * apply Z.eqb_eq in H. lia.
      * apply Z.ltb_lt in H. lia.
  - intros Hminus.
    destruct o as [[]|e|].
    + destruct Ho as [Htest _]. rewrite Hminus in Htest. discriminate.
    + exfalso. apply (Hnoraise e). reflexivity.
    + destruct Ho as (_ & Hcount & Hlen). auto.
Qed.


Lemma in_forallb (kind : Ev -> bool) (e : Ev) (l : list Ev) :
  forallb kind l = true -> In e l -> kind e = true.
Proof.
  intros H Hin. rewrite forallb_forall in H. auto.
Qed.

(** The [finally] block ends with an exception only when one of its
    own calls raised. *)
Lemma finalize_returns (results_path : path) (s : St) :
  forallb replied_ok
          (skipn (List.length (trace s)) (trace (snd (finalize C results_path s))))
  = true ->
  fst (finalize C results_path s) = Return tt.
Proof.
  unfold finalize, bind, read, call, assign, ret.
  destruct (is_None (save (vars s))).
  - destruct (raw_input C "Save agent? " (world s)) as [[yn|e] w]; simpl.
    + destruct (String.eqb (lower yn) "y"); simpl.
      * destruct (agent_save C (path_join results_path "final.pkl") w)
          as [[[]|e] w']; simpl; auto.
        rewrite <- app_assoc, skipn_app, Nat.sub_diag, skipn_all. simpl.
        discriminate.
      * destruct (truthy (save (vars s))); simpl; auto.
        destruct (agent_save C (path_join results_path "final.pkl") w)
          as [[[]|e] w']; simpl; auto.
        rewrite <- app_assoc, skipn_app, Nat.sub_diag, skipn_all. simpl.
        discriminate.
    + rewrite skipn_app, Nat.sub_diag, skipn_all. simpl. discriminate.
  - simpl. destruct (truthy (save (vars s))); simpl; auto.
    destruct (agent_save C (path_join results_path "final.pkl") (world s))
      as [[[]|e] w']; simpl; auto.
    rewrite skipn_app, Nat.sub_diag, skipn_all. simpl. discriminate.
Qed.

(** C4.  When the episode loop is left by a [KeyboardInterrupt], the
    [try] statement logs the cancellation and then runs the [finally]
    block once, from the state the interrupt left: it asks once if
    [save] is [None], saves at most once, and ends as that block ends,
    so without an exception unless a call of the block itself raised. *)
Theorem c4_interrupt_reaches_finalization_once (fuel : nat)
        (max_steps : option Z) (results_path : path) (s s1 : St) :
  episode_loop radd rzero C fuel max_steps s = (Raise KeyboardInterrupt, s1) ->
  try_block radd rzero C fuel max_steps results_path s
  = finalize C results_path
      {| world := world s1;
         trace := trace s1 ++ [EvLog ERROR (MsgText "Canceled by user!")];
         vars := vars s1 |} /\
  exists fevs,
    trace (snd (try_block radd rzero C fuel max_steps results_path s))
    = trace s1 ++ EvLog ERROR (MsgText "Canceled by user!") :: fevs /\
    forallb final_event fevs = true /\
    count is_prompt fevs = (if is_None (save (vars s1)) then 1 else 0)%nat /\
    (count is_save fevs <= 1)%nat /\
    (forallb replied_ok fevs = true ->
     fst (try_block radd rzero C fuel max_steps results_path s) = Return tt).
Proof.
  intros Hloop.
  set (s2 := {| world := world s1;
                trace := trace s1 ++ [EvLog ERROR (MsgText "Canceled by user!")];
                vars := vars s1 |}).
  assert (Heq : try_block radd rzero C fuel max_steps results_path s
                = finalize C results_path s2).
  { unfold try_block, try_except_finally. rewrite Hloop. simpl.
    fold s2. destruct (finalize C results_path s2) as [[[]|e|] s3];
      reflexivity. }
  split; [exact Heq|]. rewrite Heq.
  destruct (finalize_runs results_path s2)
    as (fevs & Ht & _ & _ & _ & Hfe & Hprompt & Hsave & _).
  exists fevs. rewrite Ht. simpl. rewrite <- app_assoc. simpl.
  repeat split; auto.
  intros Hok. apply finalize_returns. rewrite Ht.
  rewrite skipn_app, Nat.sub_diag, skipn_all. simpl. exact Hok.
Qed.


Lemma setup_events_hold_no (kind : Ev -> bool) (l : list Ev) :
  (forall e, setup_event e = true -> kind e = false) ->
  forallb setup_event l = true -> count kind l = 0%nat.
Proof.
  apply count_none.
Qed.

Lemma count_filter_nil (kind : Ev -> bool) (l : list Ev) :
  filter kind l = [] -> count kind l = 0%nat.
Proof.
  unfold count. intros ->. reflexivity.
Qed.

(** C9.  With a budget below [-1] the test of the episode loop fails
    at once: the loop returns without a single event, the [try]
    statement is just the [finally] block, and a run of [main] holds no
    call of [env.reset] and never runs out of fuel. *)
Theorem c9_budget_below_minus_one (eps : Z) :
  eps < -1 ->
  (forall fuel max_steps results_path (s : St),
      episodes (vars s) = eps -> episode (vars s) = 0 ->
      episode_loop radd rzero C fuel max_steps s = (Return tt, s) /\
      try_block radd rzero C fuel max_steps results_path s
      = finalize C results_path s) /\
  (forall fuel g a args rd mon sd sv w,
      count is_reset
            (trace (snd (main radd rzero C fuel g a args eps rd mon sd sv w)))
      = 0%nat /\
      fst (main radd rzero C fuel g a args eps rd mon sd sv w) <> OutOfFuel).
Proof.
  intros Hlt. split.
  - intros fuel max_steps results_path s Heps Hep.
    assert (Hloop : episode_loop radd rzero C fuel max_steps s = (Return tt, s)).
    { destruct fuel; simpl; unfold bind, read, ret; rewrite Heps, Hep;
        replace ((eps =? -1) || (0 <? eps))%bool with false; try reflexivity;
        symmetry; apply orb_false_intro;
        [apply Z.eqb_neq; lia | apply Z.ltb_ge; lia
        |apply Z.eqb_neq; lia | apply Z.ltb_ge; lia]. }
    split; [exact Hloop|].
    unfold try_block, try_except_finally. rewrite Hloop.
    destruct (finalize C results_path s) as [[[]|e|] s3]; reflexivity.
  - intros fuel g a args rd mon sd sv w.
    destruct (main_runs fuel g a args eps rd mon sd sv w)
      as (so & sevs & s1 & Hsetup & Hrest).
    destruct Hsetup as (Hsame & _ & Hep1 & Hse & _ & Hso).
    assert (Hnr : count is_reset sevs = 0%nat).
    { apply (setup_events_hold_no is_reset); auto.
      intros e; destruct e; simpl; congruence. }
    destruct Hsame as (_ & _ & Heps1 & _). simpl in Heps1, Hep1.
    destruct so as [[[rp ms]|]|e|]; [| | |contradiction].
    + destruct Hrest as (s1' & tevs & tout & Hv1' & Htry & -> & ->).
      destruct Htry as (_ & _ & Hep & Hmax & Hout & _).
      rewrite Hv1' in Hep, Hmax, Hout. simpl in Hep, Hmax, Hout.
      rewrite Heps1 in Hmax, Hout.
      assert (Hzero : count is_reset tevs = 0%nat) by lia.
      rewrite count_app, Hnr, Hzero. split; [reflexivity|].
      destruct tout as [u|e|]; try discriminate.
      specialize (Hout eq_refl). apply orb_prop in Hout.
      destruct Hout as [H|H]; [apply Z.eqb_eq in H | apply Z.ltb_lt in H]; lia.
    + destruct Hrest as (-> & -> & _). split; [exact Hnr|discriminate].
    + destruct Hrest as (-> & -> & _). split; [exact Hnr|discriminate].
Qed.

(** C3 (as the code has it).  When the agent's constructor raises the
    incompatibility error, [main] logs it and returns [None]: the
    environment is never reset or stepped, the operator is not asked
    and the agent is not saved.  The results directory has been made
    before, exactly when [save is True]. *)
Theorem c3_incompatible_agent_aborts (fuel : nat) (g a : string)
        (args : AgentArgs) (eps : Z) (rd mon : bool) (sd : option Z)
        (sv : save_val) (w : World) (n : string) (p : path) :
  In (EvNew n p (Err IncompatibleGameError))
     (trace (snd (main radd rzero C fuel g a args eps rd mon sd sv w))) ->
  fst (main radd rzero C fuel g a args eps rd mon sd sv w) = Return RetNone /\
  In (EvLog ERROR (MsgExn IncompatibleGameError))
     (trace (snd (main radd rzero C fuel g a args eps rd mon sd sv w))) /\
  count is_reset
        (trace (snd (main radd rzero C fuel g a args eps rd mon sd sv w)))
  = 0%nat /\
  count is_step
        (trace (snd (main radd rzero C fuel g a args eps rd mon sd sv w)))
  = 0%nat /\
  count is_prompt
        (trace (snd (main radd rzero C fuel g a args eps rd mon sd sv w)))
  = 0%nat /\
  count is_save
        (trace (snd (main radd rzero C fuel g a args eps rd mon sd sv w)))
  = 0%nat /\
  filter is_makedirs
         (trace (snd (main radd rzero C fuel g a args eps rd mon sd sv w)))
  = (if is_True sv
     then [EvMakedirs (results_dir a g (time_strftime C w)) (Ok tt)]
     else []).
Proof.
  intros Hin.
  destruct (main_runs fuel g a args eps rd mon sd sv w)
    as (so & sevs & s1 & Hsetup & Hrest).
  destruct Hsetup as (_ & _ & _ & Hse & _ & Hso).
  destruct so as [[[rp ms]|]|e|]; [| | |contradiction].
  - exfalso.
    destruct Hrest as (s1' & tevs & tout & _ & Htry & Hevs & _).
    destruct Hso as (_ & _ & _ & Hnew).
    destruct Htry as (_ & _ & _ & _ & _ & levs & fevs & -> & Hle & Hfe & _).
    rewrite Hevs in Hin.
    apply in_app_or in Hin. destruct Hin as [Hin|Hin].
    + assert (Hf : In (EvNew n p (Err IncompatibleGameError))
                      (filter is_new sevs))
        by (apply filter_In; auto).
      rewrite Hnew in Hf. destruct Hf as [Hf|[]]. discriminate.
    + apply in_app_or in Hin. destruct Hin as [Hin|Hin].
      * apply (in_forallb _ _ _ Hle) in Hin. discriminate.
      * apply (in_forallb _ _ _ Hfe) in Hin. discriminate.
  - destruct Hrest as (-> & -> & _).
    destruct Hso as (_ & _ & _ & Hmk & Hlog). simpl in Hmk.
    repeat split; auto;
      (apply setup_events_hold_no; auto;
       intros e; destruct e; simpl; congruence).
  - exfalso. destruct Hrest as (_ & Hevs & _). rewrite Hevs in Hin.
    destruct Hso as (_ & Hno & _). apply (Hno n p Hin).
Qed.


(** C7 (as the code has it).  At any point a run of [main] has
    reached, the environment name, the agent's arguments, the episode
    budget, the render and monitor flags and the seed are as they were
    given; the variable [agent] holds the name given or, once built,
    the agent; the save flag is as given, or was [None] and has been
    set to [True] by the [finally] block. *)
Theorem c7_configuration_kept_but_save (fuel : nat) (g a : string)
        (args : AgentArgs) (eps : Z) (rd mon : bool) (sd : option Z)
        (sv : save_val) (w : World) :
  same_settings
    (initial_frame g a args eps rd mon sd sv)
    (vars (snd (main radd rzero C fuel g a args eps rd mon sd sv w))) /\
  (agent (vars (snd (main radd rzero C fuel g a args eps rd mon sd sv w)))
   = AgentName a \/
   agent (vars (snd (main radd rzero C fuel g a args eps rd mon sd sv w)))
   = AgentObject) /\
  save_resolved
    sv (save (vars (snd (main radd rzero C fuel g a args eps rd mon sd sv w)))).
Proof.
  destruct (main_runs fuel g a args eps rd mon sd sv w)
    as (so & sevs & s1 & Hsetup & Hrest).
  destruct Hsetup as (Hsame & Hsv & _ & _ & _ & Hso).
  simpl in Hsame, Hsv.
  destruct so as [[[rp ms]|]|e|]; [| | |contradiction].
  - destruct Hrest as (s1' & tevs & tout & Hv1' & Htry & _ & _).
    destruct Htry as (Hv & Hres & _).
    destruct Hso as (_ & _ & Hagent & _).
    rewrite Hv1' in Hv, Hres. simpl in Hres. rewrite Hsv in Hres.
    unfold same_settings in *. rewrite Hv. simpl. simpl in Hsame. tauto.
  - destruct Hrest as (_ & _ & ->). destruct Hso as (_ & Hagent & _).
    unfold save_resolved. tauto.
  - destruct Hrest as (_ & _ & ->). destruct Hso as (Hagent & _).
    unfold save_resolved. tauto.
Qed.

(** C8.  The names [random] and [np] are bound nowhere in the script.
    A run of [main] given a seed therefore ends with an exception, with
    the agent never constructed and the environment never reset; the
    exception is the [NameError] for [random] whenever the calls made
    before the seeding returned. *)
Theorem c8_seed_raises_name_error (fuel : nat) (g a : string)
        (args : AgentArgs) (eps : Z) (rd mon : bool) (n : Z)
        (sv : save_val) (w : World) :
  bound "random" = false /\ bound "np" = false /\
  (exists e,
      fst (main radd rzero C fuel g a args eps rd mon (Some n) sv w)
      = Raise e) /\
  count is_new
        (trace (snd (main radd rzero C fuel g a args eps rd mon (Some n) sv w)))
  = 0%nat /\
  count is_reset
        (trace (snd (main radd rzero C fuel g a args eps rd mon (Some n) sv w)))
  = 0%nat /\
  (forallb replied_ok
           (trace (snd (main radd rzero C fuel g a args eps rd mon (Some n)
                             sv w)))
   = true ->
   fst (main radd rzero C fuel g a args eps rd mon (Some n) sv w)
   = Raise (NameError "random")).
Proof.
  split; [reflexivity|]. split; [reflexivity|].
  destruct (main_runs fuel g a args eps rd mon (Some n) sv w)
    as (so & sevs & s1 & Hsetup & Hrest).
  destruct Hsetup as (_ & _ & _ & Hse & _ & Hso). simpl in Hso.
  destruct so as [[[rp ms]|]|e|]; [| | |contradiction].
  - destruct Hso as (_ & Hseed & _). discriminate.
  - destruct Hso as (Hseed & _). discriminate.
  - destruct Hrest as (-> & -> & _).
    destruct Hso as (_ & _ & Hseed).
    destruct (Hseed ltac:(discriminate)) as [Hnew Hname].
    repeat split.
    + exists e. reflexivity.
    + apply count_filter_nil. exact Hnew.
    + apply setup_events_hold_no; auto.
      intros ev; destruct ev; simpl; congruence.
    + intros Hok. rewrite (Hname Hok). reflexivity.
Qed.

(** C10.  In a run of [main] with [save] left at [None] in which the
    operator answers yes at the prompt, [agent.save] is called with
    [results/<agent>/<game>/<date>/final.pkl], while [os.makedirs] has
    not been called at all. *)
Theorem c10_saved_into_directory_never_made (fuel : nat) (g a : string)
        (args : AgentArgs) (eps : Z) (rd mon : bool) (sd : option Z)
        (w : World) (q yn : string) :
  In (EvPrompt q (Ok yn))
     (trace (snd (main radd rzero C fuel g a args eps rd mon sd SaveNone w))) ->
  lower yn = "y" ->
  count is_makedirs
        (trace (snd (main radd rzero C fuel g a args eps rd mon sd SaveNone w)))
  = 0%nat /\
  (exists r,
      In (EvSave (path_join (results_dir a g (time_strftime C w)) "final.pkl")
                 r)
         (trace (snd (main radd rzero C fuel g a args eps rd mon sd
                           SaveNone w)))) /\
  save (vars (snd (main radd rzero C fuel g a args eps rd mon sd SaveNone w)))
  = SaveBool true.
Proof.
  intros Hin Hyes.
  destruct (main_runs fuel g a args eps rd mon sd SaveNone w)
    as (so & sevs & s1 & Hsetup & Hrest).
  destruct Hsetup as (_ & Hsv & _ & Hse & Hmk & Hso). simpl in Hmk, Hsv.
  assert (Hnoprompt : ~ In (EvPrompt q (Ok yn)) sevs).
  { intros H. apply (in_forallb _ _ _ Hse) in H. discriminate. }
  destruct so as [[[rp ms]|]|e|]; [| | |contradiction].
  - destruct Hrest as (s1' & tevs & tout & Hv1' & Htry & Hevs & _).
    destruct Htry
      as (_ & Hres & _ & _ & _ & levs & fevs & -> & Hle & Hfe & _ & _
          & Hsaved & Hpath).
    rewrite Hevs in *. clear Hevs.
    apply in_app_or in Hin. destruct Hin as [Hin|Hin]; [contradiction|].
    apply in_app_or in Hin. destruct Hin as [Hin|Hin].
    { apply (in_forallb _ _ _ Hle) in Hin. discriminate. }
    destruct (Hsaved q yn Hin Hyes) as [r Hr].
    repeat split.
    + rewrite !count_app, Hmk.
      rewrite (loop_events_hold_no is_makedirs levs), 
              (final_events_hold_no is_makedirs fevs); auto;
        intros ev; destruct ev; simpl; congruence.
    + exists r. apply in_or_app. right. apply in_or_app. right. exact Hr.
    + destruct (Hpath _ _ Hr) as [_ Htruthy].
      destruct Hres as [Hres|[_ Hres]]; [|exact Hres].
      rewrite Hres, Hv1' in Htruthy. simpl in Htruthy.
      rewrite Hsv in Htruthy. discriminate.
  - destruct Hrest as (_ & Hevs & _). rewrite Hevs in Hin. contradiction.
  - destruct Hrest as (_ & Hevs & _). rewrite Hevs in Hin. contradiction.
Qed.


(** ** Episodes that end on their fifth step *)

Section FiveSteps.

Variable clock : World -> Z.
Hypothesis Hfive : done_at_step 5 C clock.

Lemma step_body_clocked (max_steps : option Z) (step : Z) (obs : Obs)
      (total : Reward) (s : St) :
  exists obs' total' evs s',
    step_body radd C max_steps step obs total s
    = (Return (obs', total', clock (world s) + 1 =? 5), s') /\
    trace s' = trace s ++ evs /\
    vars s' = vars s /\
    clock (world s') = clock (world s) + 1 /\
    forallb step_event evs = true /\
    count is_step evs = 1%nat /\
    react_flags evs = [(clock (world s) + 1 =? 5, py_eq step max_steps)].
Proof.
  destruct Hfive as (_ & Hrender & Hact & Hstep & Hreact).
  assert (Hrd : exists evs0 s0,
    (if render (vars s) then call EvRender (env_render C) else ret tt) s
    = (Return tt, s0) /\
    trace s0 = trace s ++ evs0 /\ vars s0 = vars s /\
    clock (world s0) = clock (world s) /\
    forallb step_event evs0 = true /\ count is_step evs0 = 0%nat /\
    react_flags evs0 = []).
  { destruct (render (vars s)).
    - destruct (Hrender (world s)) as (w' & Heq & Hclk).
      unfold call. rewrite Heq. simpl.
      eexists [_], _. repeat split; auto.
    - exists [], s. unfold ret. rewrite app_nil_r. repeat split; auto. }
  destruct Hrd as (evs0 & s0 & Heq0 & Ht0 & Hv0 & Hc0 & Hse0 & Hst0 & Hfl0).
  destruct (Hact obs (world s0)) as (a & w1 & Heq1 & Hc1).
  destruct (Hstep a w1) as (obs' & rew & w2 & Heq2 & Hc2).
  destruct (Hreact obs a rew (clock w1 + 1 =? 5) obs'
                   (py_eq step max_steps) w2) as (w3 & Heq3 & Hc3).
  exists obs', (radd total rew),
    (evs0 ++ [EvAct obs (Ok a);
              EvStep a (Ok (obs', rew, clock w1 + 1 =? 5));
              EvReact obs a rew (clock w1 + 1 =? 5) obs'
                      (py_eq step max_steps) (Ok tt)]),
    {| world := w3;
       trace := ((trace s0 ++ [EvAct obs (Ok a)])
                 ++ [EvStep a (Ok (obs', rew, clock w1 + 1 =? 5))])
                ++ [EvReact obs a rew (clock w1 + 1 =? 5) obs'
                            (py_eq step max_steps) (Ok tt)];
       vars := vars s0 |}.
  assert (Hclk : clock w1 = clock (world s)) by lia.
  split.
  - unfold step_body, bind at 1, read. unfold bind at 1. rewrite Heq0.
    unfold bind, call. rewrite Heq1. simpl. rewrite Heq2. simpl.
    rewrite Heq3. simpl. rewrite Hclk. reflexivity.
  - simpl. rewrite Ht0, <- !app_assoc.
    rewrite forallb_app, count_app, react_flags_app, Hse0, Hst0, Hfl0, Hclk.
    repeat split; auto. lia.
Qed.

(** From step [k < 5] on, with the clock at [k], the step loop
    takes the remaining steps and stops on the fifth. *)
Lemma step_loop_clocked (m : nat) :
  forall (k : Z) (obs : Obs) (total : Reward) (s : St),
    0 <= k -> k + Z.of_nat (S m) = 5 -> clock (world s) = k ->
    exists total' evs s',
      step_loop radd C (Some 10) k false obs total s = (Return total', s') /\
      trace s' = trace s ++ evs /\
      vars s' = vars s /\
      forallb step_event evs = true /\
      count is_step evs = S m /\
      react_flags evs = repeat (false, false) m ++ [(true, false)].
Proof.
  induction m as [|m IH]; intros k obs total s Hk Hsum Hclk.
  - destruct (step_body_clocked (Some 10) (k + 1) obs total s)
      as (obs' & total' & evs & s' & Heq & Ht & Hv & Hc & Hse & Hst & Hfl).
    exists total', evs, s'.
    rewrite step_loop_enter
      by (simpl; apply andb_true_intro; split; [apply Z.ltb_lt; lia|reflexivity]).
    unfold bind. rewrite Heq.
    rewrite Hclk in *.
    replace (k + 1 =? 5) with true in * by (symmetry; apply Z.eqb_eq; lia).
    rewrite step_loop_leave by (apply andb_false_intro2; reflexivity).
    unfold ret. repeat split; auto.
    rewrite Hfl. simpl.
    replace (k + 1 =? 10) with false by (symmetry; apply Z.eqb_neq; lia).
    reflexivity.
  - destruct (step_body_clocked (Some 10) (k + 1) obs total s)
      as (obs' & total' & evs & s' & Heq & Ht & Hv & Hc & Hse & Hst & Hfl).
    rewrite Hclk in *.
    replace (k + 1 =? 5) with false in * by (symmetry; apply Z.eqb_neq; lia).
    destruct (IH (k + 1) obs' total' s') as
      (total2 & evs2 & s2 & Heq2 & Ht2 & Hv2 & Hse2 & Hst2 & Hfl2);
      try lia.
    exists total2, (evs ++ evs2), s2.
    rewrite step_loop_enter
      by (simpl; apply andb_true_intro; split; [apply Z.ltb_lt; lia|reflexivity]).
    unfold bind. rewrite Heq, Heq2.
    rewrite forallb_app, count_app, react_flags_app, Hse, Hse2, Hst, Hst2,
      Hfl, Hfl2, Ht2, Ht, <- app_assoc.
    repeat split; auto; try congruence.
    simpl.
    replace (k + 1 =? 10) with false by (symmetry; apply Z.eqb_neq; lia).
    reflexivity.
Qed.

Lemma run_episode_clocked (s : St) :
  exists evs s',
    run_episode radd rzero C (Some 10) s = (Return tt, s') /\
    trace s' = trace s ++ evs /\
    vars s' = set_episode (episode (vars s) + 1) (vars s) /\
    five_step_episode evs.
Proof.
  destruct Hfive as (Hreset & _).
  destruct (Hreset (world s)) as (obs & w1 & Heq1 & Hc1).
  set (s1 := {| world := w1; trace := trace s ++ [EvReset (Ok obs)];
                vars := set_episode (episode (vars s) + 1) (vars s) |}).
  destruct (step_loop_clocked 4 0 obs rzero s1)
    as (total & steps & s2 & Heq2 & Ht2 & Hv2 & Hse2 & Hst2 & Hfl2);
    try lia; auto.
  eexists _, _.
  unfold run_episode, bind, read, assign, call, log, emit. simpl.
  rewrite Heq1. simpl. fold s1. rewrite Heq2. simpl.
  split; [reflexivity|]. simpl. rewrite Ht2, Hv2. simpl.
  rewrite <- !app_assoc. simpl.
  repeat split.
  exists obs, steps, (episode (vars s) + 1), total. repeat split; auto.
Qed.

(** [n] more episodes to go, and fuel for them. *)
Lemma episode_loop_clocked (n : nat) :
  forall (fuel : nat) (s : St),
    0 <= episode (vars s) ->
    episodes (vars s) = episode (vars s) + Z.of_nat n ->
    (n <= fuel)%nat ->
    exists evs s',
      episode_loop radd rzero C fuel (Some 10) s = (Return tt, s') /\
      trace s' = trace s ++ evs /\
      made_of n five_step_episode evs.
Proof.
  induction n as [|n IH]; intros fuel s Hep Heps Hfuel.
  - exists [], s. rewrite app_nil_r.
    assert (Htest : ((episodes (vars s) =? -1)
                     || (episode (vars s) <? episodes (vars s)))%bool = false).
    { apply orb_false_intro; [apply Z.eqb_neq|apply Z.ltb_ge]; lia. }
    destruct fuel; simpl; unfold bind, read, ret; rewrite Htest; auto.
  - destruct fuel as [|fuel]; [lia|].
    assert (Htest : ((episodes (vars s) =? -1)
                     || (episode (vars s) <? episodes (vars s)))%bool = true).
    { apply orb_true_intro. right. apply Z.ltb_lt. lia. }
    destruct (run_episode_clocked s) as (ep & s1 & Heq1 & Ht1 & Hv1 & Hep1).
    destruct (IH fuel s1) as (evs & s2 & Heq2 & Ht2 & Hmade).
    { rewrite Hv1. simpl. lia. }
    { rewrite Hv1. simpl. lia. }
    { lia. }
    exists (ep ++ evs), s2. simpl.
    unfold bind at 1, read at 1. unfold bind at 1, read at 1.
    rewrite Htest. unfold bind. rewrite Heq1, Heq2.
    rewrite Ht2, Ht1, app_assoc. repeat split; auto.
    exists ep, evs. auto.
Qed.

End FiveSteps.


Lemma five_step_episode_counts (ep : list Ev) :
  five_step_episode ep ->
  count is_reset ep = 1%nat /\ count is_step ep = 5%nat /\
  react_flags ep
  = [(false, false); (false, false); (false, false); (false, false);
     (true, false)].
Proof.
  intros (obs & steps & number & total & -> & Hse & Hst & Hfl).
  rewrite !count_cons, !count_app, Hst.
  change (react_flags (EvReset (Ok obs) :: steps ++ _))
    with (react_flags (steps ++ [EvLog DEBUG
            (MsgFormat "Episode {}: {}" [ArgInt number; ArgReward total])])).
  rewrite react_flags_app, Hfl.
  rewrite (step_events_hold_no is_reset steps) by
    (auto; intros e; destruct e; simpl; congruence).
  unfold count. simpl. auto.
Qed.

Lemma made_of_five_step_episodes (n : nat) (evs : list Ev) :
  made_of n five_step_episode evs ->
  count is_reset evs = n /\ count is_step evs = (5 * n)%nat /\
  react_flags evs
  = List.concat (repeat [(false, false); (false, false); (false, false);
                    (false, false); (true, false)] n).
Proof.
  revert evs. induction n as [|n IH]; simpl; intros evs H.
  - subst evs. unfold count. simpl. auto.
  - destruct H as (ep & rest & -> & Hep & Hrest).
    destruct (five_step_episode_counts ep Hep) as (Hr & Hs & Hf).
    destruct (IH rest Hrest) as (Hr' & Hs' & Hf').
    rewrite !count_app, react_flags_app, Hr, Hs, Hf, Hr', Hs', Hf'.
    repeat split; auto. lia.
Qed.

(** C6.  With a budget of three episodes, a step limit of ten and an
    environment and agent whose every episode is reported done on its
    fifth step, the episode loop returns after three episodes, each of
    a reset, five steps and the end-of-episode record: three resets and
    fifteen steps in all, and fifteen transitions handed to
    [agent.react], none of them flagged as truncated. *)
Theorem c6_three_episodes_of_five_steps (clock : World -> Z) (fuel : nat)
        (s : St) :
  done_at_step 5 C clock ->
  episodes (vars s) = 3 -> episode (vars s) = 0 -> (3 <= fuel)%nat ->
  exists evs,
    fst (episode_loop radd rzero C fuel (Some 10) s) = Return tt /\
    trace (snd (episode_loop radd rzero C fuel (Some 10) s)) = trace s ++ evs /\
    made_of 3 five_step_episode evs /\
    count is_reset evs = 3%nat /\
    count is_step evs = 15%nat /\
    List.length (react_flags evs) = 15%nat /\
    (forall done truncated,
        In (done, truncated) (react_flags evs) -> truncated = false).
Proof.
  intros Hfive Heps Hep Hfuel.
  destruct (episode_loop_clocked clock Hfive 3 fuel s)
    as (evs & s' & Heq & Ht & Hmade); try lia.
  exists evs. rewrite Heq. simpl.
  destruct (made_of_five_step_episodes 3 evs Hmade) as (Hr & Hs & Hf).
  rewrite Hf. simpl.
  repeat split; auto.
  intros d t Hin. repeat (destruct Hin as [Hin|Hin]; [congruence|]).
  contradiction.
Qed.


(** * Further properties of [main] *)

(** ** Two facts about one run *)

Lemma runs_conj {A} (m : M A) (s : St)
      (Q1 Q2 : outcome A -> list Ev -> St -> Prop) :
  runs m s Q1 -> runs m s Q2 ->
  runs m s (fun o evs s' => Q1 o evs s' /\ Q2 o evs s').
Proof.
  intros (evs1 & Ht1 & H1) (evs2 & Ht2 & H2).
  assert (Heq : evs1 = evs2).
  { rewrite Ht1 in Ht2. apply app_inv_head in Ht2. exact Ht2. }
  subst evs2. exists evs1. auto.
Qed.

Lemma runs_elim {A} (m : M A) (s : St)
      (Q : outcome A -> list Ev -> St -> Prop) :
  runs m s Q ->
  exists evs, trace (snd (m s)) = trace s ++ evs /\ Q (fst (m s)) evs (snd (m s)).
Proof.
  intros H. exact H.
Qed.

(** ** The passes of the step loop *)

Lemma last_cons_default {A} (a d : A) (l : list A) :
  last (a :: l) d = last l a.
Proof.
  revert a d. induction l as [|b l IH]; intros a d; [reflexivity|].
  change (last (a :: b :: l) d) with (last (b :: l) d).
  rewrite (IH b d), (IH b a). reflexivity.
Qed.

(** A pass that runs to its end is an [iteration]. *)
Lemma step_body_returns (max_steps : option Z) (step : Z) (obs : Obs)
      (total : Reward) (s : St) (obs' : Obs) (total' : Reward) (done' : bool)
      (s1 : St) :
  step_body radd C max_steps step obs total s
  = (Return (obs', total', done'), s1) ->
  exists a r,
    trace s1
    = trace s
      ++ iteration (render (vars s)) max_steps step
           {| t_observation := obs; t_action := a; t_reward := r;
              t_done := done'; t_new_observation := obs' |} /\
    total' = radd total r /\
    vars s1 = vars s.
Proof.
  unfold step_body, bind, read, call, ret, iteration.
  destruct (render (vars s)); simpl.
  - destruct (env_render C (world s)) as [[[]|e] w0]; simpl; [|discriminate].
    destruct (agent_act C obs w0) as [[a|e] w1]; simpl; [|discriminate].
    destruct (env_step C a w1) as [[[[o r] d]|e] w2]; simpl; [|discriminate].
    destruct (agent_react C obs a r d o (py_eq step max_steps) w2)
      as [[[]|e] w3]; simpl; [|discriminate].
    intros H. injection H as <- <- <- <-. exists a, r. simpl.
    rewrite <- !app_assoc. auto.
  - destruct (agent_act C obs (world s)) as [[a|e] w1]; simpl; [|discriminate].
    destruct (env_step C a w1) as [[[[o r] d]|e] w2]; simpl; [|discriminate].
    destruct (agent_react C obs a r d o (py_eq step max_steps) w2)
      as [[[]|e] w3]; simpl; [|discriminate].
    intros H. injection H as <- <- <- <-. exists a, r. simpl.
    rewrite <- !app_assoc. auto.
Qed.

(** A step loop that returns went through passes [ts]: its events are
    theirs, in order; each pass started from the observation the one
    before ended with; the total grew by their rewards; only the last
    pass may have reported [done]; and the loop test fails after it. *)
Lemma step_loop_returns (n : nat) :
  forall (max_steps : option Z) (step : Z) (done : bool) (obs : Obs)
         (total : Reward) (s : St) (total' : Reward) (s' : St),
    n = steps_left max_steps step ->
    step_loop radd C max_steps step done obs total s = (Return total', s') ->
    exists ts,
      trace s' = trace s ++ iterations (render (vars s)) max_steps step ts /\
      vars s' = vars s /\
      linked obs ts /\
      total' = fold_left radd (map t_reward ts) total /\
      (done = true -> ts = []) /\
      Forall (fun t => t_done t = false) (removelast ts) /\
      (py_lt (step + Z.of_nat (List.length ts)) max_steps
       && negb (last (map t_done ts) done))%bool = false.
Proof.
  induction n as [|n IH];
    intros max_steps step done obs total s total' s' Hn Hrun.
  - assert (Hleave : (py_lt step max_steps && negb done)%bool = false).
    { destruct (py_lt step max_steps) eqn:Hlt; [|reflexivity].
      rewrite (steps_left_next _ _ Hlt) in Hn. discriminate. }
    rewrite (step_loop_leave _ _ _ _ _ _ Hleave) in Hrun.
    unfold ret in Hrun. injection Hrun as <- <-.
    exists []. simpl. rewrite app_nil_r, Z.add_0_r.
    repeat split; auto.
  - destruct (py_lt step max_steps && negb done)%bool eqn:Hc.
    2:{ rewrite (step_loop_leave _ _ _ _ _ _ Hc) in Hrun.
        unfold ret in Hrun. injection Hrun as <- <-.
        exists []. simpl. rewrite app_nil_r, Z.add_0_r.
        repeat split; auto. }
    apply andb_prop in Hc as Hc'. destruct Hc' as [Hlt Hnd].
    rewrite (steps_left_next _ _ Hlt) in Hn. injection Hn as Hn.
    rewrite (step_loop_enter _ _ _ _ _ _ Hc) in Hrun. unfold bind in Hrun.
    destruct (step_body radd C max_steps (step + 1) obs total s)
      as [[[[obs1 total1] done1]|e|] s1] eqn:Hbody; try discriminate.
    destruct (step_body_returns _ _ _ _ _ _ _ _ _ Hbody)
      as (a & r & Ht1 & Htot1 & Hv1).
    destruct (IH max_steps (step + 1) done1 obs1 total1 s1 total' s' Hn Hrun)
      as (ts & Ht & Hv & Hlinked & Htot & Hdone & Hfalse & Hexit).
    exists ({| t_observation := obs; t_action := a; t_reward := r;
               t_done := done1; t_new_observation := obs1 |} :: ts).
    rewrite Hv1 in Ht, Hv.
    repeat split.
    + rewrite Ht, Ht1, <- app_assoc. reflexivity.
    + exact Hv.
    + exact Hlinked.
    + simpl. rewrite <- Htot1. exact Htot.
    + intros Hd. rewrite Hd in Hnd. discriminate.
    + destruct ts as [|t ts]; [constructor|].
      change (removelast (?x :: t :: ts)) with (x :: removelast (t :: ts)).
      constructor; [|exact Hfalse].
      simpl. destruct done1; [|reflexivity].
      specialize (Hdone eq_refl). discriminate.
    + change (map t_done (?x :: ts)) with (t_done x :: map t_done ts).
      rewrite last_cons_default. simpl t_done.
      replace (step + Z.of_nat (List.length (_ :: ts)))
        with (step + 1 + Z.of_nat (List.length ts))
        by (simpl List.length; lia).
      exact Hexit.
Qed.


Lemma removelast_map {A B} (f : A -> B) (l : list A) :
  removelast (map f l) = map f (removelast l).
Proof.
  induction l as [|a l IH]; [reflexivity|].
  destruct l as [|b l]; [reflexivity|].
  change (removelast (map f (a :: b :: l)))
    with (f a :: removelast (map f (b :: l))).
  rewrite IH. reflexivity.
Qed.

Lemma iterations_flags (rd : bool) (max_steps : option Z) (step : Z)
      (ts : list (@transition Obs Act Reward)) :
  map fst (react_flags (iterations rd max_steps step ts)) = map t_done ts /\
  count is_step (iterations rd max_steps step ts) = List.length ts.
Proof.
  revert step. induction ts as [|t ts IH]; intros step; [split; reflexivity|].
  destruct (IH (step + 1)) as [Hf Hc].
  simpl iterations. rewrite react_flags_app, count_app, map_app, Hf, Hc.
  unfold iteration. destruct rd; unfold count; simpl; auto.
Qed.

(** X1.  When the step loop of an episode returns, its events are those
    of complete passes through the loop body, in order: [env.render]
    exactly when the render flag is set, then [agent.act] on the current
    observation, [env.step] on the action chosen, and [agent.react] on
    the very observation, action, reward, [done] and new observation of
    that pass.  Each pass starts from the observation that the
    [env.step] before it returned, the first from the one the loop was
    entered with. *)
Theorem x1_passes_thread_the_observation (max_steps : option Z) (obs : Obs)
        (total : Reward) (s : St) (total' : Reward) (s' : St) :
  step_loop radd C max_steps 0 false obs total s = (Return total', s') ->
  exists ts,
    trace s' = trace s ++ iterations (render (vars s)) max_steps 0 ts /\
    linked obs ts /\
    total' = fold_left radd (map t_reward ts) total.
Proof.
  intros Hrun.
  destruct (step_loop_returns (steps_left max_steps 0) max_steps 0 false obs
              total s total' s' eq_refl Hrun)
    as (ts & Ht & _ & Hl & Htot & _).
  exists ts. auto.
Qed.

(** X2.  When the step loop of an episode returns under a step limit
    [L], [agent.react] was called once for each call of [env.step]; no
    transition but the last reports [done]; and the loop stopped either
    on a transition that reports [done] or after exactly [L] steps (none
    when [L] is not positive). *)
Theorem x2_loop_stops_on_done_or_limit (L : Z) (obs : Obs) (total : Reward)
        (s : St) (total' : Reward) (s' : St) :
  step_loop radd C (Some L) 0 false obs total s = (Return total', s') ->
  exists evs,
    trace s' = trace s ++ evs /\
    count is_step evs = List.length (react_flags evs) /\
    Forall (fun done => done = false)
           (removelast (map fst (react_flags evs))) /\
    (last (map fst (react_flags evs)) false = true \/
     Z.of_nat (List.length (react_flags evs)) = Z.max 0 L).
Proof.
  intros Hrun.
  destruct (step_loop_returns (steps_left (Some L) 0) (Some L) 0 false obs
              total s total' s' eq_refl Hrun)
    as (ts & Ht & _ & _ & _ & _ & Hfalse & Hexit).
  destruct (step_loop_runs (Some L) 0 false obs total s)
    as (evs & Ht' & _ & _ & Hbound & _).
  rewrite Hrun in Ht'. simpl in Ht'. rewrite Ht in Ht'.
  apply app_inv_head in Ht'. subst evs.
  destruct (iterations_flags (render (vars s)) (Some L) 0 ts) as [Hf Hc].
  assert (Hlen : List.length (react_flags
                                (iterations (render (vars s)) (Some L) 0 ts))
                 = List.length ts).
  { rewrite <- (length_map fst), Hf, length_map. reflexivity. }
  exists (iterations (render (vars s)) (Some L) 0 ts).
  rewrite Hf, Hlen, Hc in *.
  split; [exact Ht|]. split; [reflexivity|]. split.
  - rewrite removelast_map. apply Forall_map. exact Hfalse.
  - destruct (last (map t_done ts) false); [left; reflexivity|right].
    rewrite andb_true_r in Hexit. simpl in Hexit.
    apply Z.ltb_ge in Hexit. unfold steps_left in Hbound. lia.
Qed.

(** X3.  When the environment carries no step limit (the tag is absent,
    so that [max_steps] is [None]) or a limit that is not positive, an
    episode whose [env.reset] returns takes no step at all: the agent is
    never asked to act, and the episode is logged with the total
    [rzero]. *)
Theorem x3_no_limit_no_step (max_steps : option Z) (s : St) (obs : Obs)
        (w : World) :
  py_lt 0 max_steps = false ->
  env_reset C (world s) = (Ok obs, w) ->
  run_episode radd rzero C max_steps s
  = (Return tt,
     {| world := w;
        trace := trace s
                 ++ [EvReset (Ok obs);
                     EvLog DEBUG
                           (MsgFormat "Episode {}: {}"
                                      [ArgInt (episode (vars s) + 1);
                                       ArgReward rzero])];
        vars := set_episode (episode (vars s) + 1) (vars s) |}).
Proof.
  intros Hlt Hreset.
  unfold run_episode, bind, read, assign, call, log, emit. simpl.
  rewrite Hreset. simpl.
  rewrite step_loop_leave by (rewrite Hlt; reflexivity).
  unfold ret. simpl. rewrite <- app_assoc. reflexivity.
Qed.

(** X4.  When the episode loop, entered with [episode = 0], is left by
    the solved signal, the [try] statement logs, at level INFO, the
    number of episodes started so far, which is the number of calls of
    [env.reset] and at least one; it then runs the [finally] block once,
    from the state the signal left, and ends as that block ends. *)
Theorem x4_solved_signal_is_logged_and_finalized (fuel : nat)
        (max_steps : option Z) (results_path : path) (s s1 : St) :
  episode (vars s) = 0 ->
  episode_loop radd rzero C fuel max_steps s = (Raise SolvedGame, s1) ->
  try_block radd rzero C fuel max_steps results_path s
  = finalize C results_path
      {| world := world s1;
         trace := trace s1
                  ++ [EvLog INFO (MsgFormat "Solved after {} episodes!"
                                            [ArgInt (episode (vars s1))])];
         vars := vars s1 |} /\
  exists evs,
    trace s1 = trace s ++ evs /\
    episode (vars s1) = Z.of_nat (count is_reset evs) /\
    (1 <= count is_reset evs)%nat.
Proof.
  intros Hzero Hloop. split.
  - unfold try_block, try_except_finally. rewrite Hloop. simpl.
    unfold bind, read, log, emit. simpl.
    match goal with
    | |- (let (fo, s3) := ?f in _) = _ => destruct f as [[[]|e|] s3]
    end; reflexivity.
  - destruct (episode_loop_runs fuel max_steps s)
      as (evs & Ht & _ & _ & Hep & _ & _ & Ho).
    rewrite Hloop in Ht, Hep, Ho. simpl in Ht, Hep, Ho.
    exists evs. repeat split; auto; lia.
Qed.

(** X5.  When the episode loop is left by an exception that has no
    handler (neither the interruption nor the solved signal), the
    [finally] block still runs once, from the state the exception left
    and without any record logged first; the exception is raised again
    after it, unless the block itself ends with an exception, which then
    takes its place. *)
Theorem x5_other_exception_is_finalized_then_raised (fuel : nat)
        (max_steps : option Z) (results_path : path) (s s1 : St) (e : exn) :
  e <> KeyboardInterrupt -> e <> SolvedGame ->
  episode_loop radd rzero C fuel max_steps s = (Raise e, s1) ->
  try_block radd rzero C fuel max_steps results_path s
  = (after_final (Raise e) (fst (finalize C results_path s1)),
     snd (finalize C results_path s1)).
Proof.
  intros Hki Hsolved Hloop.
  unfold try_block, try_except_finally. rewrite Hloop.
  destruct e; try contradiction; simpl;
    destruct (finalize C results_path s1) as [fo s3]; reflexivity.
Qed.


(** ** What the loops never call *)

Lemma step_body_render (max_steps : option Z) (step : Z) (obs : Obs)
      (total : Reward) (s : St) :
  runs (step_body radd C max_steps step obs total) s
    (fun o evs s' =>
       forallb (loop_event_under (render (vars s))) evs = true).
Proof.
  unfold step_body. run.
  destruct (render (vars s)) eqn:Hrd.
  - run_call; [|cbv beta match; reflexivity].
    run. run_call; [|cbv beta match; reflexivity].
    run. run_call; [|cbv beta match; reflexivity].
    match goal with
    | x : (Obs * Reward * bool)%type |- _ => destruct x as [[new_obs rew] done']
    end.
    run. run_call; [|cbv beta match; reflexivity].
    run. reflexivity.
  - run. run_call; [|cbv beta match; reflexivity].
    run. run_call; [|cbv beta match; reflexivity].
    match goal with
    | x : (Obs * Reward * bool)%type |- _ => destruct x as [[new_obs rew] done']
    end.
    run. run_call; [|cbv beta match; reflexivity].
    run. reflexivity.
Qed.

Lemma step_loop_render (max_steps : option Z) (step : Z) (done : bool)
      (obs : Obs) (total : Reward) (s : St) :
  runs (step_loop radd C max_steps step done obs total) s
    (fun o evs s' =>
       forallb (loop_event_under (render (vars s))) evs = true).
Proof.
  remember (steps_left max_steps step) as n eqn:Hn.
  revert step done obs total s Hn.
  induction n as [|n IH]; intros step done obs total s Hn.
  - eapply runs_ext.
    + apply step_loop_leave.
      destruct (py_lt step max_steps) eqn:Hlt; [|reflexivity].
      rewrite (steps_left_next _ _ Hlt) in Hn. discriminate.
    + apply runs_ret. reflexivity.
  - destruct (py_lt step max_steps && negb done)%bool eqn:Hc.
    2:{ eapply runs_ext; [apply step_loop_leave; exact Hc|].
        apply runs_ret. reflexivity. }
    apply andb_prop in Hc as Hc'. destruct Hc' as [Hlt _].
    rewrite (steps_left_next _ _ Hlt) in Hn. injection Hn as Hn.
    eapply runs_ext; [apply step_loop_enter; exact Hc|].
    apply runs_bind.
    eapply runs_weaken;
      [apply (runs_conj _ _ _ _ (step_body_runs max_steps (step + 1) obs total s)
                        (step_body_render max_steps (step + 1) obs total s))|].
    cbv beta. intros o evs s1 [(Hv & _) Hq].
    destruct o as [[[obs' total'] done']|e|]; auto.
    eapply runs_weaken; [apply (IH (step + 1) done' obs' total' s1 Hn)|].
    cbv beta. intros o2 evs2 s2 Hq2.
    rewrite Hv in Hq2. rewrite forallb_app, Hq, Hq2. reflexivity.
Qed.

Lemma numbers_from_succ (first : Z) (n : nat) :
  numbers_from first (S n) = first :: numbers_from (first + 1) n.
Proof.
  unfold numbers_from. simpl. rewrite Z.add_0_r. f_equal.
  rewrite <- seq_shift, map_map. apply map_ext. intros i. lia.
Qed.

(** One episode: its record carries the number [episode + 1], and
    [env.render] is called only under the render flag. *)
Lemma run_episode_record (max_steps : option Z) (s : St) :
  runs (run_episode radd rzero C max_steps) s
    (fun o evs s' =>
       vars s' = set_episode (episode (vars s) + 1) (vars s) /\
       forallb (loop_event_under (render (vars s))) evs = true /\
       match o with
       | Return _ => map fst (episode_totals evs) = [episode (vars s) + 1]
       | _ => episode_totals evs = []
       end).
Proof.
  assert (Hrender :
    runs (run_episode radd rzero C max_steps) s
      (fun o evs s' =>
         forallb (loop_event_under (render (vars s))) evs = true)).
  { unfold run_episode. run. run_call; [|reflexivity]. run.
    eapply runs_weaken; [apply step_loop_render|]. cbv beta.
    intros o evs s1 Hq. simpl in Hq.
    destruct o as [total|e|]; simpl; auto.
    run. simpl. rewrite forallb_app, Hq. simpl.
    destruct (render (vars s)); reflexivity. }
  eapply runs_weaken;
    [apply (runs_conj _ _ _ _ (run_episode_runs max_steps s) Hrender)|].
  cbv beta.
  intros o evs s' [(Hv & r & steps & rest & -> & Hse & _ & _ & _ & Ho) Hq].
  split; [exact Hv|]. split; [exact Hq|].
  change (episode_totals (EvReset r :: steps ++ rest))
    with (episode_totals (steps ++ rest)).
  rewrite episode_totals_app, (step_events_no_totals _ Hse).
  destruct o as [u|e|]; [| |contradiction].
  - destruct Ho as (obs & _ & ->). reflexivity.
  - subst rest. reflexivity.
Qed.

(** The episode loop: consecutive numbers on its records, and
    [env.render] only under the render flag. *)
Lemma episode_loop_records (fuel : nat) (max_steps : option Z) (s : St) :
  runs (episode_loop radd rzero C fuel max_steps) s
    (fun o evs s' =>
       forallb (loop_event_under (render (vars s))) evs = true /\
       map fst (episode_totals evs)
       = numbers_from (episode (vars s) + 1)
                      (List.length (episode_totals evs))).
Proof.
  revert s. induction fuel as [|fuel IH]; intros s; simpl; run;
    destruct ((episodes (vars s) =? -1) || (episode (vars s) <? episodes (vars s)))%bool.
  - apply runs_out_of_fuel. split; reflexivity.
  - run. split; reflexivity.
  - apply runs_bind.
    eapply runs_weaken; [apply run_episode_record|]. cbv beta.
    intros o evs s1 (Hv & Hq & Ho).
    destruct o as [u|e|].
    + eapply runs_weaken; [apply IH|]. cbv beta.
      intros o2 evs2 s2 (Hq2 & Hnum2).
      rewrite Hv in Hq2, Hnum2. simpl in Hq2, Hnum2. cbn [app].
      rewrite forallb_app, Hq, Hq2, episode_totals_app, map_app, length_app.
      rewrite Hnum2, Ho.
      assert (Hone : List.length (episode_totals evs) = 1%nat)
        by (rewrite <- (length_map fst), Ho; reflexivity).
      rewrite Hone. simpl Nat.add. rewrite numbers_from_succ.
      split; reflexivity.
    + cbn [app]. rewrite Hq, Ho. split; reflexivity.
    + cbn [app]. rewrite Hq, Ho. split; reflexivity.
  - run. split; reflexivity.
Qed.

(** X6.  However the episode loop ends, the end-of-episode records it
    logged carry consecutive episode numbers, starting one above the
    value of [episode] on entry: 1, 2, 3, ... in a run of [main]. *)
Theorem x6_records_are_numbered_in_order (fuel : nat) (max_steps : option Z)
        (s : St) :
  exists evs,
    trace (snd (episode_loop radd rzero C fuel max_steps s)) = trace s ++ evs /\
    map fst (episode_totals evs)
    = numbers_from (episode (vars s) + 1) (List.length (episode_totals evs)).
Proof.
  destruct (episode_loop_records fuel max_steps s) as (evs & Ht & _ & Hnum).
  exists evs. auto.
Qed.


(** ** The [finally] block, event by event *)

Lemma finalize_shape (results_path : path) (s : St) :
  runs (finalize C results_path) s
    (fun fo fevs s' =>
       final_shape results_path (save (vars s)) fevs (save (vars s')) fo).
Proof.
  unfold finalize, final_shape. run.
  destruct (save (vars s)) as [|b|n] eqn:Hsv; simpl.
  - run. apply runs_call. intros [yn|e] w _; simpl.
    + destruct (String.eqb (lower yn) "y") eqn:Hyn.
      * run. simpl. apply runs_call. intros r w' _. simpl.
        exists (Ok yn). rewrite Hyn. exists r. auto.
      * run. simpl. rewrite Hsv. simpl. run. simpl.
        exists (Ok yn). rewrite Hyn, Hsv. auto.
    + exists (Err e). rewrite Hsv. auto.
  - run. rewrite Hsv. simpl. destruct b.
    + apply runs_call. intros r w' _. simpl. rewrite Hsv.
      split; [reflexivity|]. exists r. auto.
    + run. simpl. rewrite Hsv. auto.
  - run. rewrite Hsv. simpl. destruct (n =? 0) eqn:Hn; simpl.
    + run. simpl. rewrite Hsv. auto.
    + apply runs_call. intros r w' _. simpl. rewrite Hsv.
      split; [reflexivity|]. exists r. auto.
Qed.

Lemma filter_none (kind other : Ev -> bool) (l : list Ev) :
  (forall e, other e = true -> kind e = false) ->
  forallb other l = true -> filter kind l = [].
Proof.
  intros Hex. induction l as [|e l IH]; simpl; intros H; [reflexivity|].
  apply andb_prop in H. destruct H as [He Hl].
  rewrite (Hex e He). auto.
Qed.

Lemma filter_all (kind : Ev -> bool) (l : list Ev) :
  forallb kind l = true -> filter kind l = l.
Proof.
  induction l as [|e l IH]; simpl; intros H; [reflexivity|].
  apply andb_prop in H. destruct H as [He Hl].
  rewrite He, (IH Hl). reflexivity.
Qed.

Lemma loop_event_under_loop_event (rd : bool) (l : list Ev) :
  forallb (loop_event_under rd) l = true -> forallb loop_event l = true.
Proof.
  induction l as [|e l IH]; simpl; intros H; [reflexivity|].
  apply andb_prop in H. destruct H as [He Hl].
  unfold loop_event_under in He. apply andb_prop in He. destruct He as [He _].
  rewrite He, (IH Hl). reflexivity.
Qed.

Lemma forallb_weaken (p q : Ev -> bool) (l : list Ev) :
  (forall e, p e = true -> q e = true) ->
  forallb p l = true -> forallb q l = true.
Proof.
  intros Himp. induction l as [|e l IH]; simpl; intros H; [reflexivity|].
  apply andb_prop in H. destruct H as [He Hl].
  rewrite (Himp e He), (IH Hl). reflexivity.
Qed.

(** The [finally] block after the loop and its handler have produced
    the loop events [evs1]. *)
Lemma finalize_after_loop_more (results_path : path) (fuel : nat) (s : St)
      (pending : outcome unit) (evs1 : list Ev) (s1 : St) :
  vars s1 = set_episode (episode (vars s1)) (vars s) ->
  forallb (loop_event_under (render (vars s))) evs1 = true ->
  pending <> OutOfFuel ->
  runs (finalize C results_path) s1
    (fun fo fevs s3 =>
       try_more results_path fuel s (after_final pending fo) (evs1 ++ fevs) s3).
Proof.
  intros Hv1 Hle1 Hpend.
  eapply runs_weaken;
    [apply (runs_conj _ _ _ _ (finalize_runs results_path s1)
                      (finalize_shape results_path s1))|].
  cbv beta.
  intros fo fevs s3 [(_ & _ & Hfo & Hfe & _) Hshape].
  assert (Hsame : save (vars s1) = save (vars s))
    by (rewrite Hv1; reflexivity).
  rewrite Hsame in Hshape.
  assert (Hfilter : filter final_event (evs1 ++ fevs) = fevs).
  { rewrite filter_app, (filter_all _ _ Hfe).
    rewrite (filter_none final_event loop_event evs1); auto.
    - intros e; destruct e; simpl; congruence.
    - apply (loop_event_under_loop_event _ _ Hle1). }
  unfold try_more. rewrite Hfilter. split.
  - rewrite forallb_app. apply andb_true_intro. split.
    + apply forallb_weaken with (p := loop_event_under (render (vars s)));
        [intros e He; rewrite He; reflexivity | exact Hle1].
    + apply forallb_weaken with (p := final_event);
        [intros e He; rewrite He; apply orb_true_r | exact Hfe].
  - assert (Hex : exists fo0,
        final_shape results_path (save (vars s)) fevs (save (vars s3)) fo0 /\
        (forall e, fo0 = Raise e -> after_final pending fo = Raise e)).
    { exists fo. split; [exact Hshape|]. intros e ->. reflexivity. }
    destruct pending as [u|e|]; [| |congruence];
      destruct fo as [u'|e'|]; simpl; auto; congruence.
Qed.

Lemma try_block_more (fuel : nat) (max_steps : option Z)
      (results_path : path) (s : St) :
  runs (try_block radd rzero C fuel max_steps results_path) s
       (try_more results_path fuel s).
Proof.
  unfold try_block. apply runs_try.
  eapply runs_weaken;
    [apply (runs_conj _ _ _ _ (episode_loop_runs fuel max_steps s)
                      (episode_loop_records fuel max_steps s))|].
  cbv beta.
  intros o evs s1 [(Hv1 & Hle & _ & _ & _ & Ho) (Hq & _)].
  destruct o as [u|e|].
  - apply finalize_after_loop_more; auto. discriminate.
  - assert (Hother :
      runs (finalize C results_path) s1
        (fun fo fevs s3 =>
           try_more results_path fuel s (after_final (Raise e) fo)
                    (evs ++ fevs) s3))
      by (apply finalize_after_loop_more; auto; discriminate).
    destruct e; simpl; try exact Hother.
    + apply runs_log. eapply runs_weaken.
      * apply (finalize_after_loop_more results_path fuel s (Return tt)
                 (evs ++ [EvLog ERROR (MsgText "Canceled by user!")]));
          simpl; auto.
        -- rewrite forallb_app, Hq. reflexivity.
        -- discriminate.
      * cbv beta. intros fo fevs s3 H. rewrite <- app_assoc in H. exact H.
    + run. eapply runs_weaken.
      * apply (finalize_after_loop_more results_path fuel s (Return tt)
                 (evs ++ [EvLog INFO
                            (MsgFormat "Solved after {} episodes!"
                                       [ArgInt (episode (vars s1))])]));
          simpl; auto.
        -- rewrite forallb_app, Hq. reflexivity.
        -- discriminate.
      * cbv beta. intros fo fevs s3 H. rewrite <- app_assoc in H. exact H.
  - destruct Ho as (_ & Hcount & _). unfold try_more. split.
    + apply forallb_weaken with (p := loop_event_under (render (vars s)));
        [intros e He; rewrite He; reflexivity | exact Hq].
    + split; [exact Hcount|]. split; [exact Hle|].
      rewrite Hv1. reflexivity.
Qed.


(** ** Lines 64-94, call by call *)

Ltac setup_more_leaf :=
  repeat (run; progress simpl after_final); run;
  unfold setup_more, count; simpl; (split; [reflexivity|]);
  let ev := fresh "ev" in
  let e0 := fresh "e0" in
  let Hin := fresh "Hin" in
  let Hr := fresh "Hr" in
  intros ev e0 Hin Hr; simpl in Hin;
  repeat (destruct Hin as [Hin|Hin];
          [subst ev; simpl in Hr; try discriminate;
           try (injection Hr as <-; auto)|]);
  try contradiction.

Lemma setup_runs_more (s : St) :
  runs (setup C) s (fun so sevs s1 => setup_more so sevs).
Proof.
  unfold setup. run. destruct (agent (vars s)) as [a|].
  2:{ run. unfold setup_more, count. simpl. split; [reflexivity|].
      intros ev e []. }
  run.
  destruct (is_True (save (vars s))).
  - apply runs_call. intros [[]|e] w _; simpl raised; [|setup_more_leaf].
    run. apply runs_call. intros [u1|e] w1 _; simpl raised; [|setup_more_leaf].
    run. cbn [vars]. destruct (seed (vars s)) as [n|].
    + unfold load_name. simpl. run. setup_more_leaf.
    + run. apply runs_try. run. apply runs_call.
      intros [u2|e] w2 _; simpl raised.
      * run. destruct u2. setup_more_leaf.
      * destruct e; simpl; run; setup_more_leaf.
  - run. apply runs_call. intros [u1|e] w1 _; simpl raised; [|setup_more_leaf].
    run. cbn [vars]. destruct (seed (vars s)) as [n|].
    + unfold load_name. simpl. run. setup_more_leaf.
    + run. apply runs_try. run. apply runs_call.
      intros [u2|e] w2 _; simpl raised.
      * run. destruct u2. setup_more_leaf.
      * destruct e; simpl; run; setup_more_leaf.
Qed.

Lemma main_body_more (fuel : nat) (a : string) (s : St) :
  agent (vars s) = AgentName a ->
  runs (main_body radd rzero C fuel) s
    (main_more a (results_dir a (game (vars s)) (time_strftime C (world s)))
               fuel s).
Proof.
  intros Ha. unfold main_body. apply runs_bind.
  eapply runs_weaken;
    [apply (runs_conj _ _ _ _ (setup_runs a s Ha) (setup_runs_more s))|].
  cbv beta.
  intros so sevs s1 [Hsetup Hmore].
  destruct so as [[[rp ms]|]|e|].
  - assert (Hrp : rp = results_dir a (game (vars s))
                                   (time_strftime C (world s))).
    { destruct Hsetup as (_ & _ & _ & _ & _ & H & _). exact H. }
    subst rp. run.
    eapply runs_weaken;
      [apply (runs_conj _ _ _ _ (try_block_runs fuel ms _ _)
                        (try_block_more fuel ms _ _))|].
    cbv beta.
    intros tout tevs s2 [Htry Htry'].
    destruct tout as [u|e|]; run; cbn [app]; rewrite ?app_nil_r;
      exists (Return (Some (results_dir a (game (vars s))
                              (time_strftime C (world s)), ms))),
             sevs, s1;
      (split; [exact Hsetup|]); (split; [exact Hmore|]); cbv beta match;
      [ eexists _, tevs, (Return u)
      | eexists _, tevs, (Raise e)
      | eexists _, tevs, OutOfFuel ];
      (split; [|split; [exact Htry|split; [exact Htry'|]]]); auto.
  - run. exists (Return None), sevs, s1. rewrite app_nil_r. auto.
  - exists (Raise e), sevs, s1. auto.
  - destruct Hsetup as (_ & _ & _ & _ & _ & []).
Qed.

Lemma main_more_holds (fuel : nat) (g a : string) (args : AgentArgs) (eps : Z)
      (rd mon : bool) (sd : option Z) (sv : save_val) (w : World) :
  main_more a (results_dir a g (time_strftime C w)) fuel
            (start (initial_frame g a args eps rd mon sd sv) w)
            (fst (main radd rzero C fuel g a args eps rd mon sd sv w))
            (trace (snd (main radd rzero C fuel g a args eps rd mon sd sv w)))
            (snd (main radd rzero C fuel g a args eps rd mon sd sv w)).
Proof.
  unfold main.
  apply (runs_from_start (main_body radd rzero C fuel)
           (initial_frame g a args eps rd mon sd sv) w
           (main_more a (results_dir a g (time_strftime C w)) fuel
                      (start (initial_frame g a args eps rd mon sd sv) w))).
  apply (main_body_more fuel a
           (start (initial_frame g a args eps rd mon sd sv) w)).
  reflexivity.
Qed.


(** ** Runs of [main], further *)

Lemma try_events_hold_no (kind : Ev -> bool) (rd : bool) (l : list Ev) :
  (forall e, loop_event e = true -> kind e = false) ->
  (forall e, final_event e = true -> kind e = false) ->
  forallb (fun e => loop_event_under rd e || final_event e)%bool l = true ->
  count kind l = 0%nat.
Proof.
  intros Hloop Hfinal. apply count_none. intros e He.
  apply orb_prop in He. destruct He as [He|He].
  - unfold loop_event_under in He. apply andb_prop in He. destruct He as [He _].
    auto.
  - auto.
Qed.

(** X7.  A run of [main] with the render flag off never calls
    [env.render], however it ends. *)
Theorem x7_render_off_never_renders (fuel : nat) (g a : string)
        (args : AgentArgs) (eps : Z) (mon : bool) (sd : option Z)
        (sv : save_val) (w : World) :
  count is_render
        (trace (snd (main radd rzero C fuel g a args eps false mon sd sv w)))
  = 0%nat.
Proof.
  destruct (main_more_holds fuel g a args eps false mon sd sv w)
    as (so & sevs & s1 & Hsetup & _ & Hrest).
  destruct Hsetup as (Hsame & _ & _ & Hse & _ & Hso).
  assert (Hnr : count is_render sevs = 0%nat).
  { apply (setup_events_hold_no is_render); auto.
    intros e; destruct e; simpl; congruence. }
  destruct so as [[[rp ms]|]|e|]; [| | |contradiction].
  - destruct Hrest as (s1' & tevs & tout & Hv1' & _ & Hmore & -> & _).
    destruct Hmore as (Hquiet & _).
    destruct Hsame as (_ & _ & _ & Hrd & _). simpl in Hrd.
    rewrite Hv1' in Hquiet. simpl in Hquiet. rewrite Hrd in Hquiet.
    rewrite count_app, Hnr. simpl.
    apply count_none with (2 := Hquiet).
    intros e; destruct e; simpl; congruence.
  - destruct Hrest as (_ & -> & _). exact Hnr.
  - destruct Hrest as (_ & -> & _). exact Hnr.
Qed.

(** X8.  No run of [main] ever calls [env._seed]: without a seed the
    branch of lines 74-77 is skipped, and with one it stops at its first
    line. *)
Theorem x8_environment_is_never_seeded (fuel : nat) (g a : string)
        (args : AgentArgs) (eps : Z) (rd mon : bool) (sd : option Z)
        (sv : save_val) (w : World) :
  count is_seed
        (trace (snd (main radd rzero C fuel g a args eps rd mon sd sv w)))
  = 0%nat.
Proof.
  destruct (main_more_holds fuel g a args eps rd mon sd sv w)
    as (so & sevs & s1 & _ & (Hns & _) & Hrest).
  destruct so as [[[rp ms]|]|e|]; [| | |contradiction].
  - destruct Hrest as (s1' & tevs & tout & _ & _ & (Hquiet & _) & -> & _).
    rewrite count_app, Hns. simpl.
    apply (try_events_hold_no is_seed _ _) with (3 := Hquiet);
      intros e; destruct e; simpl; congruence.
  - destruct Hrest as (_ & -> & _). exact Hns.
  - destruct Hrest as (_ & -> & _). exact Hns.
Qed.

(** X12.  When [main] returns, it returns either [None], the
    constructor having been called once and having raised the
    incompatibility error, or the agent object, the constructor having
    been called once and having returned - also after an interruption or
    a solved signal. *)
Theorem x12_main_returns_none_or_the_agent (fuel : nat) (g a : string)
        (args : AgentArgs) (eps : Z) (rd mon : bool) (sd : option Z)
        (sv : save_val) (w : World) (r : returned) :
  fst (main radd rzero C fuel g a args eps rd mon sd sv w) = Return r ->
  (r = RetNone /\
   filter is_new
          (trace (snd (main radd rzero C fuel g a args eps rd mon sd sv w)))
   = [EvNew a (results_dir a g (time_strftime C w))
            (Err IncompatibleGameError)]) \/
  (r = RetAgent AgentObject /\
   filter is_new
          (trace (snd (main radd rzero C fuel g a args eps rd mon sd sv w)))
   = [EvNew a (results_dir a g (time_strftime C w)) (Ok tt)]).
Proof.
  intros Hret.
  destruct (main_more_holds fuel g a args eps rd mon sd sv w)
    as (so & sevs & s1 & Hsetup & _ & Hrest).
  destruct Hsetup as (_ & _ & _ & _ & _ & Hso).
  rewrite Hret in Hrest.
  destruct so as [[[rp ms]|]|e|]; [| | |contradiction].
  - right.
    destruct Hrest as (s1' & tevs & tout & Hv1' & Htry & (Hquiet & _) & -> & Ho).
    destruct Hso as (_ & _ & Hagent & Hnew).
    destruct Htry as (Hv & _).
    destruct tout as [u|e|]; try discriminate.
    injection Ho as ->. split.
    + f_equal. rewrite Hv, Hv1'. simpl. exact Hagent.
    + rewrite filter_app, Hnew.
      rewrite (filter_none is_new _ tevs) with (2 := Hquiet).
      * reflexivity.
      * intros e He. apply orb_prop in He. destruct He as [He|He].
        -- unfold loop_event_under in He. apply andb_prop in He.
           destruct He as [He _]. destruct e; simpl in *; congruence.
        -- destruct e; simpl in *; congruence.
  - left. destruct Hrest as (Ho & -> & _). injection Ho as ->.
    destruct Hso as (_ & _ & Hnew & _). auto.
  - destruct Hrest as (Ho & _). discriminate.
Qed.


Lemma lower_is_y (yn : string) :
  lower yn = "y" <-> (yn = "y" \/ yn = "Y").
Proof.
  split.
  - destruct yn as [|c [|c' rest]]; simpl; try discriminate.
    intros H. injection H as H.
    destruct c as [[] [] [] [] [] [] [] []]; vm_compute in H;
      try discriminate H; auto.
  - intros [->| ->]; reflexivity.
Qed.

Lemma count_through_filter (kind other : Ev -> bool) (l : list Ev) :
  (forall e, kind e = true -> other e = true) ->
  count kind l = count kind (filter other l).
Proof.
  intros Himp. unfold count. induction l as [|e l IH]; [reflexivity|].
  simpl. destruct (kind e) eqn:Hk.
  - rewrite (Himp e Hk). simpl. rewrite Hk. simpl. rewrite IH. reflexivity.
  - destruct (other e); simpl; rewrite ?Hk; exact IH.
Qed.

(** The events of the [finally] block within a run of [main]: either
    the block has run, as [final_shape] says, or the run holds no event
    of it, has left [save] alone and does not return the agent. *)
Lemma main_final_events (fuel : nat) (g a : string) (args : AgentArgs)
      (eps : Z) (rd mon : bool) (sd : option Z) (sv : save_val) (w : World) :
  (exists fo,
      final_shape (results_dir a g (time_strftime C w)) sv
                  (filter final_event
                          (trace (snd (main radd rzero C fuel g a args eps rd
                                            mon sd sv w))))
                  (save (vars (snd (main radd rzero C fuel g a args eps rd mon
                                         sd sv w))))
                  fo /\
      (forall e, fo = Raise e ->
                 fst (main radd rzero C fuel g a args eps rd mon sd sv w)
                 = Raise e)) \/
  (filter final_event
          (trace (snd (main radd rzero C fuel g a args eps rd mon sd sv w)))
   = [] /\
   save (vars (snd (main radd rzero C fuel g a args eps rd mon sd sv w))) = sv /\
   forall r, fst (main radd rzero C fuel g a args eps rd mon sd sv w)
             <> Return (RetAgent r)).
Proof.
  destruct (main_more_holds fuel g a args eps rd mon sd sv w)
    as (so & sevs & s1 & Hsetup & _ & Hrest).
  destruct Hsetup as (_ & Hsv & _ & Hse & _ & Hso). simpl in Hsv.
  assert (Hnf : filter final_event sevs = []).
  { apply (filter_none final_event setup_event); auto.
    intros e; destruct e; simpl; congruence. }
  destruct so as [[[rp ms]|]|e|]; [| | |contradiction].
  - destruct Hrest as (s1' & tevs & tout & Hv1' & _ & (_ & Hmore) & -> & Ho).
    assert (Hsv' : save (vars s1') = sv) by (rewrite Hv1'; exact Hsv).
    rewrite filter_app, Hnf. simpl.
    destruct tout as [u|e|].
    + left. destruct Hmore as (fo & Hshape & Hraise).
      rewrite Hsv' in Hshape. exists fo. split; [exact Hshape|].
      intros e He. specialize (Hraise e He). discriminate Hraise.
    + left. destruct Hmore as (fo & Hshape & Hraise).
      rewrite Hsv' in Hshape. exists fo. split; [exact Hshape|].
      intros e' He. specialize (Hraise e' He). injection Hraise as ->.
      exact Ho.
    + right. destruct Hmore as (_ & Hle & Hsame). split.
      * apply (filter_none final_event loop_event); auto.
        intros e; destruct e; simpl; congruence.
      * split; [congruence|]. intros r. rewrite Ho. discriminate.
  - right. destruct Hrest as (Ho & -> & ->).
    split; [exact Hnf|]. split; [exact Hsv|]. intros r. rewrite Ho. discriminate.
  - right. destruct Hrest as (Ho & -> & ->).
    split; [exact Hnf|]. split; [exact Hsv|]. intros r. rewrite Ho. discriminate.
Qed.

(** X9.  An answer at the prompt counts as yes only if it is exactly
    [y] or [Y].  In a run of [main] in which the operator was asked and
    answered anything else, [yes] included, [agent.save] is never called
    and [save] is still [None] at the end. *)
Theorem x9_only_y_saves (fuel : nat) (g a : string) (args : AgentArgs)
        (eps : Z) (rd mon : bool) (sd : option Z) (sv : save_val) (w : World)
        (q yn : string) :
  In (EvPrompt q (Ok yn))
     (trace (snd (main radd rzero C fuel g a args eps rd mon sd sv w))) ->
  yn <> "y" -> yn <> "Y" ->
  count is_save
        (trace (snd (main radd rzero C fuel g a args eps rd mon sd sv w)))
  = 0%nat /\
  save (vars (snd (main radd rzero C fuel g a args eps rd mon sd sv w)))
  = SaveNone.
Proof.
  intros Hin Hy HY.
  assert (Hfin : In (EvPrompt q (Ok yn))
                    (filter final_event
                            (trace (snd (main radd rzero C fuel g a args eps rd
                                              mon sd sv w)))))
    by (apply filter_In; split; [exact Hin|reflexivity]).
  rewrite (count_through_filter is_save final_event)
    by (intros e; destruct e; simpl; congruence).
  destruct (main_final_events fuel g a args eps rd mon sd sv w)
    as [(fo & Hshape & _)|(Hnil & _)].
  2:{ rewrite Hnil in Hfin. contradiction. }
  unfold final_shape in Hshape.
  destruct sv as [|b|n].
  - destruct Hshape as ([yn'|e] & Hshape).
    + destruct (String.eqb (lower yn') "y") eqn:Hyn.
      * exfalso. destruct Hshape as (saved & Hevs & _).
        rewrite Hevs in Hfin. destruct Hfin as [H|[H|[]]]; [|discriminate].
        injection H as _ ->. apply String.eqb_eq in Hyn.
        apply lower_is_y in Hyn. tauto.
      * destruct Hshape as (-> & -> & _). split; reflexivity.
    + exfalso. destruct Hshape as (Hevs & _). rewrite Hevs in Hfin.
      destruct Hfin as [H|[]]. discriminate.
  - exfalso. destruct Hshape as (_ & Hshape).
    destruct (truthy (SaveBool b)).
    + destruct Hshape as (saved & Hevs & _). rewrite Hevs in Hfin.
      destruct Hfin as [H|[]]. discriminate.
    + destruct Hshape as (Hevs & _). rewrite Hevs in Hfin. contradiction.
  - exfalso. destruct Hshape as (_ & Hshape).
    destruct (truthy (SaveInt n)).
    + destruct Hshape as (saved & Hevs & _). rewrite Hevs in Hfin.
      destruct Hfin as [H|[]]. discriminate.
    + destruct Hshape as (Hevs & _). rewrite Hevs in Hfin. contradiction.
Qed.

(** What a run of [main] does with a save flag that is not [None]. *)
Lemma main_with_save_given (fuel : nat) (g a : string) (args : AgentArgs)
      (eps : Z) (rd mon : bool) (sd : option Z) (sv : save_val) (w : World) :
  sv <> SaveNone ->
  count is_prompt
        (trace (snd (main radd rzero C fuel g a args eps rd mon sd sv w)))
  = 0%nat /\
  save (vars (snd (main radd rzero C fuel g a args eps rd mon sd sv w))) = sv /\
  forall r,
    fst (main radd rzero C fuel g a args eps rd mon sd sv w)
    = Return (RetAgent r) ->
    filter is_save
           (trace (snd (main radd rzero C fuel g a args eps rd mon sd sv w)))
    = if truthy sv
      then [EvSave (path_join (results_dir a g (time_strftime C w)) "final.pkl")
                   (Ok tt)]
      else [].
Proof.
  intros Hgiven.
  rewrite (count_through_filter is_prompt final_event)
    by (intros e; destruct e; simpl; congruence).
  assert (Hsave : forall l : list Ev,
             filter is_save l = filter is_save (filter final_event l)).
  { intros l. induction l as [|e l IH]; [reflexivity|].
    simpl. destruct e; simpl; rewrite ?IH; reflexivity. }
  rewrite Hsave.
  destruct (main_final_events fuel g a args eps rd mon sd sv w)
    as [(fo & Hshape & Hraise)|(Hnil & Hsame & Hnot)].
  2:{ rewrite Hnil. unfold count. simpl. repeat split; auto.
      intros r Hr. destruct (Hnot r Hr). }
  unfold final_shape in Hshape.
  destruct sv as [|b|n]; [contradiction| |];
    destruct Hshape as (Hafter & Hshape);
    match goal with
    | |- context [truthy ?v] => destruct (truthy v)
    end.
  - destruct Hshape as (saved & -> & Hfo). unfold count. simpl.
    repeat split; auto. intros r Hr.
    destruct saved as [[]|e]; [reflexivity|].
    rewrite (Hraise e Hfo) in Hr. discriminate.
  - destruct Hshape as (-> & _). unfold count. simpl. auto.
  - destruct Hshape as (saved & -> & Hfo). unfold count. simpl.
    repeat split; auto. intros r Hr.
    destruct saved as [[]|e]; [reflexivity|].
    rewrite (Hraise e Hfo) in Hr. discriminate.
  - destruct Hshape as (-> & _). unfold count. simpl. auto.
Qed.

(** X10.  A run of [main] given a save flag other than [None] never asks
    the operator and leaves the flag as given; if it returns the agent,
    it has called [agent.save] exactly once, with
    [results/<agent>/<game>/<date>/final.pkl], when the flag is true, and
    not at all when it is false. *)
Theorem x10_save_given_is_obeyed_without_asking (fuel : nat) (g a : string)
        (args : AgentArgs) (eps : Z) (rd mon : bool) (sd : option Z)
        (sv : save_val) (w : World) :
  sv <> SaveNone ->
  count is_prompt
        (trace (snd (main radd rzero C fuel g a args eps rd mon sd sv w)))
  = 0%nat /\
  save (vars (snd (main radd rzero C fuel g a args eps rd mon sd sv w))) = sv /\
  forall r,
    fst (main radd rzero C fuel g a args eps rd mon sd sv w)
    = Return (RetAgent r) ->
    filter is_save
           (trace (snd (main radd rzero C fuel g a args eps rd mon sd sv w)))
    = if truthy sv
      then [EvSave (path_join (results_dir a g (time_strftime C w)) "final.pkl")
                   (Ok tt)]
      else [].
Proof.
  apply main_with_save_given.
Qed.


(** X11.  Run from the command line, where [--save] yields an integer
    and never the object [True], the script never calls [os.makedirs];
    yet with [--save] given as true, a run that returns the agent has
    called [agent.save] once, with
    [results/<agent>/<game>/<date>/final.pkl], without asking. *)
Theorem x11_command_line_save_makes_no_directory (fuel : nat)
        (ns : @namespace AgentArgs) (w : World) :
  count is_makedirs (trace (snd (script radd rzero C fuel ns w))) = 0%nat /\
  forall n r,
    ns_save ns = Some n -> n <> 0 ->
    fst (script radd rzero C fuel ns w) = Return (RetAgent r) ->
    count is_prompt (trace (snd (script radd rzero C fuel ns w))) = 0%nat /\
    filter is_save (trace (snd (script radd rzero C fuel ns w)))
    = [EvSave (path_join (results_dir (ns_agent ns) (ns_game ns)
                                      (time_strftime C w)) "final.pkl")
              (Ok tt)].
Proof.
  unfold script. split.
  - destruct (main_more_holds fuel (ns_game ns) (ns_agent ns) (ns_agent_args ns)
                (ns_episodes ns) (ns_render ns) (ns_monitor ns) (ns_seed ns)
                (save_of ns) w)
      as (so & sevs & s1 & Hsetup & _ & Hrest).
    destruct Hsetup as (_ & _ & _ & _ & Hmk & _). simpl in Hmk.
    assert (Hnot : is_True (save_of ns) = false)
      by (unfold save_of; destruct (ns_save ns); reflexivity).
    rewrite Hnot in Hmk.
    destruct so as [[[rp ms]|]|e|]; [| | |contradiction].
    + destruct Hrest as (s1' & tevs & tout & _ & _ & (Hquiet & _) & -> & _).
      rewrite count_app, Hmk. simpl.
      apply (try_events_hold_no is_makedirs _ _) with (3 := Hquiet);
        intros e; destruct e; simpl; congruence.
    + destruct Hrest as (_ & -> & _). exact Hmk.
    + destruct Hrest as (_ & -> & _). exact Hmk.
  - intros n r Hsave Hn Hret.
    assert (Hsv : save_of ns = SaveInt n)
      by (unfold save_of; rewrite Hsave; reflexivity).
    destruct (main_with_save_given fuel (ns_game ns) (ns_agent ns)
                (ns_agent_args ns) (ns_episodes ns) (ns_render ns)
                (ns_monitor ns) (ns_seed ns) (save_of ns) w)
      as (Hprompt & _ & Hsaved).
    { rewrite Hsv. discriminate. }
    split; [exact Hprompt|].
    rewrite (Hsaved r Hret), Hsv. simpl.
    destruct (n =? 0) eqn:Hz; [apply Z.eqb_eq in Hz; contradiction|].
    reflexivity.
Qed.

(** X13.  When a call made before the [try] statement raises -
    [os.makedirs], [gym.make], or the agent's constructor with an error
    other than the incompatibility error - [main] ends with that
    exception at once: the environment is never reset and the [finally]
    block does not run, so that the operator is not asked and the agent
    is not saved. *)
Theorem x13_failure_before_try_is_raised_unfinalized (fuel : nat)
        (g a : string) (args : AgentArgs) (eps : Z) (rd mon : bool)
        (sd : option Z) (sv : save_val) (w : World) (ev : Ev) (e : exn) :
  In ev (trace (snd (main radd rzero C fuel g a args eps rd mon sd sv w))) ->
  setup_event ev = true ->
  raised_by ev = Some e ->
  (is_new ev = true -> e <> IncompatibleGameError) ->
  fst (main radd rzero C fuel g a args eps rd mon sd sv w) = Raise e /\
  count is_reset
        (trace (snd (main radd rzero C fuel g a args eps rd mon sd sv w)))
  = 0%nat /\
  count is_prompt
        (trace (snd (main radd rzero C fuel g a args eps rd mon sd sv w)))
  = 0%nat /\
  count is_save
        (trace (snd (main radd rzero C fuel g a args eps rd mon sd sv w)))
  = 0%nat.
Proof.
  intros Hin Hsetev Hraised Hnew.
  destruct (main_more_holds fuel g a args eps rd mon sd sv w)
    as (so & sevs & s1 & Hsetup & (_ & Hcalls) & Hrest).
  destruct Hsetup as (_ & _ & _ & Hse & _ & _).
  assert (Hcounts : count is_reset sevs = 0%nat /\
                    count is_prompt sevs = 0%nat /\
                    count is_save sevs = 0%nat).
  { repeat split; apply setup_events_hold_no; auto;
      intros x; destruct x; simpl; congruence. }
  destruct so as [[[rp ms]|]|e0|]; [| | |contradiction].
  - exfalso.
    destruct Hrest as (s1' & tevs & tout & _ & _ & (Hquiet & _) & Hevs & _).
    rewrite Hevs in Hin. apply in_app_or in Hin. destruct Hin as [Hin|Hin].
    + destruct (Hcalls ev e Hin Hraised) as [H|(H & _)]; discriminate H.
    + apply (in_forallb _ _ _ Hquiet) in Hin.
      destruct ev; simpl in *; congruence.
  - exfalso. destruct Hrest as (_ & Hevs & _). rewrite Hevs in Hin.
    destruct (Hcalls ev e Hin Hraised) as [H|(_ & He & Hisnew)];
      [discriminate H|].
    exact (Hnew Hisnew He).
  - destruct Hrest as (Ho & Hevs & _). rewrite Hevs in *.
    destruct (Hcalls ev e Hin Hraised) as [H|(H & _)]; [|discriminate H].
    injection H as ->. split; [exact Ho|exact Hcounts].
Qed.

(** X14.  With a budget other than [-1], a run of [main] resets the
    environment at most [max 0 episodes] times, whatever happens in the
    episodes, and it comes to an end: once the model is given fuel for
    that many episodes, it never runs out of it. *)
Theorem x14_finite_budget_bounds_the_run (fuel : nat) (g a : string)
        (args : AgentArgs) (eps : Z) (rd mon : bool) (sd : option Z)
        (sv : save_val) (w : World) :
  eps <> -1 ->
  Z.of_nat (count is_reset
                  (trace (snd (main radd rzero C fuel g a args eps rd mon sd
                                    sv w))))
  <= Z.max 0 eps /\
  (Z.max 0 eps <= Z.of_nat fuel ->
   fst (main radd rzero C fuel g a args eps rd mon sd sv w) <> OutOfFuel).
Proof.
  intros Hne.
  destruct (main_more_holds fuel g a args eps rd mon sd sv w)
    as (so & sevs & s1 & Hsetup & _ & Hrest).
  destruct Hsetup as (Hsame & _ & _ & Hse & _ & _).
  assert (Hnr : count is_reset sevs = 0%nat).
  { apply (setup_events_hold_no is_reset); auto.
    intros x; destruct x; simpl; congruence. }
  destruct Hsame as (_ & _ & Heps1 & _). simpl in Heps1.
  destruct so as [[[rp ms]|]|e|]; [| | |contradiction].
  - destruct Hrest as (s1' & tevs & tout & Hv1' & Htry & (_ & Hmore) & -> & Ho).
    destruct Htry as (_ & _ & Hep & Hmax & Hout & _).
    rewrite Hv1' in Hep, Hmax, Hout. simpl in Hep, Hmax, Hout.
    rewrite Heps1 in Hmax, Hout. specialize (Hmax Hne).
    rewrite count_app, Hnr. simpl. split; [lia|].
    intros Hfuel Hof. rewrite Ho in Hof.
    destruct tout as [u|e|]; try discriminate Hof.
    destruct Hmore as (Hcount & _).
    specialize (Hout eq_refl). apply orb_prop in Hout.
    destruct Hout as [H|H]; [apply Z.eqb_eq in H | apply Z.ltb_lt in H]; lia.
  - destruct Hrest as (Ho & -> & _). rewrite Hnr. split; [lia|].
    intros _. rewrite Ho. discriminate.
  - destruct Hrest as (Ho & -> & _). rewrite Hnr. split; [lia|].
    intros _. rewrite Ho. discriminate.
Qed.

End Properties.

(** * The claims on the toy environment *)

(** C1, as the spec words it, fails where the environment reports [done]
    on the very step the limit allows last: with a limit of two and an
    episode done after two steps, the second transition is handed to
    [agent.react] with both [done] and the truncation flag set. *)
Lemma c1_counterexample :
  ~ truncated_only_without_done
      (react_flags (trace (snd (Toy.run Toy.done_on_limit 2 1 None
                                        (SaveBool false))))).
Proof.
  intros H. specialize (H true true).
  assert (Hin : In (true, true)
                   (react_flags (trace (snd (Toy.run Toy.done_on_limit 2 1 None
                                                     (SaveBool false))))))
    by (vm_compute; auto).
  specialize (H Hin eq_refl). discriminate H.
Qed.

Lemma c2_witness :
  (episode (vars (Toy.at_loop 3 SaveNone)) = 0 /\
   (forall e, fst (episode_loop Z.add 0 (Toy.toy Toy.five_of_ten) 5 (Some 10)
                                (Toy.at_loop 3 SaveNone)) <> Raise e) /\
   0 <= episodes (vars (Toy.at_loop 3 SaveNone)) <= Z.of_nat 5) /\
  (fst (episode_loop Z.add 0 (Toy.toy Toy.five_of_ten) 5 (Some 10)
                     (Toy.at_loop 3 SaveNone)) = Return tt /\
   count is_reset
         (trace (snd (episode_loop Z.add 0 (Toy.toy Toy.five_of_ten) 5 (Some 10)
                                   (Toy.at_loop 3 SaveNone)))) = 3%nat) /\
  (episodes (vars (Toy.at_loop (-1) SaveNone)) = -1 /\
   fst (episode_loop Z.add 0 (Toy.toy Toy.five_of_ten) 4 (Some 10)
                     (Toy.at_loop (-1) SaveNone)) = OutOfFuel /\
   count is_reset
         (trace (snd (episode_loop Z.add 0 (Toy.toy Toy.five_of_ten) 4 (Some 10)
                                   (Toy.at_loop (-1) SaveNone)))) = 4%nat).
Proof.
  assert (H3 : forall e, fst (episode_loop Z.add 0 (Toy.toy Toy.five_of_ten) 5
                                           (Some 10) (Toy.at_loop 3 SaveNone))
                         <> Raise e)
    by (intros e; vm_compute; discriminate).
  assert (Hinf : forall e, fst (episode_loop Z.add 0 (Toy.toy Toy.five_of_ten) 4
                                             (Some 10)
                                             (Toy.at_loop (-1) SaveNone))
                           <> Raise e)
    by (intros e; vm_compute; discriminate).
  destruct (c2_episode_budget Z.add 0 (Toy.toy Toy.five_of_ten) 5 (Some 10)
              (Toy.at_loop 3 SaveNone) eq_refl H3)
    as (evs & Ht & Hfinite & _).
  destruct (c2_episode_budget Z.add 0 (Toy.toy Toy.five_of_ten) 4 (Some 10)
              (Toy.at_loop (-1) SaveNone) eq_refl Hinf)
    as (evs' & Ht' & _ & Hforever).
  assert (Hrange : 0 <= episodes (vars (Toy.at_loop 3 SaveNone)) <= Z.of_nat 5)
    by (cbn; lia).
  destruct (Hfinite Hrange) as (Hret & Hresets & _).
  destruct (Hforever eq_refl) as (Hout & Hresets' & _).
  split; [exact (conj eq_refl (conj H3 Hrange))|].
  split; [split; [exact Hret|rewrite Ht; exact Hresets]|].
  split; [reflexivity|].
  split; [exact Hout|rewrite Ht'; exact Hresets'].
Defined.

(** C3, as the spec words it, fails when [save] is [True]: the results
    directory is made before the constructor raises. *)
Lemma c3_counterexample :
  ~ (In (EvNew "random" Toy.results_path (Err IncompatibleGameError))
        (trace (snd (Toy.run Toy.misfit 2 3 None (SaveBool true)))) ->
     nothing_written (trace (snd (Toy.run Toy.misfit 2 3 None (SaveBool true))))).
Proof.
  intros H.
  assert (Hin : In (EvNew "random" Toy.results_path (Err IncompatibleGameError))
                   (trace (snd (Toy.run Toy.misfit 2 3 None (SaveBool true)))))
    by (vm_compute; auto 6).
  destruct (H Hin) as [Hmk _].
  assert (Hone : count is_makedirs
                       (trace (snd (Toy.run Toy.misfit 2 3 None (SaveBool true))))
                 = 1%nat)
    by (vm_compute; reflexivity).
  rewrite Hone in Hmk. discriminate Hmk.
Qed.

Lemma c3_witness :
  In (EvNew "random" Toy.results_path (Err IncompatibleGameError))
     (trace (snd (Toy.run Toy.misfit 2 3 None (SaveBool true)))) /\
  fst (Toy.run Toy.misfit 2 3 None (SaveBool true)) = Return RetNone /\
  count is_reset (trace (snd (Toy.run Toy.misfit 2 3 None (SaveBool true))))
  = 0%nat /\
  count is_save (trace (snd (Toy.run Toy.misfit 2 3 None (SaveBool true))))
  = 0%nat /\
  filter is_makedirs (trace (snd (Toy.run Toy.misfit 2 3 None (SaveBool true))))
  = [EvMakedirs Toy.results_path (Ok tt)].
Proof.
  assert (Hin : In (EvNew "random" Toy.results_path (Err IncompatibleGameError))
                   (trace (snd (Toy.run Toy.misfit 2 3 None (SaveBool true)))))
    by (vm_compute; auto 6).
  destruct (c3_incompatible_agent_aborts
              Z.add 0 (Toy.toy Toy.misfit) 2 "CartPole-v0" "random" tt 3
              false false None (SaveBool true) 0 "random" Toy.results_path Hin)
    as (Hret & _ & Hreset & _ & _ & Hsave & Hmk).
  exact (conj Hin (conj Hret (conj Hreset (conj Hsave Hmk)))).
Defined.

Lemma c4_witness :
  episode_loop Z.add 0 (Toy.toy Toy.interrupted) 5 (Some 10)
               (Toy.at_loop 3 SaveNone)
  = (Raise KeyboardInterrupt,
     snd (episode_loop Z.add 0 (Toy.toy Toy.interrupted) 5 (Some 10)
                       (Toy.at_loop 3 SaveNone))) /\
  try_block Z.add 0 (Toy.toy Toy.interrupted) 5 (Some 10) Toy.results_path
            (Toy.at_loop 3 SaveNone)
  = finalize (Toy.toy Toy.interrupted) Toy.results_path
      {| world := world (snd (episode_loop Z.add 0 (Toy.toy Toy.interrupted) 5
                                           (Some 10) (Toy.at_loop 3 SaveNone)));
         trace := trace (snd (episode_loop Z.add 0 (Toy.toy Toy.interrupted) 5
                                           (Some 10) (Toy.at_loop 3 SaveNone)))
                  ++ [EvLog ERROR (MsgText "Canceled by user!")];
         vars := vars (snd (episode_loop Z.add 0 (Toy.toy Toy.interrupted) 5
                                         (Some 10) (Toy.at_loop 3 SaveNone))) |}.
Proof.
  assert (Hloop :
    episode_loop Z.add 0 (Toy.toy Toy.interrupted) 5 (Some 10)
                 (Toy.at_loop 3 SaveNone)
    = (Raise KeyboardInterrupt,
       snd (episode_loop Z.add 0 (Toy.toy Toy.interrupted) 5 (Some 10)
                         (Toy.at_loop 3 SaveNone))))
    by (vm_compute; reflexivity).
  destruct (c4_interrupt_reaches_finalization_once
              Z.add 0 (Toy.toy Toy.interrupted) 5 (Some 10) Toy.results_path
              (Toy.at_loop 3 SaveNone) _ Hloop) as (Heq & _).
  exact (conj Hloop Heq).
Defined.

Lemma c5_witness :
  fst (run_episode Z.add 0 (Toy.toy Toy.five_of_ten) (Some 10)
                   (Toy.at_loop 3 SaveNone)) = Return tt /\
  exists obs steps,
    trace (snd (run_episode Z.add 0 (Toy.toy Toy.five_of_ten) (Some 10)
                            (Toy.at_loop 3 SaveNone)))
    = trace (Toy.at_loop 3 SaveNone)
      ++ EvReset (Ok obs)
      :: steps
      ++ [EvLog DEBUG
            (MsgFormat "Episode {}: {}"
               [ArgInt (episode (vars (Toy.at_loop 3 SaveNone)) + 1);
                ArgReward (reward_sum Z.add 0 (step_rewards steps))])] /\
    forallb step_event steps = true.
Proof.
  assert (Hret : fst (run_episode Z.add 0 (Toy.toy Toy.five_of_ten) (Some 10)
                                  (Toy.at_loop 3 SaveNone)) = Return tt)
    by (vm_compute; reflexivity).
  exact (conj Hret
           (c5_logged_total_is_sum_of_step_rewards
              Z.add 0 (Toy.toy Toy.five_of_ten) (Some 10)
              (Toy.at_loop 3 SaveNone) Hret)).
Defined.

Lemma c6_witness :
  (done_at_step 5 (Toy.toy Toy.five_of_ten) Toy.clock /\
   episodes (vars (Toy.at_loop 3 SaveNone)) = 3 /\
   episode (vars (Toy.at_loop 3 SaveNone)) = 0 /\
   (3 <= 4)%nat) /\
  exists evs,
    fst (episode_loop Z.add 0 (Toy.toy Toy.five_of_ten) 4 (Some 10)
                      (Toy.at_loop 3 SaveNone)) = Return tt /\
    trace (snd (episode_loop Z.add 0 (Toy.toy Toy.five_of_ten) 4 (Some 10)
                             (Toy.at_loop 3 SaveNone)))
    = trace (Toy.at_loop 3 SaveNone) ++ evs /\
    made_of 3 five_step_episode evs /\
    count is_reset evs = 3%nat /\
    count is_step evs = 15%nat /\
    List.length (react_flags evs) = 15%nat /\
    (forall done truncated,
        In (done, truncated) (react_flags evs) -> truncated = false).
Proof.
  assert (Hfive : done_at_step 5 (Toy.toy Toy.five_of_ten) Toy.clock).
  { unfold done_at_step, Toy.clock. simpl. repeat split; intros.
    - exists 0, 0. split; reflexivity.
    - exists w. split; reflexivity.
    - exists tt, w. split; reflexivity.
    - exists (w + 1), 1, (w + 1). split; reflexivity.
    - exists w. split; reflexivity. }
  assert (Hfuel : (3 <= 4)%nat) by lia.
  exact (conj (conj Hfive (conj eq_refl (conj eq_refl Hfuel)))
              (c6_three_episodes_of_five_steps
                 Z.add 0 (Toy.toy Toy.five_of_ten) Toy.clock 4
                 (Toy.at_loop 3 SaveNone) Hfive eq_refl eq_refl Hfuel)).
Defined.

(** C7, as the spec words it, fails for the save flag: left at [None],
    it is [True] after the operator has answered yes in the [finally]
    block, one episode having run before. *)
Lemma c7_counterexample :
  ~ configuration_untouched
      (Toy.given 1 None SaveNone)
      (vars (snd (Toy.run Toy.says_yes 2 1 None SaveNone))).
Proof.
  intros [_ Hsave].
  assert (Hnow : save (vars (snd (Toy.run Toy.says_yes 2 1 None SaveNone)))
                 = SaveBool true)
    by (vm_compute; reflexivity).
  rewrite Hnow in Hsave. discriminate Hsave.
Qed.

Lemma c8_witness :
  forallb replied_ok
          (trace (snd (main Z.add 0 (Toy.toy Toy.five_of_ten) 2 "CartPole-v0"
                            "random" tt 3 false false (Some 7) (SaveBool true)
                            0)))
  = true /\
  fst (main Z.add 0 (Toy.toy Toy.five_of_ten) 2 "CartPole-v0" "random" tt 3
            false false (Some 7) (SaveBool true) 0)
  = Raise (NameError "random").
Proof.
  assert (Hok : forallb replied_ok
                  (trace (snd (main Z.add 0 (Toy.toy Toy.five_of_ten) 2
                                    "CartPole-v0" "random" tt 3 false false
                                    (Some 7) (SaveBool true) 0)))
                = true)
    by (vm_compute; reflexivity).
  destruct (c8_seed_raises_name_error
              Z.add 0 (Toy.toy Toy.five_of_ten) 2 "CartPole-v0" "random" tt 3
              false false 7 (SaveBool true) 0)
    as (_ & _ & _ & _ & _ & Hname).
  exact (conj Hok (Hname Hok)).
Defined.

Lemma c9_witness :
  -2 < -1 /\
  (episodes (vars (Toy.at_loop (-2) SaveNone)) = -2 /\
   episode (vars (Toy.at_loop (-2) SaveNone)) = 0) /\
  episode_loop Z.add 0 (Toy.toy Toy.five_of_ten) 3 (Some 10)
               (Toy.at_loop (-2) SaveNone)
  = (Return tt, Toy.at_loop (-2) SaveNone) /\
  count is_reset
        (trace (snd (main Z.add 0 (Toy.toy Toy.five_of_ten) 3 "CartPole-v0"
                          "random" tt (-2) false false None SaveNone 0)))
  = 0%nat.
Proof.
  assert (Hlt : -2 < -1) by lia.
  destruct (c9_budget_below_minus_one Z.add 0 (Toy.toy Toy.five_of_ten) (-2) Hlt)
    as (Hloop & Hmain).
  destruct (Hloop 3%nat (Some 10) Toy.results_path (Toy.at_loop (-2) SaveNone)
                  eq_refl eq_refl) as (Hret & _).
  destruct (Hmain 3%nat "CartPole-v0" "random" tt false false None SaveNone 0)
    as (Hresets & _).
  exact (conj Hlt (conj (conj eq_refl eq_refl) (conj Hret Hresets))).
Defined.

Lemma c10_witness :
  (In (EvPrompt "Save agent? " (Ok "Y"))
      (trace (snd (main Z.add 0 (Toy.toy Toy.says_yes) 2 "CartPole-v0" "random"
                        tt 1 false false None SaveNone 0))) /\
   lower "Y" = "y") /\
  count is_makedirs
        (trace (snd (main Z.add 0 (Toy.toy Toy.says_yes) 2 "CartPole-v0"
                          "random" tt 1 false false None SaveNone 0)))
  = 0%nat /\
  exists r,
    In (EvSave (path_join (results_dir "random" "CartPole-v0"
                                       (time_strftime (Toy.toy Toy.says_yes) 0))
                          "final.pkl") r)
       (trace (snd (main Z.add 0 (Toy.toy Toy.says_yes) 2 "CartPole-v0"
                         "random" tt 1 false false None SaveNone 0))).
Proof.
  assert (Hin : In (EvPrompt "Save agent? " (Ok "Y"))
                   (trace (snd (main Z.add 0 (Toy.toy Toy.says_yes) 2
                                     "CartPole-v0" "random" tt 1 false false
                                     None SaveNone 0)))).
  { vm_compute. repeat (first [left; reflexivity | right]). }
  assert (Hyes : lower "Y" = "y") by reflexivity.
  destruct (c10_saved_into_directory_never_made
              Z.add 0 (Toy.toy Toy.says_yes) 2 "CartPole-v0" "random" tt 1
              false false None 0 "Save agent? " "Y" Hin Hyes)
    as (Hmk & Hsaved & _).
  exact (conj (conj Hin Hyes) (conj Hmk Hsaved)).
Defined.

(** * The further properties on the toy environment *)

Lemma x1_witness :
  step_loop Z.add (Toy.toy Toy.five_of_ten) (Some 10) 0 false 0 0
            (Toy.at_loop_rendering true 3 SaveNone)
  = (Return 5,
     snd (step_loop Z.add (Toy.toy Toy.five_of_ten) (Some 10) 0 false 0 0
                    (Toy.at_loop_rendering true 3 SaveNone))) /\
  exists ts,
    trace (snd (step_loop Z.add (Toy.toy Toy.five_of_ten) (Some 10) 0 false 0 0
                          (Toy.at_loop_rendering true 3 SaveNone)))
    = trace (Toy.at_loop_rendering true 3 SaveNone)
      ++ iterations (render (vars (Toy.at_loop_rendering true 3 SaveNone)))
                    (Some 10) 0 ts /\
    linked 0 ts /\
    5 = fold_left Z.add (map t_reward ts) 0.
Proof.
  assert (Hrun :
    step_loop Z.add (Toy.toy Toy.five_of_ten) (Some 10) 0 false 0 0
              (Toy.at_loop_rendering true 3 SaveNone)
    = (Return 5,
       snd (step_loop Z.add (Toy.toy Toy.five_of_ten) (Some 10) 0 false 0 0
                      (Toy.at_loop_rendering true 3 SaveNone))))
    by (vm_compute; reflexivity).
  exact (conj Hrun
           (x1_passes_thread_the_observation
              Z.add (Toy.toy Toy.five_of_ten) (Some 10) 0 0
              (Toy.at_loop_rendering true 3 SaveNone) 5 _ Hrun)).
Defined.

Lemma x2_witness :
  step_loop Z.add (Toy.toy Toy.five_of_ten) (Some 3) 0 false 0 0
            (Toy.at_loop 3 SaveNone)
  = (Return 3,
     snd (step_loop Z.add (Toy.toy Toy.five_of_ten) (Some 3) 0 false 0 0
                    (Toy.at_loop 3 SaveNone))) /\
  exists evs,
    trace (snd (step_loop Z.add (Toy.toy Toy.five_of_ten) (Some 3) 0 false 0 0
                          (Toy.at_loop 3 SaveNone)))
    = trace (Toy.at_loop 3 SaveNone) ++ evs /\
    count is_step evs = List.length (react_flags evs) /\
    Forall (fun done => done = false)
           (removelast (map fst (react_flags evs))) /\
    (last (map fst (react_flags evs)) false = true \/
     Z.of_nat (List.length (react_flags evs)) = Z.max 0 3).
Proof.
  assert (Hrun :
    step_loop Z.add (Toy.toy Toy.five_of_ten) (Some 3) 0 false 0 0
              (Toy.at_loop 3 SaveNone)
    = (Return 3,
       snd (step_loop Z.add (Toy.toy Toy.five_of_ten) (Some 3) 0 false 0 0
                      (Toy.at_loop 3 SaveNone))))
    by (vm_compute; reflexivity).
  exact (conj Hrun
           (x2_loop_stops_on_done_or_limit
              Z.add (Toy.toy Toy.five_of_ten) 3 0 0 (Toy.at_loop 3 SaveNone)
              3 _ Hrun)).
Defined.

Lemma x3_witness :
  (py_lt 0 None = false /\
   env_reset (Toy.toy Toy.untagged) (world (Toy.at_loop 3 SaveNone))
   = (Ok 0, 0)) /\
  run_episode Z.add 0 (Toy.toy Toy.untagged) None (Toy.at_loop 3 SaveNone)
  = (Return tt,
     {| world := 0;
        trace := trace (Toy.at_loop 3 SaveNone)
                 ++ [EvReset (Ok 0);
                     EvLog DEBUG
                           (MsgFormat "Episode {}: {}"
                              [ArgInt (episode (vars (Toy.at_loop 3 SaveNone))
                                       + 1);
                               ArgReward 0])];
        vars := set_episode (episode (vars (Toy.at_loop 3 SaveNone)) + 1)
                            (vars (Toy.at_loop 3 SaveNone)) |}).
Proof.
  exact (conj (conj eq_refl eq_refl)
           (x3_no_limit_no_step Z.add 0 (Toy.toy Toy.untagged) None
              (Toy.at_loop 3 SaveNone) 0 0 eq_refl eq_refl)).
Defined.

Lemma x4_witness :
  (episode (vars (Toy.at_loop 3 SaveNone)) = 0 /\
   episode_loop Z.add 0 (Toy.raising SolvedGame 3 Toy.five_of_ten) 5 (Some 10)
                (Toy.at_loop 3 SaveNone)
   = (Raise SolvedGame,
      snd (episode_loop Z.add 0 (Toy.raising SolvedGame 3 Toy.five_of_ten) 5
                        (Some 10) (Toy.at_loop 3 SaveNone)))) /\
  exists evs,
    trace (snd (episode_loop Z.add 0 (Toy.raising SolvedGame 3 Toy.five_of_ten)
                             5 (Some 10) (Toy.at_loop 3 SaveNone)))
    = trace (Toy.at_loop 3 SaveNone) ++ evs /\
    episode (vars (snd (episode_loop Z.add 0
                                     (Toy.raising SolvedGame 3 Toy.five_of_ten)
                                     5 (Some 10) (Toy.at_loop 3 SaveNone))))
    = Z.of_nat (count is_reset evs) /\
    (1 <= count is_reset evs)%nat.
Proof.
  assert (Hloop :
    episode_loop Z.add 0 (Toy.raising SolvedGame 3 Toy.five_of_ten) 5 (Some 10)
                 (Toy.at_loop 3 SaveNone)
    = (Raise SolvedGame,
       snd (episode_loop Z.add 0 (Toy.raising SolvedGame 3 Toy.five_of_ten) 5
                         (Some 10) (Toy.at_loop 3 SaveNone))))
    by (vm_compute; reflexivity).
  destruct (x4_solved_signal_is_logged_and_finalized
              Z.add 0 (Toy.raising SolvedGame 3 Toy.five_of_ten) 5 (Some 10)
              Toy.results_path (Toy.at_loop 3 SaveNone) _ eq_refl Hloop)
    as (_ & Hevs).
  exact (conj (conj eq_refl Hloop) Hevs).
Defined.

Lemma x5_witness :
  (OtherError "ValueError" <> KeyboardInterrupt /\
   OtherError "ValueError" <> SolvedGame /\
   episode_loop Z.add 0
                (Toy.raising (OtherError "ValueError") 3 Toy.five_of_ten) 5
                (Some 10) (Toy.at_loop 3 SaveNone)
   = (Raise (OtherError "ValueError"),
      snd (episode_loop Z.add 0
                        (Toy.raising (OtherError "ValueError") 3 Toy.five_of_ten)
                        5 (Some 10) (Toy.at_loop 3 SaveNone)))) /\
  try_block Z.add 0 (Toy.raising (OtherError "ValueError") 3 Toy.five_of_ten) 5
            (Some 10) Toy.results_path (Toy.at_loop 3 SaveNone)
  = (after_final (Raise (OtherError "ValueError"))
       (fst (finalize (Toy.raising (OtherError "ValueError") 3 Toy.five_of_ten)
                      Toy.results_path
                      (snd (episode_loop Z.add 0
                              (Toy.raising (OtherError "ValueError") 3
                                           Toy.five_of_ten)
                              5 (Some 10) (Toy.at_loop 3 SaveNone))))),
     snd (finalize (Toy.raising (OtherError "ValueError") 3 Toy.five_of_ten)
                   Toy.results_path
                   (snd (episode_loop Z.add 0
                           (Toy.raising (OtherError "ValueError") 3
                                        Toy.five_of_ten)
                           5 (Some 10) (Toy.at_loop 3 SaveNone))))).
Proof.
  assert (Hki : OtherError "ValueError" <> KeyboardInterrupt)
    by (intros H; discriminate H).
  assert (Hsolved : OtherError "ValueError" <> SolvedGame)
    by (intros H; discriminate H).
  assert (Hloop :
    episode_loop Z.add 0
                 (Toy.raising (OtherError "ValueError") 3 Toy.five_of_ten) 5
                 (Some 10) (Toy.at_loop 3 SaveNone)
    = (Raise (OtherError "ValueError"),
       snd (episode_loop Z.add 0
                         (Toy.raising (OtherError "ValueError") 3
                                      Toy.five_of_ten)
                         5 (Some 10) (Toy.at_loop 3 SaveNone))))
    by (vm_compute; reflexivity).
  exact (conj (conj Hki (conj Hsolved Hloop))
           (x5_other_exception_is_finalized_then_raised
              Z.add 0 (Toy.raising (OtherError "ValueError") 3 Toy.five_of_ten)
              5 (Some 10) Toy.results_path (Toy.at_loop 3 SaveNone) _ _
              Hki Hsolved Hloop)).
Defined.

Lemma x9_witness :
  (In (EvPrompt "Save agent? " (Ok "yes"))
      (trace (snd (Toy.run Toy.says_yes_in_full 2 1 None SaveNone))) /\
   "yes" <> "y" /\ "yes" <> "Y") /\
  count is_save (trace (snd (Toy.run Toy.says_yes_in_full 2 1 None SaveNone)))
  = 0%nat /\
  save (vars (snd (Toy.run Toy.says_yes_in_full 2 1 None SaveNone))) = SaveNone.
Proof.
  assert (Hin : In (EvPrompt "Save agent? " (Ok "yes"))
                   (trace (snd (Toy.run Toy.says_yes_in_full 2 1 None
                                        SaveNone)))).
  { vm_compute. repeat (first [left; reflexivity | right]). }
  assert (Hy : "yes" <> "y") by (intros H; discriminate H).
  assert (HY : "yes" <> "Y") by (intros H; discriminate H).
  exact (conj (conj Hin (conj Hy HY))
           (x9_only_y_saves Z.add 0 (Toy.toy Toy.says_yes_in_full) 2
              "CartPole-v0" "random" tt 1 false false None SaveNone 0
              "Save agent? " "yes" Hin Hy HY)).
Defined.

Lemma x10_witness :
  (SaveBool true <> SaveNone /\
   fst (Toy.run Toy.five_of_ten 4 3 None (SaveBool true))
   = Return (RetAgent AgentObject)) /\
  count is_prompt (trace (snd (Toy.run Toy.five_of_ten 4 3 None (SaveBool true))))
  = 0%nat /\
  filter is_save (trace (snd (Toy.run Toy.five_of_ten 4 3 None (SaveBool true))))
  = [EvSave (path_join (results_dir "random" "CartPole-v0"
                                    (time_strftime (Toy.toy Toy.five_of_ten) 0))
                       "final.pkl") (Ok tt)].
Proof.
  assert (Hgiven : SaveBool true <> SaveNone) by (intros H; discriminate H).
  assert (Hret : fst (Toy.run Toy.five_of_ten 4 3 None (SaveBool true))
                 = Return (RetAgent AgentObject))
    by (vm_compute; reflexivity).
  destruct (x10_save_given_is_obeyed_without_asking
              Z.add 0 (Toy.toy Toy.five_of_ten) 4 "CartPole-v0" "random" tt 3
              false false None (SaveBool true) 0 Hgiven)
    as (Hprompt & _ & Hsaved).
  exact (conj (conj Hgiven Hret) (conj Hprompt (Hsaved AgentObject Hret))).
Defined.

Lemma x11_witness :
  (ns_save (Toy.parsed 1 (Some 1)) = Some 1 /\ 1 <> 0 /\
   fst (script Z.add 0 (Toy.toy Toy.five_of_ten) 2 (Toy.parsed 1 (Some 1)) 0)
   = Return (RetAgent AgentObject)) /\
  count is_makedirs
        (trace (snd (script Z.add 0 (Toy.toy Toy.five_of_ten) 2
                            (Toy.parsed 1 (Some 1)) 0)))
  = 0%nat /\
  filter is_save
         (trace (snd (script Z.add 0 (Toy.toy Toy.five_of_ten) 2
                             (Toy.parsed 1 (Some 1)) 0)))
  = [EvSave (path_join (results_dir (ns_agent (Toy.parsed 1 (Some 1)))
                                    (ns_game (Toy.parsed 1 (Some 1)))
                                    (time_strftime (Toy.toy Toy.five_of_ten) 0))
                       "final.pkl") (Ok tt)].
Proof.
  assert (Hn : 1 <> 0) by lia.
  assert (Hret : fst (script Z.add 0 (Toy.toy Toy.five_of_ten) 2
                             (Toy.parsed 1 (Some 1)) 0)
                 = Return (RetAgent AgentObject))
    by (vm_compute; reflexivity).
  destruct (x11_command_line_save_makes_no_directory
              Z.add 0 (Toy.toy Toy.five_of_ten) 2 (Toy.parsed 1 (Some 1)) 0)
    as (Hmk & Hsaved).
  destruct (Hsaved 1 AgentObject eq_refl Hn Hret) as (_ & Hsave).
  exact (conj (conj eq_refl (conj Hn Hret)) (conj Hmk Hsave)).
Defined.

Lemma x12_witness :
  fst (Toy.run Toy.interrupted 4 3 None (SaveBool false))
  = Return (RetAgent AgentObject) /\
  filter is_new (trace (snd (Toy.run Toy.interrupted 4 3 None (SaveBool false))))
  = [EvNew "random"
           (results_dir "random" "CartPole-v0"
                        (time_strftime (Toy.toy Toy.interrupted) 0))
           (Ok tt)].
Proof.
  assert (Hret : fst (Toy.run Toy.interrupted 4 3 None (SaveBool false))
                 = Return (RetAgent AgentObject))
    by (vm_compute; reflexivity).
  destruct (x12_main_returns_none_or_the_agent
              Z.add 0 (Toy.toy Toy.interrupted) 4 "CartPole-v0" "random" tt 3
              false false None (SaveBool false) 0 (RetAgent AgentObject) Hret)
    as [(Hnone & _)|(_ & Hnew)].
  - discriminate Hnone.
  - exact (conj Hret Hnew).
Defined.

Lemma x13_witness :
  (In (EvMake "CartPole-v0" (Err (OtherError "UnregisteredEnv")))
      (trace (snd (main Z.add 0
                        (Toy.unmade (OtherError "UnregisteredEnv")
                                    Toy.five_of_ten)
                        2 "CartPole-v0" "random" tt 3 false false None SaveNone
                        0))) /\
   setup_event (@EvMake Z unit Z "CartPole-v0"
                        (Err (OtherError "UnregisteredEnv"))) = true /\
   raised_by (@EvMake Z unit Z "CartPole-v0"
                      (Err (OtherError "UnregisteredEnv")))
   = Some (OtherError "UnregisteredEnv")) /\
  fst (main Z.add 0 (Toy.unmade (OtherError "UnregisteredEnv") Toy.five_of_ten)
            2 "CartPole-v0" "random" tt 3 false false None SaveNone 0)
  = Raise (OtherError "UnregisteredEnv") /\
  count is_prompt
        (trace (snd (main Z.add 0
                          (Toy.unmade (OtherError "UnregisteredEnv")
                                      Toy.five_of_ten)
                          2 "CartPole-v0" "random" tt 3 false false None
                          SaveNone 0)))
  = 0%nat.
Proof.
  assert (Hin :
    In (EvMake "CartPole-v0" (Err (OtherError "UnregisteredEnv")))
       (trace (snd (main Z.add 0
                         (Toy.unmade (OtherError "UnregisteredEnv")
                                     Toy.five_of_ten)
                         2 "CartPole-v0" "random" tt 3 false false None
                         SaveNone 0)))).
  { vm_compute. left. reflexivity. }
  assert (Hnew : is_new (@EvMake Z unit Z "CartPole-v0"
                                 (Err (OtherError "UnregisteredEnv"))) = true ->
                 OtherError "UnregisteredEnv" <> IncompatibleGameError)
    by (intros _ H; discriminate H).
  destruct (x13_failure_before_try_is_raised_unfinalized
              Z.add 0 (Toy.unmade (OtherError "UnregisteredEnv") Toy.five_of_ten)
              2 "CartPole-v0" "random" tt 3 false false None SaveNone 0
              _ _ Hin eq_refl eq_refl Hnew)
    as (Hraise & _ & Hprompt & _).
  exact (conj (conj Hin (conj eq_refl eq_refl)) (conj Hraise Hprompt)).
Defined.

Lemma x14_witness :
  (3 <> -1 /\ Z.max 0 3 <= Z.of_nat 4) /\
  Z.of_nat (count is_reset
                  (trace (snd (Toy.run Toy.interrupted 4 3 None
                                       (SaveBool false)))))
  <= Z.max 0 3 /\
  fst (Toy.run Toy.interrupted 4 3 None (SaveBool false)) <> OutOfFuel.
Proof.
  assert (Hne : 3 <> -1) by lia.
  assert (Hfuel : Z.max 0 3 <= Z.of_nat 4) by lia.
  destruct (x14_finite_budget_bounds_the_run
              Z.add 0 (Toy.toy Toy.interrupted) 4 "CartPole-v0" "random" tt 3
              false false None (SaveBool false) 0 Hne)
    as (Hbound & Hends).
  exact (conj (conj Hne Hfuel) (conj Hbound (Hends Hfuel))).
Defined.
